(** * MenuMaker: menu state model, validation and navigation

    A shallow embedding of [menu-maker.py].  Python values are modelled as
    follows.

    - [str] is [string]; a value of this type stands for a Python string
      whose code points are all below 128, so that [len] is [String.length]
      and [lower], [strip] and [int] act on single characters.
    - [int] is [Z].
    - A [dict] used as an ordered map (the category tree) is an association
      list in insertion order, with one binding for a key.
    - A [dict] used as a record (an item, a category, a palette entry) is a
      record; a key that the program may leave out is an [option] field.
    - [self] is a record of the attributes the code reads and writes, and a
      method is a function from state to state.  Lists and dictionaries
      that the code updates in place are updated in the tree that holds
      them.  The file behind [config_file] is part of the state.

    Widgets, colours on screen and the status bar are left out; an [async]
    action is the function of its body.  Assigning to the reactive
    attribute [menu_data] can make Textual call [watch_menu_data], which
    runs [update_menu_display] once more, and this extra run is not
    modelled.  It leaves the tree and the record that the file holds in
    the end as the modelled run leaves them.  Where the assignment is the
    one of [cleanup_empty_categories], inside [update_menu_display], the
    outer run goes on after the inner one and appends its entries to
    those the inner run has put into [display_items]: on a tree with a
    category without items the code shows every entry twice.  What is
    stated below about [display_items] after [update_menu_display] is
    therefore stated for trees without such a category, which is what
    every display leaves behind. *)

From Stdlib Require Import Bool Arith ZArith List Lia.
From Stdlib Require Import Ascii String DecimalString Permutation.
Import ListNotations.

Local Open Scope string_scope.
Local Open Scope list_scope.
Local Open Scope Z_scope.

(** ** Python string primitives *)

Module Py.

Definition code (c : ascii) : Z := Z.of_N (N_of_ascii c).

(** Whitespace as seen by [str.strip()] on ASCII text. *)
Definition is_space (c : ascii) : bool :=
  let n := code c in
  ((9 <=? n) && (n <=? 13)) || ((28 <=? n) && (n <=? 32)).

(** Whitespace as seen by [int(...)] on ASCII text ([Py_ISSPACE]). *)
Definition is_cspace (c : ascii) : bool :=
  let n := code c in
  ((9 <=? n) && (n <=? 13)) || (n =? 32).

Definition lower_char (c : ascii) : ascii :=
  let n := code c in
  if (65 <=? n) && (n <=? 90) then ascii_of_N (Z.to_N (n + 32)) else c.

Fixpoint lower (s : string) : string :=
  match s with
  | EmptyString => EmptyString
  | String c r => String (lower_char c) (lower r)
  end.

Fixpoint lstrip (s : string) : string :=
  match s with
  | EmptyString => EmptyString
  | String c r => if is_space c then lstrip r else s
  end.

Fixpoint rstrip (s : string) : string :=
  match s with
  | EmptyString => EmptyString
  | String c r =>
      match rstrip r with
      | EmptyString => if is_space c then EmptyString else String c EmptyString
      | r' => String c r'
      end
  end.

Definition strip (s : string) : string := lstrip (rstrip s).

Definition len (s : string) : Z := Z.of_nat (String.length s).

(** [s.startswith("#")] *)
Definition startswith_hash (s : string) : bool :=
  match s with
  | String c _ => Ascii.eqb c "#"
  | EmptyString => false
  end.

(** [s[1:]] *)
Definition tail (s : string) : string :=
  match s with
  | EmptyString => EmptyString
  | String _ r => r
  end.

(** *** [int(text, base)]

    CPython's [PyLong_FromString], for the bases 10 and 16: leading
    whitespace, an optional sign, for base 16 an optional [0x] prefix that
    one underscore may follow, then digits separated by single underscores,
    then trailing whitespace.  [None] is [ValueError]. *)

Definition digit_value (c : ascii) : option Z :=
  let n := code c in
  if (48 <=? n) && (n <=? 57) then Some (n - 48)
  else if (97 <=? n) && (n <=? 122) then Some (n - 87)
  else if (65 <=? n) && (n <=? 90) then Some (n - 55)
  else None.

Definition digit_in (base : Z) (c : ascii) : option Z :=
  match digit_value c with
  | Some d => if d <? base then Some d else None
  | None => None
  end.

Fixpoint lstrip_c (s : string) : string :=
  match s with
  | EmptyString => EmptyString
  | String c r => if is_cspace c then lstrip_c r else s
  end.

Definition skip_sign (s : string) : bool * string :=
  match s with
  | String c r =>
      if Ascii.eqb c "+" then (false, r)
      else if Ascii.eqb c "-" then (true, r)
      else (false, s)
  | EmptyString => (false, s)
  end.

Definition skip_prefix (base : Z) (s : string) : string :=
  match s with
  | String c0 (String c1 r) =>
      if (base =? 16) && Ascii.eqb c0 "0"
         && (Ascii.eqb c1 "x" || Ascii.eqb c1 "X")
      then match r with
           | String c2 r' => if Ascii.eqb c2 "_" then r' else r
           | EmptyString => r
           end
      else s
  | _ => s
  end.

(** [str[0] == '_'] *)
Definition starts_underscore (s : string) : bool :=
  match s with
  | String c _ => Ascii.eqb c "_"
  | EmptyString => false
  end.

(** The digit scan: [prev] tells whether the previous character was an
    underscore, [n] counts the digits read, [acc] is the value so far.  The
    scan stops at the first character that is neither a digit of the base
    nor an underscore and returns what is left. *)
Fixpoint scan_digits (base : Z) (s : string) (prev : bool) (n : nat) (acc : Z)
  : option (nat * Z * string) :=
  match s with
  | EmptyString => if prev then None else Some (n, acc, s)
  | String c r =>
      if Ascii.eqb c "_" then
        if prev then None else scan_digits base r true n acc
      else
        match digit_in base c with
        | Some d => scan_digits base r false (S n) (acc * base + d)
        | None => if prev then None else Some (n, acc, s)
        end
  end.

(** [sys.int_max_str_digits], which bounds the digits of a base that is not
    a power of two. *)
Definition max_str_digits : nat := 4300.

Definition int_of (base : Z) (text : string) : option Z :=
  let '(neg, s1) := skip_sign (lstrip_c text) in
  let s2 := skip_prefix base s1 in
  if starts_underscore s2 then None
  else
    match scan_digits base s2 false O 0 with
    | Some (n, v, rest) =>
        if negb (base =? 16) && Nat.ltb max_str_digits n then None
        else
          match n, lstrip_c rest with
          | S _, EmptyString => Some (if neg then - v else v)
          | _, _ => None
          end
    | None => None
    end.

(** [str(n)] for an integer. *)
Definition str_of_Z (n : Z) : string :=
  NilZero.string_of_int (Z.to_int n).

End Py.

(** ** Colour validation *)

(** [normalize_hex_color]; [None] is Python's [None]. *)
Definition normalize_hex_color (value : option string) : option string :=
  match value with
  | None => None
  | Some EmptyString => None
  | Some v =>
      let color := Py.lower (Py.strip v) in
      match color with
      | EmptyString => None
      | _ =>
          let color := if Py.startswith_hash color then color
                       else String "#" color in
          if negb (Py.len color =? 7) then None
          else
            match Py.int_of 16 (Py.tail color) with
            | None => None
            | Some _ => Some color
            end
      end
  end.

(** [{"background": ..., "text": ...}] *)
Record ColorPair := mkColorPair {
  background : string;
  text : string
}.

(** [sanitize_color_pair] *)
Definition sanitize_color_pair (color_pair : option ColorPair)
  : option ColorPair :=
  match color_pair with
  | None => None
  | Some cp =>
      match normalize_hex_color (Some (background cp)),
            normalize_hex_color (Some (text cp)) with
      | Some bg, Some tx => Some (mkColorPair bg tx)
      | _, _ => None
      end
  end.

(** ** The colour palette of the category editor *)

(** [{"name": ..., "background": ..., "text": ...}]; a key that is absent
    is [None]. *)
Record PaletteEntry := mkPaletteEntry {
  p_name : option string;
  p_background : option string;
  p_text : option string
}.

Definition entry (n b t : string) : PaletteEntry :=
  mkPaletteEntry (Some n) (Some b) (Some t).

Definition DEFAULT_COLOR_PAIRS : list PaletteEntry :=
  [ entry "Teal Glow" "#034e68" "#caf0f8";
    entry "Amber Pop" "#6f1d1b" "#ffe5d9";
    entry "Purple Mist" "#240046" "#f8f9fa";
    entry "Forest Tones" "#283618" "#fefae0";
    entry "Slate Shine" "#2b2d42" "#edf2f4" ].

(** Truth value of [d.get(key)] for a string-valued key. *)
Definition truthy (v : option string) : bool :=
  match v with
  | Some (String _ _) => true
  | _ => false
  end.

Definition str_or_empty (v : option string) : string :=
  match v with
  | Some s => s
  | None => ""
  end.

Definition pair_eqb (p q : string * string) : bool :=
  String.eqb (fst p) (fst q) && String.eqb (snd p) (snd q).

(** [pair in seen_pairs] *)
Definition seen (pair : string * string) (seen_pairs : list (string * string))
  : bool :=
  existsb (pair_eqb pair) seen_pairs.

(** [(bg.lower(), text.lower())] *)
Definition lower_pair (e : PaletteEntry) : string * string :=
  (Py.lower (str_or_empty (p_background e)), Py.lower (str_or_empty (p_text e))).

(** The first loop of [_build_palette_entries]: the pairs of the entries
    that carry both colours. *)
Fixpoint seen_of (palette : list PaletteEntry) : list (string * string) :=
  match palette with
  | [] => []
  | color :: rest =>
      if truthy (p_background color) && truthy (p_text color)
      then lower_pair color :: seen_of rest
      else seen_of rest
  end.

(** The second loop: [for default in DEFAULT_COLOR_PAIRS], with its
    [continue] and its [break]. *)
Fixpoint add_defaults (defaults palette : list PaletteEntry)
    (seen_pairs : list (string * string)) : list PaletteEntry :=
  match defaults with
  | [] => palette
  | default :: rest =>
      if negb (truthy (p_background default)) || negb (truthy (p_text default))
      then add_defaults rest palette seen_pairs
      else
        let pair := lower_pair default in
        let palette' := if seen pair seen_pairs then palette
                        else palette ++ [default] in
        let seen' := if seen pair seen_pairs then seen_pairs
                     else pair :: seen_pairs in
        if 4 <=? Z.of_nat (List.length palette') then palette'
        else add_defaults rest palette' seen'
  end.

Definition filler (palette : list PaletteEntry) : PaletteEntry :=
  entry ("Color " ++ Py.str_of_Z (Z.of_nat (List.length palette) + 1))%string
        "#034e68" "#caf0f8".

(** The third loop: [while len(palette) < 4].  Every round adds one entry,
    so [fuel] rounds are enough when [fuel] is at least 4. *)
Fixpoint add_fillers (fuel : nat) (palette : list PaletteEntry)
  : list PaletteEntry :=
  match fuel with
  | O => palette
  | S fuel' =>
      if Z.of_nat (List.length palette) <? 4
      then add_fillers fuel' (palette ++ [filler palette])
      else palette
  end.

(** [EditCategoryScreen._build_palette_entries], as a function of
    [self.available_colors]. *)
Definition build_palette_entries (available_colors : list PaletteEntry)
  : list PaletteEntry :=
  let palette := available_colors in
  add_fillers 4 (add_defaults DEFAULT_COLOR_PAIRS palette (seen_of palette)).

(** ** Ordered dictionaries *)

Section Dict.
Context {V : Type}.

(** A [dict] with string keys, in insertion order. *)
Definition dict := list (string * V).

(** [d.get(k)] *)
Fixpoint dict_get (k : string) (d : dict) : option V :=
  match d with
  | [] => None
  | (k', v) :: r => if String.eqb k' k then Some v else dict_get k r
  end.

(** [k in d] *)
Definition dict_mem (k : string) (d : dict) : bool :=
  match dict_get k d with
  | Some _ => true
  | None => false
  end.

(** [d[k] = v]: an existing key keeps its place, a new key goes last. *)
Fixpoint dict_set (k : string) (v : V) (d : dict) : dict :=
  match d with
  | [] => [(k, v)]
  | (k', v') :: r =>
      if String.eqb k' k then (k', v) :: r else (k', v') :: dict_set k v r
  end.

(** [del d[k]]: no binding of the key is left. *)
Definition dict_del (k : string) (d : dict) : dict :=
  List.filter (fun kv => negb (String.eqb (fst kv) k)) d.

(** [list(d.keys())] *)
Definition dict_keys (d : dict) : list string := List.map fst d.
End Dict.

Arguments dict V : clear implicits.

(** ** The menu tree *)

(** A menu item.  [label], [cmd], [info] and [category] are in every item
    the program builds; [pause] is missing from the default item and from
    scanned executables. *)
Record Item := mkItem {
  label : string;
  cmd : string;
  info : string;
  category : string;
  pause : option bool
}.

(** A category.  [column] is missing from the category that the directory
    scan creates, [colors] from every category until one is chosen. *)
Record Category := mkCategory {
  expanded : bool;
  column : option Z;
  colors : option ColorPair;
  items : list Item
}.

Definition MenuTree := dict Category.

Definition set_items (c : Category) (l : list Item) : Category :=
  mkCategory (expanded c) (column c) (colors c) l.
Definition set_column (c : Category) (n : Z) : Category :=
  mkCategory (expanded c) (Some n) (colors c) (items c).
Definition set_colors (c : Category) (cp : option ColorPair) : Category :=
  mkCategory (expanded c) (column c) cp (items c).
Definition set_expanded (c : Category) (b : bool) : Category :=
  mkCategory b (column c) (colors c) (items c).
Definition set_category (i : Item) (name : string) : Item :=
  mkItem (label i) (cmd i) (info i) name (pause i).

(** Equality of dictionaries-as-records is structural. *)
Definition Item_eq_dec (a b : Item) : {a = b} + {a <> b}.
Proof.
  decide equality;
    try apply string_dec; decide equality; apply bool_dec.
Defined.

Definition ColorPair_eq_dec (a b : ColorPair) : {a = b} + {a <> b}.
Proof. decide equality; apply string_dec. Defined.

Definition Category_eq_dec (a b : Category) : {a = b} + {a <> b}.
Proof.
  decide equality.
  - apply (list_eq_dec Item_eq_dec).
  - decide equality; apply ColorPair_eq_dec.
  - decide equality; apply Z.eq_dec.
  - apply bool_dec.
Defined.

Definition MenuTree_eq_dec (a b : MenuTree) : {a = b} + {a <> b}.
Proof.
  apply list_eq_dec. decide equality.
  - apply Category_eq_dec.
  - apply string_dec.
Defined.

(** [item in items] *)
Definition item_in (i : Item) (l : list Item) : bool :=
  if in_dec Item_eq_dec i l then true else false.

(** [items.remove(item)]: the first equal element goes. *)
Fixpoint list_remove (i : Item) (l : list Item) : list Item :=
  match l with
  | [] => []
  | x :: r => if Item_eq_dec x i then r else x :: list_remove i r
  end.

(** [category_data.get('column', 1)] *)
Definition column_or_1 (c : Category) : Z :=
  match column c with
  | Some n => n
  | None => 1
  end.

(** ** Application state *)

(** An entry of [display_items]; the widget is left out. *)
Inductive DisplayItem :=
| DCategory (name : string)
| DItem (data : Item).

(** What [save_menu_data] writes. *)
Record MenuFile := mkMenuFile {
  f_categories : MenuTree;
  f_title : string;
  f_columns : Z;
  f_custom_colors : list PaletteEntry
}.

(** The attributes of [MenuMaker] that the menu logic uses.
    [menu_container] tells whether the container is mounted.
    [config_file] lists every record written to the file, the latest
    first: its head is what the file holds. *)
Record App := mkApp {
  menu_data : MenuTree;
  column_count : Z;
  max_columns : Z;
  custom_colors : list PaletteEntry;
  app_title : string;
  menu_container : bool;
  display_items : list DisplayItem;
  current_index : Z;
  config_file : list MenuFile
}.

Definition with_menu_data (st : App) (md : MenuTree) : App :=
  mkApp md (column_count st) (max_columns st) (custom_colors st)
    (app_title st) (menu_container st) (display_items st) (current_index st)
    (config_file st).
Definition with_column_count (st : App) (n : Z) : App :=
  mkApp (menu_data st) n (max_columns st) (custom_colors st)
    (app_title st) (menu_container st) (display_items st) (current_index st)
    (config_file st).
Definition with_custom_colors (st : App) (l : list PaletteEntry) : App :=
  mkApp (menu_data st) (column_count st) (max_columns st) l
    (app_title st) (menu_container st) (display_items st) (current_index st)
    (config_file st).
Definition with_display_items (st : App) (l : list DisplayItem) : App :=
  mkApp (menu_data st) (column_count st) (max_columns st) (custom_colors st)
    (app_title st) (menu_container st) l (current_index st)
    (config_file st).
Definition with_current_index (st : App) (i : Z) : App :=
  mkApp (menu_data st) (column_count st) (max_columns st) (custom_colors st)
    (app_title st) (menu_container st) (display_items st) i
    (config_file st).
Definition with_config_file (st : App) (l : list MenuFile) : App :=
  mkApp (menu_data st) (column_count st) (max_columns st) (custom_colors st)
    (app_title st) (menu_container st) (display_items st) (current_index st)
    l.

(** [SettingsScreen.MAX_COLUMNS] *)
Definition MAX_COLUMNS : Z := 6.

(** [len(self.display_items)] *)
Definition display_len (st : App) : Z :=
  Z.of_nat (List.length (display_items st)).

(** [l[i]] with Python's negative indices; [None] is [IndexError]. *)
Definition py_index {A : Type} (l : list A) (i : Z) : option A :=
  let n := Z.of_nat (List.length l) in
  if 0 <=? i then nth_error l (Z.to_nat i)
  else if 0 <=? n + i then nth_error l (Z.to_nat (n + i))
  else None.

(** [range(1, n + 1)] *)
Definition range1 (n : Z) : list Z :=
  List.map Z.of_nat (List.seq 1 (Z.to_nat n)).

(** ** Persistence *)

(** [save_menu_data].  The write is taken to succeed; the code swallows a
    failed one. *)
Definition save_menu_data (st : App) : App :=
  with_config_file st
    (mkMenuFile (menu_data st) (app_title st) (column_count st)
       (custom_colors st) :: config_file st).

(** The item and the tree of [create_default_menu]. *)
Definition default_item : Item :=
  mkItem "System Monitor" "htop" "Interactive process viewer" "System Tools"
    None.

Definition default_data : MenuTree :=
  [ ("System Tools", mkCategory true (Some 1) None [default_item]) ].

(** ** Columns *)

(** [clamp_column_count], for an integer argument. *)
Definition clamp_column_count (st : App) (value : Z) : Z :=
  Z.max 1 (Z.min (max_columns st) value).

(** [normalize_column_value], for an integer argument, as a function of
    [self.column_count]. *)
Definition normalize_column_value (count : Z) (value : Z) : Z :=
  Z.max 1 (Z.min count value).

(** The loop of [ensure_category_columns]: the tree with every column
    normalised, and whether one changed. *)
Fixpoint ensure_columns (count : Z) (md : MenuTree) : MenuTree * bool :=
  match md with
  | [] => ([], false)
  | (name, category_data) :: rest =>
      let current_column := column_or_1 category_data in
      let normalized := normalize_column_value count current_column in
      let '(rest', changed) := ensure_columns count rest in
      if negb (current_column =? normalized)
      then ((name, set_column category_data normalized) :: rest', true)
      else ((name, category_data) :: rest', changed)
  end.

(** [ensure_category_columns] *)
Definition ensure_category_columns (st : App) : bool * App :=
  let '(md, changed) := ensure_columns (column_count st) (menu_data st) in
  (changed, with_menu_data st md).

(** ** Projection onto the display *)

(** [update_highlighting], as far as the state goes: the index is pulled
    into the range of a display that is not empty. *)
Definition update_highlighting (st : App) : App :=
  match display_items st with
  | [] => st
  | _ =>
      with_current_index st
        (Z.max 0 (Z.min (current_index st) (display_len st - 1)))
  end.

(** [cleanup_empty_categories].  The assignment to [menu_data] is a plain
    store here; in the code it is made only when a category goes, and it
    then runs [watch_menu_data] before the file is written. *)
Definition cleanup_empty_categories (st : App) : App :=
  let updated_data :=
    List.filter (fun kv => match items (snd kv) with
                           | [] => false
                           | _ => true
                           end) (menu_data st) in
  if MenuTree_eq_dec updated_data (menu_data st) then st
  else save_menu_data (with_menu_data st updated_data).

(** The first loop of [update_menu_display]: every category gets the column
    it is shown in. *)
Fixpoint assign_columns (count : Z) (md : MenuTree) : MenuTree * bool :=
  match md with
  | [] => ([], false)
  | (name, category_data) :: rest =>
      let column_index :=
        normalize_column_value count (column_or_1 category_data) in
      let '(rest', changed) := assign_columns count rest in
      match column category_data with
      | Some c =>
          if c =? column_index
          then ((name, category_data) :: rest', changed)
          else ((name, set_column category_data column_index) :: rest', true)
      | None => ((name, set_column category_data column_index) :: rest', true)
      end
  end.

(** The header of a category and, when it is expanded, its items. *)
Definition category_entries (name : string) (category_data : Category)
  : list DisplayItem :=
  DCategory name ::
  (if expanded category_data then List.map DItem (items category_data)
   else []).

(** [columns_content[column_index]], flattened. *)
Definition column_entries (md : MenuTree) (column_index : Z)
  : list DisplayItem :=
  List.flat_map
    (fun kv =>
       if column_or_1 (snd kv) =? column_index
       then category_entries (fst kv) (snd kv)
       else [])
    md.

(** The second loop: the columns from 1 to [count], in order. *)
Definition flatten (count : Z) (md : MenuTree) : list DisplayItem :=
  List.flat_map (column_entries md) (range1 count).

(** [update_menu_display], as it runs when [cleanup_empty_categories]
    assigns nothing, that is on a tree in which every category has an
    item; on another tree the tree and the file end up as here, and
    [display_items] does not (see the head of the file). *)
Definition update_menu_display (st : App) : App :=
  if negb (menu_container st) then st
  else
    let st := with_display_items st [] in
    let st := cleanup_empty_categories st in
    let '(md, columns_changed) :=
      assign_columns (column_count st) (menu_data st) in
    let st := with_menu_data st md in
    let st := if columns_changed then save_menu_data st else st in
    let st := with_display_items st (flatten (column_count st) md) in
    update_highlighting st.

(** [set_column_count], for an integer argument: the value returned and the
    new state. *)
Definition set_column_count (count : Z)
    (apply_layout persist save_on_change : bool) (st : App) : bool * App :=
  let normalized := clamp_column_count st count in
  let changed := negb (normalized =? column_count st) in
  let st := with_column_count st normalized in
  let '(columns_changed, st) := ensure_category_columns st in
  let st := if persist || (save_on_change && (changed || columns_changed))
            then save_menu_data st else st in
  let st := if apply_layout && menu_container st
            then update_menu_display st else st in
  (changed || columns_changed, st).

(** ** The cursor *)

(** [action_cursor_down].  [update_highlighting] runs at once on Linux and
    after the next refresh elsewhere. *)
Definition action_cursor_down (st : App) : App :=
  match display_items st with
  | [] => st
  | _ =>
      let new_index := (current_index st + 1) mod display_len st in
      if negb (new_index =? current_index st)
      then update_highlighting (with_current_index st new_index)
      else st
  end.

(** [action_cursor_up], with [update_highlighting] as for the way down. *)
Definition action_cursor_up (st : App) : App :=
  match display_items st with
  | [] => st
  | _ =>
      let new_index := (current_index st - 1) mod display_len st in
      if negb (new_index =? current_index st)
      then update_highlighting (with_current_index st new_index)
      else st
  end.

(** The index of the first entry that [p] accepts: the [for i, item in
    enumerate(...)] loops that stop at the first hit. *)
Fixpoint find_index {A : Type} (p : A -> bool) (l : list A) (i : Z)
  : option Z :=
  match l with
  | [] => None
  | x :: r => if p x then Some i else find_index p r (i + 1)
  end.

(** [restore_position_to_category] *)
Definition restore_position_to_category (category_name : string) (st : App)
  : App :=
  match find_index
          (fun e => match e with
                    | DCategory name => String.eqb name category_name
                    | DItem _ => false
                    end) (display_items st) 0 with
  | Some i => with_current_index st i
  | None => st
  end.

(** [navigate_to_item] *)
Definition navigate_to_item (target_item : Item) (st : App) : App :=
  match find_index
          (fun e => match e with
                    | DItem data =>
                        String.eqb (label data) (label target_item)
                        && String.eqb (cmd data) (cmd target_item)
                    | DCategory _ => false
                    end) (display_items st) 0 with
  | Some i => update_highlighting (with_current_index st i)
  | None => st
  end.

(** [n] presses of the down key. *)
Fixpoint cursor_down_times (n : nat) (st : App) : App :=
  match n with
  | O => st
  | S k => cursor_down_times k (action_cursor_down st)
  end.

(** ** Mutations of the tree *)

(** The category that [add_new_item] and [update_item] create. *)
Definition new_category_data (st : App) : Category :=
  mkCategory true (Some (normalize_column_value (column_count st) 1)) None [].

(** [updated_data[name]['items'].append(item)] *)
Definition append_item (name : string) (i : Item) (md : MenuTree) : MenuTree :=
  match dict_get name md with
  | Some category_data =>
      dict_set name (set_items category_data (items category_data ++ [i])) md
  | None => md
  end.

(** The tree that [add_new_item] stores. *)
Definition add_new_item_data (st : App) (item_data : Item) : MenuTree :=
  let category := category item_data in
  let updated_data := menu_data st in
  let updated_data :=
    if dict_mem category updated_data then updated_data
    else dict_set category (new_category_data st) updated_data in
  append_item category item_data updated_data.

(** [add_new_item] *)
Definition add_new_item (item_data : Item) (st : App) : App :=
  let st := with_menu_data st (add_new_item_data st item_data) in
  let st := save_menu_data st in
  update_menu_display st.

(** The inner loop of [update_item]: the first item with this label and
    command is popped; [None] when there is none. *)
Fixpoint pop_match (old_label old_cmd : string) (l : list Item)
  : option (list Item) :=
  match l with
  | [] => None
  | item :: r =>
      if String.eqb (label item) old_label && String.eqb (cmd item) old_cmd
      then Some r
      else match pop_match old_label old_cmd r with
           | Some r' => Some (item :: r')
           | None => None
           end
  end.

(** The outer loop of [update_item], over the categories in insertion
    order; [None] when [item_found] stays false. *)
Fixpoint remove_found (old_label old_cmd : string) (md : MenuTree)
  : option MenuTree :=
  match md with
  | [] => None
  | (category_name, category_data) :: rest =>
      match pop_match old_label old_cmd (items category_data) with
      | Some l => Some ((category_name, set_items category_data l) :: rest)
      | None =>
          match remove_found old_label old_cmd rest with
          | Some rest' => Some ((category_name, category_data) :: rest')
          | None => None
          end
      end
  end.

(** [categories_to_remove] *)
Definition categories_to_remove (md : MenuTree) : list string :=
  dict_keys (List.filter (fun kv => match items (snd kv) with
                                    | [] => true
                                    | _ => false
                                    end) md).

(** The tree that [update_item] stores; [None] when the item is not
    found. *)
Definition update_item_data (st : App) (old_item new_item : Item)
  : option MenuTree :=
  let old_label := label old_item in
  let old_cmd := cmd old_item in
  let new_category := category new_item in
  match remove_found old_label old_cmd (menu_data st) with
  | None => None
  | Some updated_data =>
      let updated_data :=
        if dict_mem new_category updated_data then updated_data
        else dict_set new_category (new_category_data st) updated_data in
      let updated_data := append_item new_category new_item updated_data in
      Some (List.fold_left (fun d name => dict_del name d)
              (categories_to_remove updated_data) updated_data)
  end.

(** [update_item] *)
Definition update_item (old_item new_item : Item) (st : App) : App :=
  match update_item_data st old_item new_item with
  | None => st
  | Some updated_data =>
      let st := with_menu_data st updated_data in
      let st := save_menu_data st in
      let st := update_menu_display st in
      navigate_to_item new_item st
  end.

(** The tree that [update_category_details] stores and the name the
    category ends up with; [None] when [old_name] is not a category. *)
Definition update_category_details_data (st : App) (old_name new_name : string)
    (colors_arg : option ColorPair) (column_arg : option Z)
  : option (string * MenuTree) :=
  match dict_get old_name (menu_data st) with
  | None => None
  | Some category_data =>
      let sanitized_colors := sanitize_color_pair colors_arg in
      let updated_data := menu_data st in
      let column_value :=
        normalize_column_value (column_count st)
          (match column_arg with
           | Some c => c
           | None => column_or_1 category_data
           end) in
      let category_data := set_column category_data column_value in
      let category_data := set_colors category_data sanitized_colors in
      let target_name :=
        match new_name with
        | EmptyString => old_name
        | _ => new_name
        end in
      let target_name :=
        if negb (String.eqb target_name old_name)
           && dict_mem target_name updated_data
        then old_name else target_name in
      if negb (String.eqb target_name old_name) then
        let category_data :=
          set_items category_data
            (List.map (fun item => set_category item target_name)
               (items category_data)) in
        Some (target_name,
              dict_del old_name (dict_set target_name category_data updated_data))
      else
        Some (target_name, dict_set old_name category_data updated_data)
  end.

(** [update_category_details] *)
Definition update_category_details (old_name new_name : string)
    (colors_arg : option ColorPair) (column_arg : option Z) (st : App) : App :=
  match update_category_details_data st old_name new_name colors_arg
          column_arg with
  | None => st
  | Some (target_name, updated_data) =>
      let st := with_menu_data st updated_data in
      let st := save_menu_data st in
      let st := update_menu_display st in
      let st := restore_position_to_category target_name st in
      update_highlighting st
  end.

(** The tree that [action_delete_item] stores for the selected item;
    [None] when its category or the item itself is not there. *)
Definition delete_item_data (md : MenuTree) (item_data : Item)
  : option MenuTree :=
  let category := category item_data in
  match dict_get category md with
  | None => None
  | Some category_data =>
      let l := items category_data in
      if item_in item_data l then
        match list_remove item_data l with
        | [] => Some (dict_del category md)
        | l' => Some (dict_set category (set_items category_data l') md)
        end
      else None
  end.

(** The last two lines of [action_delete_item]. *)
Definition adjust_index (st : App) : App :=
  if display_len st - 1 <=? current_index st
  then with_current_index st (Z.max 0 (display_len st - 2))
  else st.

(** [action_delete_item] *)
Definition action_delete_item (st : App) : App :=
  match display_items st with
  | [] => st
  | _ =>
      if display_len st <=? current_index st then st
      else
        match py_index (display_items st) (current_index st) with
        | Some (DItem item_data) =>
            match delete_item_data (menu_data st) item_data with
            | Some updated_data =>
                let st := with_menu_data st updated_data in
                let st := save_menu_data st in
                let st := update_menu_display st in
                adjust_index st
            | None => st
            end
        | _ => st
        end
  end.

(** ** The category editor *)

(** The attributes of [EditCategoryScreen] that [action_save] reads. *)
Record EditCategoryScreen := mkEditCategoryScreen {
  old_category_name : string;
  available_colors : list PaletteEntry;
  existing_categories : list string;
  scr_max_columns : Z;
  category_column : Z
}.

(** The values of the four input fields. *)
Record CategoryInputs := mkCategoryInputs {
  category_input : string;
  background_input : string;
  text_input : string;
  column_input : string
}.

(** What the screen is dismissed with. *)
Record CategoryResult := mkCategoryResult {
  r_old_name : string;
  r_new_name : string;
  r_colors : option ColorPair;
  r_column : Z;
  r_custom_colors : list PaletteEntry
}.

(** [action_save] either shows an error and stays open, or dismisses the
    screen with a result. *)
Inductive SaveOutcome :=
| ShowError (message : string)
| Dismiss (result : CategoryResult).

(** [name in existing] *)
Definition name_in (name : string) (l : list string) : bool :=
  existsb (String.eqb name) l.

(** [EditCategoryScreen.action_save] *)
Definition action_save (scr : EditCategoryScreen) (inp : CategoryInputs)
  : SaveOutcome :=
  let new_name := Py.strip (category_input inp) in
  match new_name with
  | EmptyString => ShowError "Category name is required."
  | _ =>
      let normalized_background :=
        normalize_hex_color (Some (background_input inp)) in
      let normalized_text := normalize_hex_color (Some (text_input inp)) in
      match normalized_background, normalized_text with
      | Some _, None | None, Some _ =>
          ShowError
            "Provide both background and text colors or leave both blank."
      | _, _ =>
          if negb (String.eqb new_name (old_category_name scr))
             && name_in new_name
                  (List.filter
                     (fun name =>
                        negb (String.eqb name (old_category_name scr)))
                     (existing_categories scr))
          then ShowError "Another category already uses that name."
          else
            let colors_value :=
              match normalized_background, normalized_text with
              | Some bg, Some tx => Some (mkColorPair bg tx)
              | _, _ => None
              end in
            let column_value :=
              match Py.int_of 10 (Py.strip (column_input inp)) with
              | Some n => n
              | None => category_column scr
              end in
            let column_value :=
              Z.max 1 (Z.min (scr_max_columns scr) column_value) in
            Dismiss (mkCategoryResult (old_category_name scr) new_name
                       colors_value column_value (available_colors scr))
      end
  end.

(** The screen that [action_edit_item] opens on a category header. *)
Definition open_category_editor (st : App) (category_name : string)
  : EditCategoryScreen :=
  let current_column :=
    match dict_get category_name (menu_data st) with
    | Some category_data => column_or_1 category_data
    | None => 1
    end in
  let max_c := Z.max 1 (column_count st) in
  mkEditCategoryScreen category_name (custom_colors st)
    (dict_keys (menu_data st)) max_c
    (Z.max 1 (Z.min max_c (if current_column =? 0 then 1 else current_column))).

(** [handle_category_edit_result], for a result that is not a cancel. *)
Definition handle_category_edit_result (result : CategoryResult) (st : App)
  : App :=
  let st := with_custom_colors st (r_custom_colors result) in
  update_category_details (r_old_name result) (r_new_name result)
    (r_colors result) (Some (r_column result)) st.

(** Editing a category through the dialog: the error shown, if any, and
    the state afterwards. *)
Definition edit_category (category_name : string) (inp : CategoryInputs)
    (st : App) : option string * App :=
  match action_save (open_category_editor st category_name) inp with
  | ShowError message => (Some message, st)
  | Dismiss result => (None, handle_category_edit_result result st)
  end.

(** ** Further actions of the application *)

(** [action_toggle_category] *)
Definition action_toggle_category (st : App) : App :=
  match display_items st with
  | [] => st
  | _ =>
      if display_len st <=? current_index st then st
      else
        match py_index (display_items st) (current_index st) with
        | Some (DCategory category_name) =>
            match dict_get category_name (menu_data st) with
            | Some category_data =>
                let current_state := expanded category_data in
                let updated_data :=
                  dict_set category_name
                    (set_expanded category_data (negb current_state))
                    (menu_data st) in
                let st := with_menu_data st updated_data in
                let st := save_menu_data st in
                let st := update_menu_display st in
                restore_position_to_category category_name st
            | None => st
            end
        | _ => st
        end
  end.

Definition with_app_title (st : App) (title : string) : App :=
  mkApp (menu_data st) (column_count st) (max_columns st) (custom_colors st)
    title (menu_container st) (display_items st) (current_index st)
    (config_file st).

(** [apply_theme], as far as the attributes of [App] go: the display is
    rebuilt and the highlight renewed.  The theme itself and its file are
    not part of [App]. *)
Definition apply_theme (st : App) : App :=
  update_highlighting (update_menu_display st).

(** [handle_settings_result], for a result that is not a cancel.
    [theme_changed] tells whether the theme of the result differs from the
    current one. *)
Definition handle_settings_result (title : string) (theme_changed : bool)
    (columns : Z) (st : App) : App :=
  let new_title := match Py.strip title with
                   | EmptyString => app_title st
                   | t => t
                   end in
  let '(columns_changed, st) :=
    set_column_count columns (negb theme_changed) false false st in
  let st := with_app_title st new_title in
  let st := if theme_changed then apply_theme st
            else if columns_changed then update_menu_display st
            else st in
  save_menu_data st.

(** ** The colour form of the category editor *)




(** ** The item editor *)

Module EditItemScreen.

(** The values of the fields of the form. *)
Record Inputs := mkInputs {
  label_input : string;
  cmd_input : string;
  info_input : string;
  category_input : string;
  pause_checkbox : bool
}.

(** [EditItemScreen.action_save]: the item the screen is dismissed
    with. *)
Definition action_save (inp : Inputs) : Item :=
  mkItem (Py.strip (label_input inp)) (Py.strip (cmd_input inp))
    (Py.strip (info_input inp))
    (match Py.strip (category_input inp) with
     | EmptyString => "General"
     | c => c
     end)
    (Some (pause_checkbox inp)).

End EditItemScreen.

(** [handle_new_result] of [action_new_item], for a result that is a
    save. *)
Definition handle_new_result (inp : EditItemScreen.Inputs) (st : App) : App :=
  add_new_item (EditItemScreen.action_save inp) st.

(** [handle_edit_result] of [action_edit_item], for the item under the
    cursor and a result that is a save. *)
Definition handle_edit_result (item_data : Item)
    (inp : EditItemScreen.Inputs) (st : App) : App :=
  update_item item_data (EditItemScreen.action_save inp) st.


(** ** The settings screen *)

Module SettingsScreen.

(** The attributes of [SettingsScreen] that [action_apply] reads. *)
Record Screen := mkScreen {
  current_title : string;
  column_count : Z
}.

(** [SettingsScreen(self.app_title, self.app_theme, self.column_count)] *)
Definition open (title : string) (columns : Z) : Screen :=
  mkScreen title (Z.max 1 (Z.min MAX_COLUMNS columns)).

(** [get_selected_columns], for the text of the input field. *)
Definition get_selected_columns (scr : Screen) (columns_input : string) : Z :=
  let value := match Py.int_of 10 (Py.strip columns_input) with
               | Some v => v
               | None => column_count scr
               end in
  Z.max 1 (Z.min MAX_COLUMNS value).

(** [action_apply]: the title and the number of columns of the result. *)
Definition action_apply (scr : Screen) (title_input columns_input : string)
  : string * Z :=
  let title_value := match Py.strip title_input with
                     | EmptyString => current_title scr
                     | t => t
                     end in
  (title_value, get_selected_columns scr columns_input).

End SettingsScreen.

(** [action_open_settings] with the screen applied: what the user typed
    goes through [action_apply] into [handle_settings_result]. *)
Definition apply_settings (title_input columns_input : string)
    (theme_changed : bool) (st : App) : App :=
  let scr := SettingsScreen.open (app_title st) (column_count st) in
  let '(title, columns) :=
    SettingsScreen.action_apply scr title_input columns_input in
  handle_settings_result title theme_changed columns st.
(** ** Loading the menu file

    [load_menu_data] works on whatever [json.load] returns, before anything
    is known about its shape, so this part of the program is embedded over
    JSON values; the attributes it sets hold JSON values too.  Numbers are
    integers: a JSON number with a fraction or an exponent is outside this
    model.  The move of a legacy [menus.json] into place and failures of
    the file system are not modelled. *)

Module Raw.

#[local] Set Warnings "-register-all".
Inductive json :=
| JNull
| JBool (b : bool)
| JNum (z : Z)
| JStr (s : string)
| JArr (l : list json)
| JObj (fields : list (string * json)).
#[local] Set Warnings "register-all".

(** What is behind [config_file]. *)
Inductive FileState :=
| Absent
| Unparsable
| Holds (data : json).

Record Self := mkSelf {
  menu_data : json;
  custom_colors : list json;
  app_title : json;
  column_count : Z;
  max_columns : Z;
  config_file : FileState
}.

Definition with_menu_data (st : Self) (j : json) : Self :=
  mkSelf j (custom_colors st) (app_title st) (column_count st)
    (max_columns st) (config_file st).
Definition with_custom_colors (st : Self) (l : list json) : Self :=
  mkSelf (menu_data st) l (app_title st) (column_count st)
    (max_columns st) (config_file st).
Definition with_app_title (st : Self) (j : json) : Self :=
  mkSelf (menu_data st) (custom_colors st) j (column_count st)
    (max_columns st) (config_file st).
Definition with_column_count (st : Self) (n : Z) : Self :=
  mkSelf (menu_data st) (custom_colors st) (app_title st) n
    (max_columns st) (config_file st).
Definition with_config_file (st : Self) (f : FileState) : Self :=
  mkSelf (menu_data st) (custom_colors st) (app_title st) (column_count st)
    (max_columns st) f.

(** *** Computations that may raise *)

Inductive Outcome (A : Type) :=
| Returned (a : A) (st : Self)
| Raised (st : Self).
Arguments Returned {A} a st.
Arguments Raised {A} st.

Definition M (A : Type) : Type := Self -> Outcome A.

Definition ret {A : Type} (a : A) : M A := fun st => Returned a st.
Definition raise {A : Type} : M A := fun st => Raised st.
Definition bind {A B : Type} (m : M A) (k : A -> M B) : M B :=
  fun st =>
    match m st with
    | Returned a st' => k a st'
    | Raised st' => Raised st'
    end.
Definition get : M Self := fun st => Returned st st.
Definition modify (f : Self -> Self) : M unit := fun st => Returned tt (f st).

Notation "x <- m ;; k" := (bind m (fun x => k))
  (at level 61, m at next level, right associativity).
Notation "m ;;; k" := (bind m (fun _ => k))
  (at level 61, right associativity).

(** *** Python's view of a JSON value *)

(** [bool(v)] *)
Definition truthy (j : json) : bool :=
  match j with
  | JNull => false
  | JBool b => b
  | JNum z => negb (z =? 0)
  | JStr s => negb (String.eqb s "")
  | JArr l => match l with [] => false | _ => true end
  | JObj l => match l with [] => false | _ => true end
  end.

(** [int(v)]; [None] is [TypeError] or [ValueError]. *)
Definition py_int (j : json) : option Z :=
  match j with
  | JNum z => Some z
  | JBool b => Some (if b then 1 else 0)
  | JStr s => Py.int_of 10 s
  | _ => None
  end.

(** [v == n] for an integer [n]. *)
Definition eq_int (j : json) (n : Z) : bool :=
  match j with
  | JNum z => z =? n
  | JBool b => (if b then 1 else 0) =? n
  | _ => false
  end.

(** [d.get(key)] for a dictionary [d], with [None] for a missing key. *)
Definition get_str (fields : list (string * json)) (key : string)
  : option string :=
  match dict_get key fields with
  | Some (JStr s) => Some s
  | _ => None
  end.

Definition get_or (fields : list (string * json)) (key : string)
    (default : json) : json :=
  match dict_get key fields with
  | Some v => v
  | None => default
  end.

(** [sanitize_color_pair] on a JSON value. *)
Definition sanitize_color_pair (j : json) : option (string * string) :=
  match j with
  | JObj fields =>
      match normalize_hex_color (get_str fields "background"),
            normalize_hex_color (get_str fields "text") with
      | Some bg, Some tx => Some (bg, tx)
      | _, _ => None
      end
  | _ => None
  end.

(** *** Encoding of the typed values *)

Definition opt_field (key : string) (v : option json)
  : list (string * json) :=
  match v with
  | Some j => [(key, j)]
  | None => []
  end.

Definition encode_entry (e : PaletteEntry) : json :=
  JObj (opt_field "name" (option_map JStr (p_name e))
        ++ opt_field "background" (option_map JStr (p_background e))
        ++ opt_field "text" (option_map JStr (p_text e))).

Definition encode_item (i : Item) : json :=
  JObj ([("label", JStr (label i)); ("cmd", JStr (cmd i));
         ("info", JStr (info i)); ("category", JStr (category i))]
        ++ opt_field "pause" (option_map JBool (pause i))).

Definition encode_colors (c : ColorPair) : json :=
  JObj [("background", JStr (background c)); ("text", JStr (text c))].

Definition encode_category (c : Category) : json :=
  JObj ([("expanded", JBool (expanded c))]
        ++ opt_field "column" (option_map JNum (column c))
        ++ [("items", JArr (List.map encode_item (items c)))]
        ++ opt_field "colors" (option_map encode_colors (colors c))).

Definition encode_tree (md : MenuTree) : json :=
  JObj (List.map (fun kv => (fst kv, encode_category (snd kv))) md).

(** *** The methods *)

(** The record that [save_menu_data] dumps. *)
Definition file_of (st : Self) : json :=
  JObj [("categories", menu_data st);
        ("app_settings",
         JObj [("title", app_title st); ("columns", JNum (column_count st))]);
        ("custom_colors", JArr (custom_colors st))].

(** [save_menu_data] *)
Definition save_menu_data (st : Self) : Self :=
  with_config_file st (Holds (file_of st)).

(** [create_default_menu] *)
Definition create_default_menu (st : Self) : Self :=
  let st := with_column_count st 1 in
  let st := with_menu_data st (encode_tree default_data) in
  let st := with_custom_colors st (List.map encode_entry DEFAULT_COLOR_PAIRS) in
  save_menu_data st.

(** [clamp_column_count] *)
Definition clamp_column_count (st : Self) (value : json) : Z :=
  let count := match py_int value with
               | Some n => n
               | None => 1
               end in
  Z.max 1 (Z.min (max_columns st) count).

(** [normalize_column_value] *)
Definition normalize_column_value (st : Self) (value : json) : Z :=
  let column := match py_int value with
                | Some n => n
                | None => 1
                end in
  Z.max 1 (Z.min (column_count st) column).

(** The loop of [ensure_category_columns] over the values of the tree.  The
    categories are updated in place, so those before a value that is not a
    dictionary keep their new column when the loop raises: the result is
    the tree so far, with [Some changed] at the end of the loop and [None]
    where it raised. *)
Fixpoint ensure_loop (st : Self) (cats : list (string * json))
  : list (string * json) * option bool :=
  match cats with
  | [] => ([], Some false)
  | (name, JObj fields) :: rest =>
      let current_column := get_or fields "column" (JNum 1) in
      let normalized := normalize_column_value st current_column in
      let here := negb (eq_int current_column normalized) in
      let fields' := if here then dict_set "column" (JNum normalized) fields
                     else fields in
      let '(rest', r) := ensure_loop st rest in
      ((name, JObj fields') :: rest',
       match r with
       | Some changed => Some (here || changed)
       | None => None
       end)
  | (name, other) :: rest => ((name, other) :: rest, None)
  end.

(** [ensure_category_columns] *)
Definition ensure_category_columns : M bool :=
  st <- get ;;
  match menu_data st with
  | JObj cats =>
      let '(cats', r) := ensure_loop st cats in
      modify (fun st => with_menu_data st (JObj cats')) ;;;
      match r with
      | Some changed => ret changed
      | None => raise
      end
  | _ => raise
  end.

(** [set_column_count(count, apply_layout=False, save_on_change=False)],
    the call that [load_menu_data] makes. *)
Definition set_column_count (count : json) : M bool :=
  st <- get ;;
  let normalized := clamp_column_count st count in
  let changed := negb (normalized =? column_count st) in
  modify (fun st => with_column_count st normalized) ;;;
  columns_changed <- ensure_category_columns ;;
  ret (changed || columns_changed).

(** The loop over [data.get('custom_colors', [])], counting from [idx]. *)
Fixpoint load_colors (entries : list json) (idx : Z) : list json :=
  match entries with
  | [] => []
  | entry :: rest =>
      match entry, sanitize_color_pair entry with
      | JObj fields, Some (bg, tx) =>
          let name := get_or fields "name" JNull in
          let name := if truthy name then name
                      else JStr ("Color " ++ Py.str_of_Z idx)%string in
          JObj [("name", name); ("background", JStr bg); ("text", JStr tx)]
          :: load_colors rest (idx + 1)
      | _, _ => load_colors rest (idx + 1)
      end
  end.

(** What iterating over [data.get('custom_colors', [])] yields: the
    elements of a list; nothing that is a colour for a string or a
    dictionary, whose characters or keys are strings; [None], a
    [TypeError], for a value that cannot be iterated. *)
Definition iterate (j : json) : option (list json) :=
  match j with
  | JArr l => Some l
  | JStr _ | JObj _ => Some []
  | _ => None
  end.

(** The [try] block of [load_menu_data] when the file exists and has been
    parsed into [data]. *)
Definition load_parsed (data : json) : M unit :=
  match data with
  | JObj top =>
      modify (fun st => with_menu_data st (get_or top "categories" (JObj []))) ;;;
      match iterate (get_or top "custom_colors" (JArr [])) with
      | None => raise
      | Some entries =>
          let loaded_colors := load_colors entries 1 in
          match loaded_colors with
          | [] => ret tt
          | _ => modify (fun st => with_custom_colors st loaded_colors)
          end ;;;
          match dict_get "app_settings" top with
          | None => ret tt
          | Some (JObj settings) =>
              match dict_get "title" settings with
              | Some title => modify (fun st => with_app_title st title)
              | None => ret tt
              end ;;;
              set_column_count (get_or settings "columns" (JNum 1)) ;;;
              if dict_mem "theme" settings then
                st <- get ;;
                let top' :=
                  if dict_mem "categories" top
                  then dict_set "categories" (menu_data st) top
                  else top in
                let top' :=
                  dict_set "app_settings"
                    (JObj (dict_del "theme" settings)) top' in
                modify (fun st => with_config_file st (Holds (JObj top')))
              else ret tt
          | Some _ => raise
          end
      end
  | _ => raise
  end.

(** The [try] block of [load_menu_data]. *)
Definition load_body : M unit :=
  st <- get ;;
  match config_file st with
  | Absent => modify create_default_menu
  | Unparsable => raise
  | Holds data => load_parsed data
  end ;;;
  changed <- ensure_category_columns ;;
  if changed then modify save_menu_data else ret tt.

(** [load_menu_data] *)
Definition load_menu_data (st : Self) : Self :=
  match load_body st with
  | Returned _ st' => st'
  | Raised st' => create_default_menu st'
  end.

End Raw.

(** ** Vocabulary of the properties *)

(** A hexadecimal digit: [0-9], [a-f] or [A-F]. *)
Definition is_hex_char (c : ascii) : bool :=
  let n := Py.code c in
  ((48 <=? n) && (n <=? 57)) || ((97 <=? n) && (n <=? 102))
  || ((65 <=? n) && (n <=? 70)).

Fixpoint all_hex (s : string) : bool :=
  match s with
  | EmptyString => true
  | String c r => is_hex_char c && all_hex r
  end.

(** Exactly six hexadecimal digits. *)
Definition is_hex6 (s : string) : bool :=
  Nat.eqb (String.length s) 6 && all_hex s.

(** The part of a string after the marker [#], or the whole string when it
    does not begin with the marker. *)
Definition after_marker (s : string) : string :=
  if Py.startswith_hash s then Py.tail s else s.

Ltac each_char c :=
  destruct c as [[] [] [] [] [] [] [] []]; vm_compute; try reflexivity;
  try discriminate; auto.

(** A built-in default whose pair of colours is not among the custom
    ones, compared in lower case. *)
Definition unseen (custom : list PaletteEntry) (d : PaletteEntry) : bool :=
  negb (seen (lower_pair d) (seen_of custom)).


(** A tree as the display leaves it: no category without items, and a
    column in every category. *)
Definition settled (md : MenuTree) : bool :=
  forallb (fun kv => match items (snd kv), column (snd kv) with
                     | _ :: _, Some _ => true
                     | _, _ => false
                     end) md.

(** A settled tree whose columns lie within [count]. *)
Definition stable (count : Z) (md : MenuTree) : Prop :=
  Forall (fun kv => items (snd kv) <> []
                    /\ exists c, column (snd kv) = Some c
                                 /\ normalize_column_value count c = c) md.

(** Every category in the column that [normalize_column_value] gives it. *)
Definition renormalized (count : Z) (md : MenuTree) : MenuTree :=
  List.map (fun kv =>
              (fst kv,
               set_column (snd kv)
                 (normalize_column_value count (column_or_1 (snd kv))))) md.

(** ** Sample data *)

Definition editor_work : Item := mkItem "Editor" "vim" "Text editor" "Work" None.
Definition editor_play : Item := mkItem "Editor" "vim" "Text editor" "Play" None.
Definition editor_new : Item :=
  mkItem "Editor 2" "nvim" "Text editor" "Play" (Some false).

Definition sample_tree : MenuTree :=
  [ ("Work", mkCategory true (Some 1) None [editor_work]);
    ("Play", mkCategory true (Some 1) None [editor_play]) ].

(** A mounted application showing [sample_tree] in one column, with the
    cursor on the last entry. *)
Definition sample_app : App :=
  mkApp sample_tree 1 MAX_COLUMNS DEFAULT_COLOR_PAIRS "Menu" true
    (flatten 1 sample_tree) 3 [].

(** ** Vocabulary for the menu file *)

Definition is_obj (j : Raw.json) : bool :=
  match j with
  | Raw.JObj _ => true
  | _ => false
  end.

Definition is_str (j : option Raw.json) : bool :=
  match j with
  | Some (Raw.JStr _) => true
  | _ => false
  end.

(** A tree on which [ensure_category_columns] raises: it is not a
    dictionary, or one of its values is not. *)
Definition bad_tree (j : Raw.json) : bool :=
  match j with
  | Raw.JObj cats => existsb (fun kv => negb (is_obj (snd kv))) cats
  | _ => true
  end.

(** Content of a parsed file on which the [try] block of
    [load_menu_data] raises: the top level is not a dictionary, or
    [custom_colors] cannot be iterated, or [app_settings] is there and is
    not a dictionary, or [categories] is not a dictionary, or one of the
    categories is not.  With numbers that are not integers, which this
    model leaves out, there is more: on a column of [1e999], [int] raises
    an [OverflowError] that only the handler of [load_menu_data]
    catches. *)
Definition unreadable (data : Raw.json) : bool :=
  match data with
  | Raw.JObj top =>
      match Raw.iterate (Raw.get_or top "custom_colors" (Raw.JArr [])) with
      | None => true
      | Some _ =>
          match dict_get "app_settings" top with
          | Some (Raw.JObj _) | None =>
              bad_tree (Raw.get_or top "categories" (Raw.JObj []))
          | Some _ => true
          end
      end
  | _ => true
  end.

(** The menu record as the specification describes it: categories with
    [expanded], [column] and a sequence of items that have [label], [cmd],
    [info] and [category]; settings with a title and a column count; a
    list of custom colours with a name and two colours. *)
Definition spec_item_shape (j : Raw.json) : bool :=
  match j with
  | Raw.JObj f =>
      is_str (dict_get "label" f) && is_str (dict_get "cmd" f)
      && is_str (dict_get "info" f) && is_str (dict_get "category" f)
  | _ => false
  end.

Definition spec_category_shape (j : Raw.json) : bool :=
  match j with
  | Raw.JObj f =>
      match dict_get "expanded" f, dict_get "column" f, dict_get "items" f with
      | Some (Raw.JBool _), Some (Raw.JNum _), Some (Raw.JArr l) =>
          forallb spec_item_shape l
      | _, _, _ => false
      end
  | _ => false
  end.

Definition spec_color_shape (j : Raw.json) : bool :=
  match j with
  | Raw.JObj f =>
      is_str (dict_get "name" f) && is_str (dict_get "background" f)
      && is_str (dict_get "text" f)
  | _ => false
  end.

Definition spec_record_shape (data : Raw.json) : bool :=
  match data with
  | Raw.JObj top =>
      match dict_get "categories" top, dict_get "app_settings" top,
            dict_get "custom_colors" top with
      | Some (Raw.JObj cats), Some (Raw.JObj settings), Some (Raw.JArr cols) =>
          forallb (fun kv => spec_category_shape (snd kv)) cats
          && is_str (dict_get "title" settings)
          && match dict_get "columns" settings with
             | Some (Raw.JNum _) => true
             | _ => false
             end
          && forallb spec_color_shape cols
      | _, _, _ => false
      end
  | _ => false
  end.

(** A record whose one category has a number where its items should
    be. *)
Definition odd_record : Raw.json :=
  Raw.JObj
    [ ("categories",
       Raw.JObj
         [ ("Tools",
            Raw.JObj [ ("expanded", Raw.JBool true); ("column", Raw.JNum 1);
                       ("items", Raw.JNum 7) ]) ]);
      ("app_settings",
       Raw.JObj [ ("title", Raw.JStr "Menu"); ("columns", Raw.JNum 1) ]);
      ("custom_colors", Raw.JArr []) ].

(** Attributes as [__init__] sets them before it loads the file, with a
    short title. *)
Definition fresh (file : Raw.FileState) : Raw.Self :=
  Raw.mkSelf (Raw.JObj []) (List.map Raw.encode_entry DEFAULT_COLOR_PAIRS)
    (Raw.JStr "Menu Maker") 1 MAX_COLUMNS file.

(** ** Invariants of the tree and of the state *)

(** No two categories have the same name. *)
Definition unique_keys (md : MenuTree) : Prop := NoDup (dict_keys md).

(** Every item names the category that holds it. *)
Definition owned (md : MenuTree) : Prop :=
  forall name cd i, In (name, cd) md -> In i (items cd) -> category i = name.

(** No category is without items. *)
Definition no_empty (md : MenuTree) : Prop :=
  forall name cd, In (name, cd) md -> items cd <> [].

(** Every category is in a column from 1 to [count]. *)
Definition columns_within (count : Z) (md : MenuTree) : Prop :=
  forall name cd, In (name, cd) md ->
    exists c, column cd = Some c /\ 1 <= c <= count.

(** The number of items of the whole tree. *)
Definition total_items (md : MenuTree) : nat :=
  list_sum (List.map (fun kv => List.length (items (snd kv))) md).

(** The record of the state, as [save_menu_data] writes it. *)
Definition record_of (st : App) : MenuFile :=
  mkMenuFile (menu_data st) (app_title st) (column_count st)
    (custom_colors st).

(** The file holds the record of the state. *)
Definition in_sync (st : App) : Prop :=
  exists earlier, config_file st = record_of st :: earlier.

(** Two trees with the same categories, in the same order, that differ at
    most in the columns. *)
Definition same_but_columns (md md' : MenuTree) : Prop :=
  Forall2 (fun a b => fst a = fst b
                      /\ items (snd a) = items (snd b)
                      /\ expanded (snd a) = expanded (snd b)
                      /\ colors (snd a) = colors (snd b)) md md'.

(** The tree without its empty categories. *)
Definition without_empty (md : MenuTree) : MenuTree :=
  List.filter (fun kv => match items (snd kv) with
                         | [] => false
                         | _ => true
                         end) md.

(** The tree that [update_menu_display] leaves: empty categories gone,
    columns assigned. *)
Definition display_tree (count : Z) (md : MenuTree) : MenuTree :=
  fst (assign_columns count (without_empty md)).

(** ** Sequences of user actions *)

(** What the user can do to the menu. *)
Inductive Action :=
| AddItem (item_data : Item)
| UpdateItem (old_item new_item : Item)
| DeleteItem
| UpdateCategoryDetails (old_name new_name : string)
    (colors_arg : option ColorPair) (column_arg : option Z)
| ToggleCategory
| SetColumnCount (count : Z) (apply_layout : bool)
| Settings (title : string) (theme_changed : bool) (columns : Z)
| CursorDown
| CursorUp.

Definition run (a : Action) (st : App) : App :=
  match a with
  | AddItem item_data => add_new_item item_data st
  | UpdateItem old_item new_item => update_item old_item new_item st
  | DeleteItem => action_delete_item st
  | UpdateCategoryDetails old_name new_name colors_arg column_arg =>
      update_category_details old_name new_name colors_arg column_arg st
  | ToggleCategory => action_toggle_category st
  | SetColumnCount count apply_layout =>
      snd (set_column_count count apply_layout false true st)
  | Settings title theme_changed columns =>
      handle_settings_result title theme_changed columns st
  | CursorDown => action_cursor_down st
  | CursorUp => action_cursor_up st
  end.

Definition run_all (l : list Action) (st : App) : App :=
  List.fold_left (fun s a => run a s) l st.

(** A property of the column count and the tree, on a state. *)
Definition holds_on (P : Z -> MenuTree -> Prop) (st : App) : Prop :=
  P (column_count st) (menu_data st).



(** ** The record of the file as JSON *)

(** What [json.dump] writes for a record of [save_menu_data]. *)
Definition encode_file (f : MenuFile) : Raw.json :=
  Raw.JObj
    [("categories", Raw.encode_tree (f_categories f));
     ("app_settings",
      Raw.JObj [("title", Raw.JStr (f_title f));
                ("columns", Raw.JNum (f_columns f))]);
     ("custom_colors", Raw.JArr (List.map Raw.encode_entry (f_custom_colors f)))].

(** A palette entry as the program builds them: a name that is not empty
    and two normalised colours. *)
Definition palette_ok (e : PaletteEntry) : Prop :=
  exists n b t,
    e = entry n b t /\ n <> EmptyString
    /\ normalize_hex_color (Some b) = Some b
    /\ normalize_hex_color (Some t) = Some t.
(** * Properties *)

(** ** Sanity checks *)

Example hex_1 : normalize_hex_color (Some "1a2B3C") = Some "#1a2b3c".
Proof. reflexivity. Qed.
Example hex_2 : normalize_hex_color (Some "12345") = None.
Proof. reflexivity. Qed.
Example hex_3 : normalize_hex_color (Some "#zzzzzz") = None.
Proof. reflexivity. Qed.
Example hex_4 : normalize_hex_color (Some "+12345") = Some "#+12345".
Proof. reflexivity. Qed.
Example hex_5 : normalize_hex_color (Some "  #AbCdEf ") = Some "#abcdef".
Proof. reflexivity. Qed.
Example hex_6 : normalize_hex_color (Some "0x1_2f") = Some "#0x1_2f".
Proof. reflexivity. Qed.
Example int_1 : Py.int_of 10 " -1_000 " = Some (-1000).
Proof. reflexivity. Qed.
Example int_2 : Py.int_of 16 "0x" = None.
Proof. reflexivity. Qed.
Example int_3 : Py.int_of 10 "1__0" = None.
Proof. reflexivity. Qed.
Example int_4 : Py.int_of 10 "12a" = None.
Proof. reflexivity. Qed.

Example str_1 : Py.str_of_Z 12 = "12". Proof. reflexivity. Qed.
Example str_2 : Py.str_of_Z (-3) = "-3". Proof. reflexivity. Qed.
Example str_3 : Py.str_of_Z 0 = "0". Proof. reflexivity. Qed.

Example pal_1 : build_palette_entries [] = firstn 4 DEFAULT_COLOR_PAIRS.
Proof. reflexivity. Qed.
Example pal_2 : List.length (build_palette_entries DEFAULT_COLOR_PAIRS) = 5%nat.
Proof. reflexivity. Qed.

Example display_1 :
  display_items sample_app
  = [DCategory "Work"; DItem editor_work; DCategory "Play"; DItem editor_play].
Proof. reflexivity. Qed.
Example display_2 :
  display_items (add_new_item editor_new sample_app)
  = [DCategory "Work"; DItem editor_work;
     DCategory "Play"; DItem editor_play; DItem editor_new].
Proof. reflexivity. Qed.
Example load_1 :
  Raw.load_menu_data (fresh Raw.Unparsable)
  = Raw.create_default_menu (fresh Raw.Unparsable).
Proof. reflexivity. Qed.
Example load_2 :
  Raw.config_file (Raw.load_menu_data (fresh (Raw.Holds odd_record)))
  = Raw.Holds odd_record.
Proof. reflexivity. Qed.

(** ** Characters and strings *)

Lemma lower_char_idem (c : ascii) :
  Py.lower_char (Py.lower_char c) = Py.lower_char c.
Proof. each_char c. Qed.

Lemma is_space_lower_char (c : ascii) :
  Py.is_space (Py.lower_char c) = Py.is_space c.
Proof. each_char c. Qed.

Lemma lower_char_hash (c : ascii) :
  Ascii.eqb (Py.lower_char c) "#" = Ascii.eqb c "#".
Proof. each_char c. Qed.

Lemma is_hex_lower_char (c : ascii) :
  is_hex_char (Py.lower_char c) = is_hex_char c.
Proof. each_char c. Qed.

Lemma hex_char_digit (c : ascii) :
  is_hex_char c = true ->
  Ascii.eqb c "_" = false /\ exists d, Py.digit_in 16 c = Some d.
Proof. each_char c; split; try reflexivity; eexists; reflexivity. Qed.

Lemma hex_char_plain (c : ascii) :
  is_hex_char c = true ->
  Py.is_cspace c = false /\ Ascii.eqb c "+" = false
  /\ Ascii.eqb c "-" = false /\ Ascii.eqb c "x" = false
  /\ Ascii.eqb c "X" = false.
Proof. each_char c. Qed.

Lemma lower_idem (s : string) : Py.lower (Py.lower s) = Py.lower s.
Proof.
  induction s as [|c r IH]; simpl; [reflexivity|].
  now rewrite lower_char_idem, IH.
Qed.

Lemma lower_length (s : string) :
  String.length (Py.lower s) = String.length s.
Proof. induction s; simpl; congruence. Qed.

Lemma all_hex_lower (s : string) : all_hex (Py.lower s) = all_hex s.
Proof.
  induction s as [|c r IH]; simpl; [reflexivity|].
  now rewrite is_hex_lower_char, IH.
Qed.

Lemma lstrip_lower (s : string) : Py.lstrip (Py.lower s) = Py.lower (Py.lstrip s).
Proof.
  induction s as [|c r IH]; simpl; [reflexivity|].
  rewrite is_space_lower_char. destruct (Py.is_space c); [exact IH|reflexivity].
Qed.

Lemma rstrip_lower (s : string) : Py.rstrip (Py.lower s) = Py.lower (Py.rstrip s).
Proof.
  induction s as [|c r IH]; simpl; [reflexivity|].
  rewrite IH, is_space_lower_char.
  destruct (Py.rstrip r); simpl; [destruct (Py.is_space c)|]; reflexivity.
Qed.

Lemma strip_lower (s : string) : Py.strip (Py.lower s) = Py.lower (Py.strip s).
Proof. unfold Py.strip. now rewrite rstrip_lower, lstrip_lower. Qed.

Lemma lstrip_idem (s : string) : Py.lstrip (Py.lstrip s) = Py.lstrip s.
Proof.
  induction s as [|c r IH]; simpl; [reflexivity|].
  destruct (Py.is_space c) eqn:E; [exact IH|]. simpl. now rewrite E.
Qed.

Lemma rstrip_idem (s : string) : Py.rstrip (Py.rstrip s) = Py.rstrip s.
Proof.
  induction s as [|c r IH]; simpl; [reflexivity|].
  destruct (Py.rstrip r) as [|c' r'] eqn:E.
  - destruct (Py.is_space c) eqn:Ec; simpl; [reflexivity|]. now rewrite Ec.
  - change (Py.rstrip (String c (String c' r'))) with
      (match Py.rstrip (String c' r') with
       | EmptyString => if Py.is_space c then EmptyString else String c EmptyString
       | x => String c x
       end).
    now rewrite IH.
Qed.

(** A string that [rstrip] leaves alone stays so when [lstrip] shortens
    it. *)
Lemma rstrip_lstrip_fixed (s : string) :
  Py.rstrip s = s -> Py.rstrip (Py.lstrip s) = Py.lstrip s.
Proof.
  induction s as [|c r IH]; intros H; [reflexivity|].
  simpl. destruct (Py.is_space c) eqn:Ec; [|exact H].
  apply IH. simpl in H. rewrite Ec in H.
  destruct (Py.rstrip r) eqn:E; [discriminate|]. now inversion H.
Qed.

Lemma strip_idem (s : string) : Py.strip (Py.strip s) = Py.strip s.
Proof.
  unfold Py.strip.
  rewrite (rstrip_lstrip_fixed (Py.rstrip s)) by apply rstrip_idem.
  apply lstrip_idem.
Qed.

Lemma rstrip_strip (s : string) : Py.rstrip (Py.strip s) = Py.strip s.
Proof. unfold Py.strip. apply rstrip_lstrip_fixed, rstrip_idem. Qed.

Lemma lstrip_strip (s : string) : Py.lstrip (Py.strip s) = Py.strip s.
Proof. unfold Py.strip. apply lstrip_idem. Qed.

(** A string with a marker in front of a trimmed one is trimmed. *)
Lemma strip_hash (s : string) :
  s <> EmptyString -> Py.rstrip s = s -> Py.strip (String "#" s) = String "#" s.
Proof.
  intros Hne H. unfold Py.strip. simpl Py.rstrip. rewrite H.
  destruct s; [congruence|]. reflexivity.
Qed.


(** ** [int(text, 16)] on hexadecimal digits *)

Lemma scan_digits_hex (h : string) :
  all_hex h = true ->
  forall n acc, exists v,
    Py.scan_digits 16 h false n acc = Some ((n + String.length h)%nat, v, EmptyString).
Proof.
  induction h as [|c r IH]; intros H n acc; simpl.
  - exists acc. now rewrite Nat.add_0_r.
  - simpl in H. apply andb_prop in H as [Hc Hr].
    destruct (hex_char_digit c Hc) as [Hu [d Hd]]. rewrite Hu, Hd.
    destruct (IH Hr (S n) (acc * 16 + d)) as [v Hv]. exists v.
    rewrite Hv. now rewrite Nat.add_succ_r.
Qed.

Lemma int_of_hex (h : string) :
  all_hex h = true -> h <> EmptyString -> exists z, Py.int_of 16 h = Some z.
Proof.
  intros H Hne. destruct h as [|c r]; [congruence|].
  pose proof H as H'. simpl in H'. apply andb_prop in H' as [Hc Hr].
  destruct (hex_char_plain c Hc) as (Hs & Hp & Hm & Hx & HX).
  destruct (hex_char_digit c Hc) as [Hu _].
  unfold Py.int_of. simpl Py.lstrip_c. rewrite Hs.
  unfold Py.skip_sign. rewrite Hp, Hm.
  assert (Hpre : Py.skip_prefix 16 (String c r) = String c r).
  { destruct r as [|c1 r1]; [reflexivity|]. simpl.
    simpl in Hr. apply andb_prop in Hr as [Hc1 _].
    destruct (hex_char_plain c1 Hc1) as (_ & _ & _ & Hx1 & HX1).
    rewrite Hx1, HX1. now rewrite andb_false_r. }
  rewrite Hpre. simpl Py.starts_underscore. rewrite Hu.
  destruct (scan_digits_hex (String c r) H 0%nat 0) as [v Hv].
  rewrite Hv. simpl. eexists. reflexivity.
Qed.

(** ** [normalize_hex_color] *)

Lemma normalize_eq (v : string) :
  normalize_hex_color (Some v) =
  match Py.lower (Py.strip v) with
  | EmptyString => None
  | c =>
      let color := if Py.startswith_hash c then c else String "#" c in
      if negb (Py.len color =? 7) then None
      else match Py.int_of 16 (Py.tail color) with
           | None => None
           | Some _ => Some color
           end
  end.
Proof.
  destruct v as [|a v]; [reflexivity|].
  unfold normalize_hex_color. cbv zeta.
  destruct (Py.lower (Py.strip (String a v))); reflexivity.
Qed.

Lemma startswith_hash_inv (s : string) :
  Py.startswith_hash s = true -> exists r, s = String "#" r.
Proof.
  destruct s as [|c r]; simpl; [discriminate|].
  intros H. apply Ascii.eqb_eq in H. subst. now exists r.
Qed.

Lemma startswith_hash_lower (s : string) :
  Py.startswith_hash (Py.lower s) = Py.startswith_hash s.
Proof. destruct s; simpl; [reflexivity|apply lower_char_hash]. Qed.

(** The candidate that [normalize_hex_color] checks is the marker followed
    by the lowered part after the marker. *)
Lemma candidate_shape (t : string) :
  t <> EmptyString ->
  (if Py.startswith_hash (Py.lower t) then Py.lower t
   else String "#" (Py.lower t))
  = String "#" (Py.lower (after_marker t)).
Proof.
  intros Hne. rewrite startswith_hash_lower. unfold after_marker.
  destruct (Py.startswith_hash t) eqn:E; [|reflexivity].
  destruct (startswith_hash_inv t E) as [r ->]. reflexivity.
Qed.

Lemma normalize_eq' (v : string) :
  normalize_hex_color (Some v) =
  match Py.strip v with
  | EmptyString => None
  | t =>
      let body := Py.lower (after_marker t) in
      if negb (Nat.eqb (String.length body) 6) then None
      else match Py.int_of 16 body with
           | None => None
           | Some _ => Some (String "#" body)
           end
  end.
Proof.
  rewrite normalize_eq. destruct (Py.strip v) as [|c r] eqn:E; [reflexivity|].
  assert (Hne : String c r <> EmptyString) by discriminate.
  pose proof (candidate_shape _ Hne) as Hc.
  remember (Py.lower (String c r)) as lc eqn:Hlc.
  destruct lc as [|a s]; [discriminate|].
  cbv zeta. rewrite Hc. unfold Py.len. simpl String.length. simpl Py.tail.
  set (body := Py.lower (after_marker (String c r))).
  replace (Z.of_nat (S (String.length body)) =? 7)
    with (Nat.eqb (String.length body) 6); [reflexivity|].
  destruct (Nat.eqb_spec (String.length body) 6);
    symmetry; [apply Z.eqb_eq|apply Z.eqb_neq]; lia.
Qed.

Lemma normalize_some_inv (s v : string) :
  normalize_hex_color (Some s) = Some v ->
  let body := Py.lower (after_marker (Py.strip s)) in
  v = String "#" body /\ String.length body = 6%nat
  /\ exists z, Py.int_of 16 body = Some z.
Proof.
  rewrite normalize_eq'. destruct (Py.strip s) as [|c r]; [discriminate|].
  cbv zeta. set (body := Py.lower (after_marker (String c r))).
  destruct (Nat.eqb_spec (String.length body) 6) as [Hl|Hl]; [|discriminate].
  simpl negb. cbv iota.
  destruct (Py.int_of 16 body) as [z|] eqn:Hz; [|discriminate].
  intros H. inversion H. eauto.
Qed.

(** The part after the marker of a trimmed string has no trailing
    whitespace. *)
Lemma rstrip_after_marker (t : string) :
  Py.rstrip t = t -> after_marker t <> EmptyString ->
  Py.rstrip (after_marker t) = after_marker t.
Proof.
  unfold after_marker. destruct (Py.startswith_hash t) eqn:E; [|auto].
  destruct (startswith_hash_inv t E) as [r ->]. simpl Py.tail.
  intros H Hne. simpl in H.
  destruct (Py.rstrip r) eqn:Er; [|now inversion H].
  destruct r; [congruence|]. discriminate.
Qed.

(** C6, as the code has it.  [normalize_hex_color] trims the input; with
    [body] the part of the trimmed input after an optional marker: six
    hexadecimal digits are accepted and returned in lower case behind the
    marker; a [body] that is not six characters long is refused; whatever
    is returned is the marker followed by the six characters of [body] in
    lower case.  The three inputs of the scenario behave as the
    specification says. *)
Theorem normalize_hex_color_shape (s : string) :
  let body := after_marker (Py.strip s) in
  (is_hex6 body = true ->
   normalize_hex_color (Some s) = Some (String "#" (Py.lower body)))
  /\ (String.length body <> 6%nat -> normalize_hex_color (Some s) = None)
  /\ (forall v, normalize_hex_color (Some s) = Some v ->
        v = String "#" (Py.lower body) /\ String.length body = 6%nat)
  /\ normalize_hex_color (Some "1a2B3C") = Some "#1a2b3c"
  /\ normalize_hex_color (Some "12345") = None
  /\ normalize_hex_color (Some "#zzzzzz") = None.
Proof.
  cbv zeta. repeat split; try reflexivity.
  - intros H. unfold is_hex6 in H. apply andb_prop in H as [Hl Hh].
    apply Nat.eqb_eq in Hl. rewrite normalize_eq'.
    destruct (Py.strip s) as [|c r] eqn:E; [discriminate|].
    cbv zeta. rewrite lower_length, Hl. simpl negb. cbv iota.
    destruct (int_of_hex (Py.lower (after_marker (String c r)))) as [z Hz].
    + now rewrite all_hex_lower.
    + intros Hnil. pose proof (lower_length (after_marker (String c r))) as L.
      rewrite Hnil, Hl in L. discriminate.
    + now rewrite Hz.
  - intros H. rewrite normalize_eq'.
    destruct (Py.strip s) as [|c r] eqn:E; [reflexivity|].
    cbv zeta. rewrite lower_length.
    destruct (Nat.eqb_spec (String.length (after_marker (String c r))) 6);
      [contradiction|reflexivity].
  - apply normalize_some_inv in H. tauto.
  - apply normalize_some_inv in H. cbv zeta in H.
    rewrite lower_length in H. tauto.
Qed.

(** C6 as the specification words it fails: an input with a blank in front
    is not six hexadecimal digits after an optional marker, and it is
    accepted. *)
Lemma normalize_hex_color_trims :
  ~ (forall s, (exists v, normalize_hex_color (Some s) = Some v)
               <-> is_hex6 (after_marker s) = true).
Proof.
  intros H. destruct (H " 1a2b3c") as [H1 _].
  assert (E : is_hex6 (after_marker " 1a2b3c") = true).
  { apply H1. exists "#1a2b3c". reflexivity. }
  discriminate E.
Qed.

(** [int(text, 16)] takes more than digits: a sign, a [0x] prefix and
    single underscores pass the check too. *)
Remark normalize_hex_color_int_forms :
  normalize_hex_color (Some "+12345") = Some "#+12345"
  /\ normalize_hex_color (Some "0x1234") = Some "#0x1234"
  /\ normalize_hex_color (Some "1_2_3a") = Some "#1_2_3a".
Proof. repeat split. Qed.

(** C9.  A value that [normalize_hex_color] returns is returned unchanged
    when it is normalised again. *)
Theorem normalize_hex_color_idempotent (value : option string) (v : string) :
  normalize_hex_color value = Some v ->
  normalize_hex_color (Some v) = Some v.
Proof.
  destruct value as [s|]; [|discriminate]. intros H.
  pose proof (normalize_some_inv s v H) as (Hv & Hl & z & Hz).
  set (t := Py.strip s) in *. set (b0 := after_marker t) in *.
  assert (Hb0 : b0 <> EmptyString).
  { intros E. rewrite E in Hl. discriminate. }
  assert (Hr : Py.rstrip (Py.lower b0) = Py.lower b0).
  { rewrite rstrip_lower. f_equal. apply rstrip_after_marker; [|exact Hb0].
    apply rstrip_strip. }
  assert (Hne : Py.lower b0 <> EmptyString).
  { intros E. rewrite E in Hl. discriminate. }
  rewrite normalize_eq', Hv, (strip_hash _ Hne Hr).
  cbv zeta. unfold after_marker. simpl Py.startswith_hash. simpl Py.tail.
  cbv iota. rewrite lower_idem, Hl, Hz. reflexivity.
Qed.

Lemma normalize_hex_color_idempotent_witness :
  normalize_hex_color (Some "1a2B3C") = Some "#1a2b3c"
  /\ normalize_hex_color (Some "#1a2b3c") = Some "#1a2b3c".
Proof.
  split; [reflexivity|].
  apply (normalize_hex_color_idempotent (Some "1a2B3C")). reflexivity.
Defined.

Lemma normalize_hex_color_shape_witness :
  normalize_hex_color (Some "  #AbCdEf ") = Some "#abcdef"
  /\ normalize_hex_color (Some "#abcde") = None.
Proof.
  destruct (normalize_hex_color_shape "  #AbCdEf ") as (Hyes & _).
  destruct (normalize_hex_color_shape "#abcde") as (_ & Hno & _).
  split.
  - rewrite Hyes by reflexivity. reflexivity.
  - apply Hno. vm_compute. discriminate.
Defined.

(** ** The cursor *)

Lemma with_current_index_same (st : App) :
  with_current_index st (current_index st) = st.
Proof. now destruct st. Qed.

Lemma with_current_index_twice (st : App) (i j : Z) :
  with_current_index (with_current_index st i) j = with_current_index st j.
Proof. reflexivity. Qed.

Lemma display_len_pos (st : App) :
  display_items st <> [] -> 0 < display_len st.
Proof.
  unfold display_len. destruct (display_items st); [congruence|].
  simpl List.length. lia.
Qed.

(** On a display that is not empty, [update_highlighting] leaves an index
    alone that is in range. *)
Lemma update_highlighting_in_range (st : App) (i : Z) :
  0 <= i < display_len st ->
  update_highlighting (with_current_index st i) = with_current_index st i.
Proof.
  intros Hi. unfold update_highlighting.
  change (display_items (with_current_index st i)) with (display_items st).
  destruct (display_items st) eqn:E; [reflexivity|].
  change (display_len (with_current_index st i)) with (display_len st).
  rewrite with_current_index_twice. simpl current_index. f_equal. lia.
Qed.

(** One press of the down key on a display that is not empty. *)
Lemma action_cursor_down_step (st : App) :
  display_items st <> [] ->
  action_cursor_down st =
  with_current_index st ((current_index st + 1) mod display_len st).
Proof.
  intros Hne. pose proof (display_len_pos st Hne) as Hpos.
  unfold action_cursor_down. destruct (display_items st) eqn:E; [congruence|].
  pose proof (Z.mod_pos_bound (current_index st + 1) (display_len st) Hpos) as Hm.
  destruct (Z.eqb_spec ((current_index st + 1) mod display_len st)
              (current_index st)) as [Heq|Hneq]; simpl negb; cbv iota.
  - rewrite Heq. symmetry. apply with_current_index_same.
  - now apply update_highlighting_in_range.
Qed.

Lemma cursor_down_times_step (k : nat) (st : App) :
  display_items st <> [] ->
  cursor_down_times k st =
  with_current_index st
    (if Nat.eqb k 0 then current_index st
     else (current_index st + Z.of_nat k) mod display_len st).
Proof.
  revert st. induction k as [|k IH]; intros st Hne.
  - simpl. symmetry. apply with_current_index_same.
  - simpl cursor_down_times. rewrite (action_cursor_down_step st Hne).
    rewrite IH by exact Hne. rewrite with_current_index_twice.
    change (display_len (with_current_index st _)) with (display_len st).
    simpl current_index. f_equal.
    pose proof (display_len_pos st Hne) as Hpos.
    destruct k as [|k]; simpl Nat.eqb; cbv iota.
    + reflexivity.
    + rewrite Zplus_mod_idemp_l. f_equal. lia.
Qed.

(** C8.  [action_cursor_down] does nothing on an empty display; on any
    other it moves the index to its successor modulo the length of the
    display; and as many presses as the display has entries bring an index
    of the display back to where it started. *)
Theorem cursor_down_wraps_around (st : App) :
  (display_items st = [] -> action_cursor_down st = st)
  /\ (display_items st <> [] ->
      current_index (action_cursor_down st)
      = (current_index st + 1) mod display_len st
      /\ display_items (action_cursor_down st) = display_items st)
  /\ (0 <= current_index st < display_len st ->
      cursor_down_times (List.length (display_items st)) st = st).
Proof.
  split; [|split].
  - intros E. unfold action_cursor_down. now rewrite E.
  - intros Hne. now rewrite (action_cursor_down_step st Hne).
  - intros Hi.
    assert (Hne : display_items st <> []).
    { intros E. unfold display_len in Hi. rewrite E in Hi. simpl in Hi. lia. }
    rewrite (cursor_down_times_step _ st Hne).
    destruct (display_items st) as [|d l] eqn:E; [congruence|].
    simpl Nat.eqb. cbv iota.
    replace (Z.of_nat (List.length (d :: l))) with (display_len st)
      by (unfold display_len; now rewrite E).
    transitivity (with_current_index st (current_index st));
      [|apply with_current_index_same].
    f_equal.
    replace (current_index st + display_len st)
      with (current_index st + 1 * display_len st) by lia.
    rewrite Z.mod_add by lia. apply Z.mod_small. exact Hi.
Qed.

Lemma cursor_down_wraps_around_witness :
  cursor_down_times 4 sample_app = sample_app.
Proof.
  destruct (cursor_down_wraps_around sample_app) as (_ & _ & Hloop).
  apply Hloop. vm_compute. split; [discriminate|reflexivity].
Defined.

(** ** The palette *)

Lemma pair_eqb_eq (p q : string * string) : pair_eqb p q = true <-> p = q.
Proof.
  destruct p as [a b], q as [c d]. unfold pair_eqb. simpl.
  rewrite andb_true_iff, !String.eqb_eq. split.
  - intros [-> ->]. reflexivity.
  - intros H. inversion H. auto.
Qed.

Lemma seen_cons_other (p q : string * string) (l : list (string * string)) :
  p <> q -> seen p (q :: l) = seen p l.
Proof.
  intros H. unfold seen. simpl.
  destruct (pair_eqb p q) eqn:E; [|reflexivity].
  apply pair_eqb_eq in E. contradiction.
Qed.

Lemma in_firstn {A : Type} (k : nat) (l : list A) (x : A) :
  In x (firstn k l) -> In x l.
Proof.
  intros H. rewrite <- (firstn_skipn k l). apply in_or_app. now left.
Qed.

(** The loop over the defaults, for a table whose entries all carry both
    colours and differ in their pairs: it appends the unseen entries of a
    prefix of the table; it stops before the end of the table only with
    four entries or more, and it does not go on once it has them. *)
Lemma add_defaults_shape (defaults : list PaletteEntry) :
  Forall (fun d => truthy (p_background d) && truthy (p_text d) = true)
    defaults ->
  NoDup (List.map lower_pair defaults) ->
  forall palette seen_pairs,
  let unseen_in k :=
    List.filter (fun d => negb (seen (lower_pair d) seen_pairs))
      (firstn k defaults) in
  exists k : nat,
    (k <= List.length defaults)%nat
    /\ add_defaults defaults palette seen_pairs = palette ++ unseen_in k
    /\ ((k < List.length defaults)%nat ->
        4 <= Z.of_nat (List.length (palette ++ unseen_in k)))
    /\ (forall j, (0 < j < k)%nat ->
        Z.of_nat (List.length (palette ++ unseen_in j)) < 4)
    /\ (defaults <> [] -> (1 <= k)%nat).
Proof.
  induction defaults as [|d rest IH]; intros Hall Hnd palette sp; cbv zeta.
  - exists 0%nat. simpl. repeat split; try lia; try congruence.
    now rewrite app_nil_r.
  - inversion Hall as [|? ? Hd Hrest]; subst.
    inversion Hnd as [|? ? Hnotin Hnd']; subst.
    apply andb_prop in Hd as [Hb Ht].
    simpl add_defaults. rewrite Hb, Ht. simpl orb. cbv iota. cbv zeta.
    assert (Hother : forall k,
      List.filter (fun d' => negb (seen (lower_pair d') (lower_pair d :: sp)))
        (firstn k rest)
      = List.filter (fun d' => negb (seen (lower_pair d') sp)) (firstn k rest)).
    { intros k. apply filter_ext_in. intros d' Hin. f_equal.
      apply seen_cons_other. intros E. apply Hnotin.
      rewrite <- E. apply in_map. eapply in_firstn; eauto. }
    destruct (seen (lower_pair d) sp) eqn:Hs.
    + destruct (Z.leb_spec 4 (Z.of_nat (List.length palette))) as [Hlen|Hlen].
      * exists 1%nat. simpl. rewrite Hs. simpl. rewrite app_nil_r.
        repeat split; try lia.
      * destruct (IH Hrest Hnd' palette sp)
          as (k & Hk & Heq & Hcut & Hmin & _).
        cbv zeta in *.
        exists (S k). simpl. rewrite Hs. simpl.
        repeat split; [lia|exact Heq|intros; apply Hcut; lia| |lia].
        intros [|j] Hj; [lia|]. simpl. rewrite Hs. simpl.
        destruct j as [|j]; [simpl; rewrite app_nil_r; exact Hlen|].
        apply Hmin. lia.
    + destruct (Z.leb_spec 4 (Z.of_nat (List.length (palette ++ [d]))))
        as [Hlen|Hlen].
      * exists 1%nat. simpl. rewrite Hs. simpl.
        repeat split; try lia.
      * destruct (IH Hrest Hnd' (palette ++ [d]) (lower_pair d :: sp))
          as (k & Hk & Heq & Hcut & Hmin & _).
        cbv zeta in *. rewrite Hother in Heq, Hcut.
        rewrite <- app_assoc in Heq, Hcut. simpl in Heq, Hcut.
        exists (S k). simpl. rewrite Hs. simpl.
        repeat split; [lia|exact Heq|intros; apply Hcut; lia| |lia].
        intros [|j] Hj; [lia|]. simpl. rewrite Hs. simpl.
        destruct j as [|j]; [simpl; exact Hlen|].
        specialize (Hmin (S j)). rewrite Hother, <- app_assoc in Hmin.
        apply Hmin. lia.
Qed.




(** *** The fillers are never needed *)

Lemma seen_of_length (palette : list PaletteEntry) :
  (List.length (seen_of palette) <= List.length palette)%nat.
Proof.
  induction palette as [|e r IH]; simpl; [lia|].
  destruct (truthy (p_background e) && truthy (p_text e)); simpl; lia.
Qed.

Lemma seen_in (p : string * string) (l : list (string * string)) :
  seen p l = true -> In p l.
Proof.
  unfold seen. intros H. apply existsb_exists in H as (q & Hq & E).
  apply pair_eqb_eq in E. now subst.
Qed.

Lemma NoDup_map_filter {A B : Type} (f : A -> B) (p : A -> bool) (l : list A) :
  NoDup (List.map f l) -> NoDup (List.map f (List.filter p l)).
Proof.
  induction l as [|a r IH]; simpl; intros H; [constructor|].
  inversion H as [|? ? Hnot Hr]; subst.
  destruct (p a); simpl; [|auto]. constructor; [|auto].
  intros Hin. apply Hnot. apply in_map_iff in Hin as (x & Hx & Hin).
  apply filter_In in Hin as [Hin _]. apply in_map_iff. eauto.
Qed.

(** The defaults whose pair is seen are no more than the pairs seen. *)
Lemma seen_defaults_bound (seen_pairs : list (string * string)) :
  (List.length
     (List.filter (fun d => seen (lower_pair d) seen_pairs)
        DEFAULT_COLOR_PAIRS)
   <= List.length seen_pairs)%nat.
Proof.
  rewrite <- (length_map lower_pair).
  apply NoDup_incl_length.
  - apply NoDup_map_filter.
    repeat constructor; simpl; intuition discriminate.
  - intros p Hin. apply in_map_iff in Hin as (d & <- & Hd).
    apply filter_In in Hd as [_ Hs]. now apply seen_in.
Qed.

Lemma add_fillers_full (fuel : nat) (palette : list PaletteEntry) :
  4 <= Z.of_nat (List.length palette) -> add_fillers fuel palette = palette.
Proof.
  intros H. destruct fuel; simpl; [reflexivity|].
  destruct (Z.ltb_spec (Z.of_nat (List.length palette)) 4); [lia|reflexivity].
Qed.

(** With the five built-in defaults the palette has four entries before
    the filling loop starts, so that no filler is ever added. *)
Remark build_palette_entries_without_fillers (custom : list PaletteEntry) :
  exists k : nat,
    build_palette_entries custom
    = custom ++ List.filter (unseen custom) (firstn k DEFAULT_COLOR_PAIRS).
Proof.
  unfold build_palette_entries.
  assert (Hall : Forall
            (fun d => truthy (p_background d) && truthy (p_text d) = true)
            DEFAULT_COLOR_PAIRS) by (repeat constructor).
  assert (Hnd : NoDup (List.map lower_pair DEFAULT_COLOR_PAIRS))
    by (repeat constructor; simpl; intuition discriminate).
  destruct (add_defaults_shape DEFAULT_COLOR_PAIRS Hall Hnd custom
              (seen_of custom)) as (k & Hk & Heq & Hcut & _).
  cbv zeta in *. exists k. rewrite add_fillers_full; [exact Heq|].
  rewrite Heq.
  destruct (Nat.lt_ge_cases k (List.length DEFAULT_COLOR_PAIRS)) as [Hlt|Hge];
    [now apply Hcut|].
  rewrite firstn_all2 by exact Hge. rewrite length_app.
  pose proof (filter_length (fun d => seen (lower_pair d) (seen_of custom))
                DEFAULT_COLOR_PAIRS) as Hsum.
  pose proof (seen_defaults_bound (seen_of custom)) as Hb.
  pose proof (seen_of_length custom) as Hc.
  change (List.length DEFAULT_COLOR_PAIRS) with 5%nat in Hsum. lia.
Qed.

(** ** Dictionaries *)

Section DictFacts.
Context {V : Type}.
Implicit Types (d : dict V) (k : string) (v : V).

Lemma dict_get_set_same k v d : dict_get k (dict_set k v d) = Some v.
Proof.
  induction d as [|[k' v'] r IH]; simpl.
  - now rewrite String.eqb_refl.
  - destruct (String.eqb k' k) eqn:E; simpl; rewrite E; auto.
Qed.

Lemma dict_get_set_other k k' v d :
  k <> k' -> dict_get k' (dict_set k v d) = dict_get k' d.
Proof.
  intros Hne. induction d as [|[k0 v0] r IH]; simpl.
  - destruct (String.eqb_spec k k'); [contradiction|reflexivity].
  - destruct (String.eqb_spec k0 k) as [->|Hk]; simpl.
    + destruct (String.eqb_spec k k'); [contradiction|reflexivity].
    + now rewrite IH.
Qed.

Lemma dict_get_del_same k d : dict_get k (dict_del k d) = None.
Proof.
  unfold dict_del. induction d as [|[k0 v0] r IH]; simpl; [reflexivity|].
  destruct (String.eqb_spec k0 k) as [->|Hk]; simpl; [exact IH|].
  destruct (String.eqb_spec k0 k); [contradiction|exact IH].
Qed.

Lemma dict_get_del_other k k' d :
  k <> k' -> dict_get k' (dict_del k d) = dict_get k' d.
Proof.
  intros Hne. unfold dict_del.
  induction d as [|[k0 v0] r IH]; simpl; [reflexivity|].
  destruct (String.eqb_spec k0 k) as [->|Hk]; simpl.
  - destruct (String.eqb_spec k k'); [contradiction|exact IH].
  - now rewrite IH.
Qed.

Lemma dict_mem_keys k d : dict_mem k d = true <-> In k (dict_keys d).
Proof.
  unfold dict_mem, dict_keys. induction d as [|[k0 v0] r IH]; simpl.
  - split; [discriminate|tauto].
  - destruct (String.eqb_spec k0 k) as [->|Hk].
    + split; auto.
    + rewrite IH. split; [auto|]. intros [E|H]; [contradiction|exact H].
Qed.

Lemma dict_set_new k v d : dict_mem k d = false -> dict_set k v d = d ++ [(k, v)].
Proof.
  unfold dict_mem. induction d as [|[k0 v0] r IH]; simpl; [reflexivity|].
  destruct (String.eqb_spec k0 k) as [->|Hk]; [discriminate|].
  intros H. now rewrite IH.
Qed.

End DictFacts.

(** ** Deleting and adding items *)

(** [list_remove] takes out the first element equal to the given one. *)
Lemma list_remove_first (i : Item) (l : list Item) :
  In i l ->
  exists l1 l2, l = l1 ++ i :: l2 /\ ~ In i l1 /\ list_remove i l = l1 ++ l2.
Proof.
  induction l as [|x r IH]; intros Hin; [contradiction|].
  simpl. destruct (Item_eq_dec x i) as [->|Hne].
  - exists [], r. simpl. auto.
  - destruct Hin as [E|Hin]; [contradiction|].
    destruct (IH Hin) as (l1 & l2 & -> & Hn & Hr).
    exists (x :: l1), l2. simpl. rewrite Hr. repeat split.
    intros [E|H]; [contradiction|auto].
Qed.

Lemma item_in_true (i : Item) (l : list Item) : In i l -> item_in i l = true.
Proof.
  intros H. unfold item_in. destruct (in_dec Item_eq_dec i l); tauto.
Qed.

Lemma normalize_column_value_1 (count : Z) : normalize_column_value count 1 = 1.
Proof. unfold normalize_column_value. lia. Qed.

(** Adding an item whose category is not in the tree creates the
    category, after all others, with this one item. *)
Lemma add_new_item_data_fresh (st : App) (i : Item) :
  dict_mem (category i) (menu_data st) = false ->
  add_new_item_data st i =
  menu_data st ++ [(category i, mkCategory true (Some 1) None [i])].
Proof.
  intros H. unfold add_new_item_data, append_item, new_category_data.
  rewrite H, dict_get_set_same, normalize_column_value_1.
  rewrite (dict_set_new _ _ _ H). simpl.
  induction (menu_data st) as [|[k0 v0] r IH]; simpl.
  - now rewrite String.eqb_refl.
  - unfold dict_mem in H. simpl in H.
    destruct (String.eqb_spec k0 (category i)); [discriminate|].
    f_equal. apply IH. exact H.
Qed.

(** For an item that is in the category it names, the tree that
    [action_delete_item] stores: the first item equal to it is gone and
    every other category is as before; when no item is left, the category
    is gone too, and the tree that [add_new_item] then stores for an item
    of that name has the category again, last, with that one item. *)
Lemma delete_item_data_first (st : App) (i : Item) (cd : Category) :
  dict_get (category i) (menu_data st) = Some cd ->
  In i (items cd) ->
  exists l1 l2 md',
    items cd = l1 ++ i :: l2 /\ ~ In i l1
    /\ delete_item_data (menu_data st) i = Some md'
    /\ (forall k, k <> category i -> dict_get k md' = dict_get k (menu_data st))
    /\ (l1 ++ l2 <> [] ->
        dict_get (category i) md' = Some (set_items cd (l1 ++ l2)))
    /\ (l1 ++ l2 = [] ->
        dict_get (category i) md' = None
        /\ forall new, category new = category i ->
             add_new_item_data (with_menu_data st md') new
             = md' ++ [(category i, mkCategory true (Some 1) None [new])]).
Proof.
  intros Hget Hin.
  destruct (list_remove_first i (items cd) Hin) as (l1 & l2 & Hsplit & Hnot & Hrem).
  unfold delete_item_data. rewrite Hget, (item_in_true _ _ Hin), Hrem.
  destruct (l1 ++ l2) as [|x r] eqn:E.
  - exists l1, l2, (dict_del (category i) (menu_data st)).
    repeat split; auto.
    + intros k Hk. apply dict_get_del_other. congruence.
    + congruence.
    + apply dict_get_del_same.
    + intros new Hnew. rewrite <- Hnew.
      apply add_new_item_data_fresh. simpl. unfold dict_mem.
      rewrite Hnew. now rewrite dict_get_del_same.
  - exists l1, l2,
      (dict_set (category i) (set_items cd (x :: r)) (menu_data st)).
    rewrite E. repeat split; auto.
    + intros k Hk. apply dict_get_set_other. congruence.
    + intros _. apply dict_get_set_same.
    + discriminate.
    + discriminate.
Qed.

(** ** The cursor after a deletion *)

Lemma cleanup_keeps_cursor (st : App) :
  current_index (cleanup_empty_categories st) = current_index st
  /\ display_items (cleanup_empty_categories st) = display_items st
  /\ column_count (cleanup_empty_categories st) = column_count st
  /\ menu_container (cleanup_empty_categories st) = menu_container st.
Proof.
  unfold cleanup_empty_categories.
  destruct (MenuTree_eq_dec _ _); repeat split.
Qed.

(** What [update_menu_display] shows, and where it leaves the index. *)
Lemma update_menu_display_cursor (st : App) :
  menu_container st = true ->
  let st' := update_menu_display st in
  current_index st' =
    match display_items st' with
    | [] => current_index st
    | _ => Z.max 0 (Z.min (current_index st) (display_len st' - 1))
    end.
Proof.
  intros Hm. cbv zeta. unfold update_menu_display. rewrite Hm. simpl negb.
  cbv iota.
  destruct (cleanup_keeps_cursor (with_display_items st [])) as (Hi & _ & _ & _).
  set (s1 := cleanup_empty_categories (with_display_items st [])) in *.
  destruct (assign_columns (column_count s1) (menu_data s1)) as [md ch].
  simpl in Hi.
  assert (Hgen : forall s2, current_index s2 = current_index st ->
            forall l, current_index (update_highlighting (with_display_items s2 l))
            = match display_items (update_highlighting (with_display_items s2 l)) with
              | [] => current_index st
              | _ => Z.max 0 (Z.min (current_index st)
                        (display_len (update_highlighting (with_display_items s2 l)) - 1))
              end).
  { intros s2 H2 l. unfold update_highlighting. simpl display_items.
    destruct l as [|d l]; simpl; [exact H2|]. unfold display_len. simpl.
    now rewrite H2. }
  destruct ch; apply Hgen; simpl; exact Hi.
Qed.

Lemma action_delete_item_on_item (st : App) (i : Item) (md' : MenuTree) :
  0 <= current_index st < display_len st ->
  py_index (display_items st) (current_index st) = Some (DItem i) ->
  delete_item_data (menu_data st) i = Some md' ->
  action_delete_item st =
  adjust_index (update_menu_display (save_menu_data (with_menu_data st md'))).
Proof.
  intros Hi Hsel Hdel. unfold action_delete_item.
  destruct (display_items st) eqn:E.
  - unfold display_len in Hi. rewrite E in Hi. simpl in Hi. lia.
  - destruct (Z.leb_spec (display_len st) (current_index st)); [lia|].
    rewrite Hsel, Hdel. reflexivity.
Qed.

(** C10.  When [action_delete_item] has removed the selected item and the
    display has been rebuilt, with [L] entries, an index that is [L - 1]
    or more is set to [max 0 (L - 2)]; with two entries or more that is the
    entry before the last one, not the last one.  The tree that is stored
    has no category without items, so that [cleanup_empty_categories]
    assigns nothing and the display is built in one run. *)
Theorem delete_item_cursor_before_last (st : App) (i : Item) (md' : MenuTree) :
  menu_container st = true ->
  0 <= current_index st < display_len st ->
  py_index (display_items st) (current_index st) = Some (DItem i) ->
  delete_item_data (menu_data st) i = Some md' ->
  no_empty md' ->
  let shown :=
    update_menu_display (save_menu_data (with_menu_data st md')) in
  let L := display_len shown in
  display_items (action_delete_item st) = display_items shown
  /\ current_index (action_delete_item st)
     = (if L - 1 <=? current_index shown then Z.max 0 (L - 2)
        else current_index shown)
  /\ (L - 1 <= current_index shown <-> L - 1 <= current_index st)
  /\ (L - 1 <= current_index st -> 2 <= L ->
      current_index (action_delete_item st) = L - 2
      /\ current_index (action_delete_item st) <> Z.max 0 (L - 1)).
Proof.
  intros Hm Hi Hsel Hdel _. cbv zeta.
  rewrite (action_delete_item_on_item st i md' Hi Hsel Hdel).
  set (s0 := save_menu_data (with_menu_data st md')).
  assert (Hm0 : menu_container s0 = true) by exact Hm.
  pose proof (update_menu_display_cursor s0 Hm0) as Hc. cbv zeta in Hc.
  change (current_index s0) with (current_index st) in Hc.
  set (shown := update_menu_display s0) in *.
  assert (Hiff : display_len shown - 1 <= current_index shown
                 <-> display_len shown - 1 <= current_index st).
  { rewrite Hc. unfold display_len.
    destruct (display_items shown); simpl List.length; lia. }
  assert (Hidx : current_index (adjust_index shown)
                 = if display_len shown - 1 <=? current_index shown
                   then Z.max 0 (display_len shown - 2)
                   else current_index shown).
  { unfold adjust_index.
    destruct (display_len shown - 1 <=? current_index shown); reflexivity. }
  repeat split.
  - unfold adjust_index.
    destruct (display_len shown - 1 <=? current_index shown); reflexivity.
  - exact Hidx.
  - apply Hiff.
  - apply Hiff.
  - rewrite Hidx. apply Hiff in H.
    destruct (Z.leb_spec (display_len shown - 1) (current_index shown)); lia.
  - rewrite Hidx. apply Hiff in H.
    destruct (Z.leb_spec (display_len shown - 1) (current_index shown)); lia.
Qed.

Lemma delete_item_cursor_before_last_witness :
  display_items (action_delete_item sample_app)
  = [DCategory "Work"; DItem editor_work]
  /\ current_index (action_delete_item sample_app) = 0.
Proof.
  assert (Hrange : 0 <= current_index sample_app < display_len sample_app)
    by (vm_compute; split; [discriminate|reflexivity]).
  assert (Hfull : no_empty
                    [("Work", mkCategory true (Some 1) None [editor_work])]).
  { intros k cd [E|[]]. inversion E. discriminate. }
  destruct (delete_item_cursor_before_last sample_app editor_play
              [("Work", mkCategory true (Some 1) None [editor_work])]
              eq_refl Hrange eq_refl eq_refl Hfull)
    as (Hshown & _ & _ & Hlast).
  split; [rewrite Hshown; reflexivity|].
  destruct Hlast as [Hidx _].
  - vm_compute. discriminate.
  - vm_compute. discriminate.
  - rewrite Hidx. reflexivity.
Defined.

(** ** Columns *)

Lemma set_column_same (cd : Category) (c : Z) :
  column cd = Some c -> set_column cd c = cd.
Proof. destruct cd; simpl; intros ->; reflexivity. Qed.

Lemma normalize_column_value_idem (count c : Z) :
  normalize_column_value count (normalize_column_value count c)
  = normalize_column_value count c.
Proof. unfold normalize_column_value. lia. Qed.

Lemma normalize_column_value_range (count c : Z) :
  1 <= count -> 1 <= normalize_column_value count c <= count.
Proof. unfold normalize_column_value. lia. Qed.

(** [ensure_columns] reports a change exactly when the tree changes. *)
Lemma ensure_columns_changed (count : Z) (md : MenuTree) :
  (snd (ensure_columns count md) = false -> fst (ensure_columns count md) = md)
  /\ (snd (ensure_columns count md) = true -> fst (ensure_columns count md) <> md).
Proof.
  induction md as [|[name cd] rest [IH1 IH2]]; simpl.
  - split; [reflexivity|discriminate].
  - destruct (ensure_columns count rest) as [rest' ch]. simpl in *.
    destruct (Z.eqb_spec (column_or_1 cd)
                (normalize_column_value count (column_or_1 cd))) as [E|E];
      simpl.
    + split.
      * intros H. now rewrite (IH1 H).
      * intros H Heq. inversion Heq. now apply IH2.
    + split; [discriminate|]. intros _ Heq. inversion Heq as [[Hcd Hrest]].
      apply E. rewrite <- Hcd at 1. unfold column_or_1. simpl. reflexivity.
Qed.

(** On a settled tree, [ensure_columns] renormalises every column, and the
    result is stable. *)
Lemma ensure_columns_settled (count : Z) (md : MenuTree) :
  settled md = true ->
  fst (ensure_columns count md) = renormalized count md
  /\ stable count (renormalized count md).
Proof.
  unfold stable. induction md as [|[name cd] rest IH]; simpl; intros Hs.
  - split; [reflexivity|constructor].
  - apply andb_prop in Hs as [Hcd Hrest].
    destruct (IH Hrest) as [IH1 IH2].
    destruct (ensure_columns count rest) as [rest' ch]. simpl in *.
    destruct (items cd) as [|x l] eqn:Ei; [discriminate|].
    destruct (column cd) as [c|] eqn:Ec; [|discriminate].
    assert (Hc1 : column_or_1 cd = c) by (unfold column_or_1; now rewrite Ec).
    rewrite Hc1. split.
    + destruct (Z.eqb_spec c (normalize_column_value count c)) as [E|E]; simpl.
      * rewrite <- E, (set_column_same cd c Ec). now rewrite IH1.
      * now rewrite IH1.
    + constructor; [|exact IH2]. simpl. rewrite Ei. split; [discriminate|].
      eexists. split; [reflexivity|apply normalize_column_value_idem].
Qed.

Lemma stable_filter (count : Z) (md : MenuTree) :
  stable count md ->
  List.filter (fun kv => match items (snd kv) with
                         | [] => false
                         | _ => true
                         end) md = md.
Proof.
  induction 1 as [|[name cd] rest [Hne _] _ IH]; simpl; [reflexivity|].
  simpl in Hne. destruct (items cd); [congruence|]. now rewrite IH.
Qed.

Lemma stable_assign (count : Z) (md : MenuTree) :
  stable count md -> assign_columns count md = (md, false).
Proof.
  induction 1 as [|[name cd] rest [_ (c & Hc & Hn)] _ IH]; simpl;
    [reflexivity|].
  simpl in Hc. rewrite IH, Hc. unfold column_or_1. rewrite Hc, Hn.
  now rewrite Z.eqb_refl.
Qed.

(** [update_menu_display] changes neither a stable tree nor the file. *)
Lemma update_menu_display_stable (st : App) :
  stable (column_count st) (menu_data st) ->
  menu_data (update_menu_display st) = menu_data st
  /\ config_file (update_menu_display st) = config_file st
  /\ column_count (update_menu_display st) = column_count st
  /\ app_title (update_menu_display st) = app_title st
  /\ custom_colors (update_menu_display st) = custom_colors st.
Proof.
  intros Hst. unfold update_menu_display.
  destruct (menu_container st); simpl negb; cbv iota; [|repeat split].
  unfold cleanup_empty_categories. simpl menu_data.
  rewrite (stable_filter _ _ Hst).
  destruct (MenuTree_eq_dec (menu_data st) (menu_data st)); [|congruence].
  simpl column_count. simpl menu_data. rewrite (stable_assign _ _ Hst).
  unfold update_highlighting. simpl display_items.
  destruct (flatten (column_count st) (menu_data st)); repeat split.
Qed.

Lemma stable_settled (count : Z) (md : MenuTree) :
  stable count md -> settled md = true.
Proof.
  induction 1 as [|[name cd] rest [Hne (c & Hc & _)] _ IH]; simpl;
    [reflexivity|].
  simpl in Hne, Hc. rewrite Hc, IH. destruct (items cd); [congruence|].
  reflexivity.
Qed.

Lemma assign_columns_stable (count : Z) (md : MenuTree) :
  Forall (fun kv => items (snd kv) <> []) md ->
  stable count (fst (assign_columns count md)).
Proof.
  unfold stable. induction 1 as [|[name cd] rest Hne _ IH]; simpl;
    [constructor|].
  destruct (assign_columns count rest) as [rest' ch]. simpl in *.
  destruct (column cd) as [c|] eqn:Ec.
  - destruct (Z.eqb_spec c (normalize_column_value count (column_or_1 cd)))
      as [E|E]; simpl; constructor; auto; simpl; split; auto.
    + exists c. split; [exact Ec|]. rewrite E at 1.
      unfold column_or_1. rewrite Ec. rewrite normalize_column_value_idem.
      unfold column_or_1 in E. rewrite Ec in E. auto.
    + eexists. split; [reflexivity|apply normalize_column_value_idem].
  - simpl. constructor; auto. simpl. split; auto.
    eexists. split; [reflexivity|apply normalize_column_value_idem].
Qed.

(** A mounted display leaves a stable tree behind, which is the tree that
    C5 is stated for. *)
Lemma update_menu_display_settles (st : App) :
  menu_container st = true ->
  stable (column_count (update_menu_display st))
    (menu_data (update_menu_display st))
  /\ settled (menu_data (update_menu_display st)) = true.
Proof.
  intros Hm.
  assert (Hst : stable (column_count (update_menu_display st))
                  (menu_data (update_menu_display st))).
  { unfold update_menu_display. rewrite Hm. simpl negb. cbv iota.
    set (s1 := cleanup_empty_categories (with_display_items st [])).
    assert (Hne : Forall (fun kv => items (snd kv) <> []) (menu_data s1)).
    { unfold s1, cleanup_empty_categories. simpl menu_data.
      set (f := fun kv : string * Category =>
                  match items (snd kv) with [] => false | _ => true end).
      assert (Hf : Forall (fun kv => items (snd kv) <> [])
                     (List.filter f (menu_data st))).
      { apply Forall_forall. intros kv Hin.
        apply filter_In in Hin as [_ Hk]. unfold f in Hk.
        destruct (items (snd kv)); [discriminate|congruence]. }
      destruct (MenuTree_eq_dec (List.filter f (menu_data st)) (menu_data st))
        as [E|E]; simpl; [now rewrite <- E|exact Hf]. }
    pose proof (assign_columns_stable (column_count s1) (menu_data s1) Hne)
      as Hs.
    destruct (assign_columns (column_count s1) (menu_data s1)) as [md ch].
    simpl in Hs. unfold update_highlighting.
    destruct ch; simpl display_items;
      destruct (flatten _ md); simpl; exact Hs. }
  split; [exact Hst|]. eapply stable_settled. exact Hst.
Qed.

(** C5.  On a settled tree, [set_column_count] with its default flags
    clamps the count between 1 and [max_columns], puts every category in
    the column that [normalize_column_value] gives it for the new count,
    which lies between 1 and the new count, and writes the file once when
    the count or a column has changed and not at all when nothing has. *)
Theorem set_column_count_persists_on_change
    (count : Z) (apply_layout : bool) (st : App) :
  settled (menu_data st) = true ->
  let changed := fst (set_column_count count apply_layout false true st) in
  let st' := snd (set_column_count count apply_layout false true st) in
  column_count st' = Z.max 1 (Z.min (max_columns st) count)
  /\ (1 <= max_columns st -> 1 <= column_count st' <= max_columns st)
  /\ menu_data st' = renormalized (column_count st') (menu_data st)
  /\ Forall (fun kv => exists c, column (snd kv) = Some c
                                 /\ 1 <= c <= column_count st')
       (menu_data st')
  /\ (changed = true <->
      column_count st' <> column_count st \/ menu_data st' <> menu_data st)
  /\ (changed = true ->
      config_file st'
      = mkMenuFile (menu_data st') (app_title st) (column_count st')
          (custom_colors st) :: config_file st)
  /\ (changed = false ->
      config_file st' = config_file st
      /\ column_count st' = column_count st
      /\ menu_data st' = menu_data st).
Proof.
  intros Hs. cbv zeta.
  set (n := Z.max 1 (Z.min (max_columns st) count)).
  pose proof (ensure_columns_settled n (menu_data st) Hs) as [Hren Hstable].
  pose proof (ensure_columns_changed n (menu_data st)) as [Hsame Hdiff].
  unfold set_column_count, ensure_category_columns, clamp_column_count.
  fold n. simpl column_count. simpl menu_data.
  destruct (ensure_columns n (menu_data st)) as [md ch] eqn:Een.
  simpl in Hren, Hsame, Hdiff. subst md. cbn [orb andb fst snd].
  set (saved := if negb (n =? column_count st) || ch
                then save_menu_data
                       (with_menu_data (with_column_count st n)
                          (renormalized n (menu_data st)))
                else with_menu_data (with_column_count st n)
                       (renormalized n (menu_data st))).
  assert (Hfields : menu_data saved = renormalized n (menu_data st)
                    /\ column_count saved = n
                    /\ app_title saved = app_title st
                    /\ custom_colors saved = custom_colors st
                    /\ config_file saved
                       = if negb (n =? column_count st) || ch
                         then mkMenuFile (renormalized n (menu_data st))
                                (app_title st) n (custom_colors st)
                              :: config_file st
                         else config_file st).
  { unfold saved.
    destruct (negb (n =? column_count st) || ch); repeat split. }
  destruct Hfields as (Hmd & Hcc & Hti & Hcu & Hcf).
  assert (Hfinal : let final := if apply_layout && menu_container saved
                                then update_menu_display saved else saved in
                   menu_data final = menu_data saved
                   /\ config_file final = config_file saved
                   /\ column_count final = column_count saved).
  { cbv zeta. destruct (apply_layout && menu_container saved); [|repeat split].
    destruct (update_menu_display_stable saved) as (H1 & H2 & H3 & _).
    - rewrite Hmd, Hcc. exact Hstable.
    - auto. }
  cbv zeta in Hfinal. destruct Hfinal as (Fmd & Fcf & Fcc).
  cbn [fst snd]. rewrite Fmd, Fcf, Fcc, Hmd, Hcc, Hcf.
  assert (Hn1 : 1 <= n) by (unfold n; lia).
  repeat split.
  - exact Hn1.
  - unfold n. lia.
  - clear - Hstable Hn1. unfold stable in Hstable.
    eapply Forall_impl; [|exact Hstable]. intros kv (_ & c & Hc & Hnorm).
    exists c. split; [exact Hc|].
    pose proof (normalize_column_value_range n c Hn1). lia.
  - intros Hch. apply orb_prop in Hch as [Hch|Hch].
    + left. apply negb_true_iff, Z.eqb_neq in Hch. exact Hch.
    + right. auto.
  - intros [Hcount|Htree].
    + apply orb_true_iff. left. apply negb_true_iff, Z.eqb_neq. exact Hcount.
    + apply orb_true_iff. right. destruct ch; [reflexivity|].
      exfalso. apply Htree. auto.
  - intros Hch. now rewrite Hch.
  - now rewrite H.
  - apply orb_false_iff in H as [Hch _].
    apply negb_false_iff, Z.eqb_eq in Hch. exact Hch.
  - apply orb_false_iff in H as [_ Hch]. auto.
Qed.

Lemma set_column_count_persists_on_change_witness :
  config_file (snd (set_column_count 3 true false true sample_app))
  = [mkMenuFile sample_tree "Menu" 3 DEFAULT_COLOR_PAIRS]
  /\ config_file (snd (set_column_count 1 true false true sample_app)) = [].
Proof.
  destruct (set_column_count_persists_on_change 3 true sample_app eq_refl)
    as (_ & _ & _ & _ & _ & Hyes & _).
  destruct (set_column_count_persists_on_change 1 true sample_app eq_refl)
    as (_ & _ & _ & _ & _ & _ & Hno).
  split.
  - rewrite Hyes by reflexivity. reflexivity.
  - destruct Hno as [Hfile _]; [reflexivity|]. rewrite Hfile. reflexivity.
Defined.

(** ** Deleting the last item of a category, on the whole state *)

Lemma stable_dict_del (count : Z) (k : string) (md : MenuTree) :
  stable count md -> stable count (dict_del k md).
Proof.
  unfold stable, dict_del. intros H. apply Forall_forall. intros kv Hin.
  apply filter_In in Hin as [Hin _].
  eapply Forall_forall in H; eauto.
Qed.

Lemma adjust_index_keeps_tree (st : App) :
  menu_data (adjust_index st) = menu_data st
  /\ column_count (adjust_index st) = column_count st.
Proof.
  unfold adjust_index.
  destruct (display_len st - 1 <=? current_index st); split; reflexivity.
Qed.

(** On a stable tree, with the cursor on the only item of its category:
    after [action_delete_item] the category is gone, and after
    [add_new_item] with an item of that name it is back, last in the tree,
    with the new item alone; the display repairs nothing on the way. *)
Lemma delete_last_item_then_add (st : App) (i new : Item) (cd : Category) :
  stable (column_count st) (menu_data st) ->
  0 <= current_index st < display_len st ->
  py_index (display_items st) (current_index st) = Some (DItem i) ->
  dict_get (category i) (menu_data st) = Some cd ->
  items cd = [i] ->
  category new = category i ->
  menu_data (action_delete_item st) = dict_del (category i) (menu_data st)
  /\ menu_data (add_new_item new (action_delete_item st))
     = dict_del (category i) (menu_data st)
       ++ [(category i, mkCategory true (Some 1) None [new])].
Proof.
  intros Hst Hidx Hsel Hget Hone Hnew.
  assert (Hdel : delete_item_data (menu_data st) i
                 = Some (dict_del (category i) (menu_data st))).
  { unfold delete_item_data. rewrite Hget, Hone.
    unfold item_in. destruct (in_dec Item_eq_dec i [i]) as [_|Hn];
      [|exfalso; apply Hn; now left].
    simpl. destruct (Item_eq_dec i i); [reflexivity|congruence]. }
  rewrite (action_delete_item_on_item st i _ Hidx Hsel Hdel).
  set (s0 := save_menu_data
               (with_menu_data st (dict_del (category i) (menu_data st)))).
  assert (Hs0 : stable (column_count s0) (menu_data s0))
    by (apply stable_dict_del; exact Hst).
  destruct (update_menu_display_stable s0 Hs0) as (Hmd & _ & Hcc & _).
  destruct (adjust_index_keeps_tree (update_menu_display s0)) as [Amd Acc].
  set (s1 := adjust_index (update_menu_display s0)) in *.
  assert (Hmd1 : menu_data s1 = dict_del (category i) (menu_data st))
    by (rewrite Amd, Hmd; reflexivity).
  split; [exact Hmd1|].
  assert (Hfresh : dict_mem (category new) (menu_data s1) = false).
  { unfold dict_mem. rewrite Hmd1, Hnew. now rewrite dict_get_del_same. }
  unfold add_new_item.
  set (s2 := save_menu_data (with_menu_data s1 (add_new_item_data s1 new))).
  assert (Hmd2 : menu_data s2
                 = dict_del (category i) (menu_data st)
                   ++ [(category i, mkCategory true (Some 1) None [new])]).
  { unfold s2. simpl menu_data.
    rewrite (add_new_item_data_fresh s1 new Hfresh), Hmd1, Hnew.
    reflexivity. }
  assert (Hs2 : stable (column_count s2) (menu_data s2)).
  { rewrite Hmd2. unfold stable. apply Forall_app. split.
    - change (column_count s2) with (column_count s1).
      rewrite Acc, Hcc. apply stable_dict_del. exact Hst.
    - constructor; [|constructor]. simpl. split; [discriminate|].
      exists 1. split; [reflexivity|apply normalize_column_value_1]. }
  destruct (update_menu_display_stable s2 Hs2) as (Hfinal & _).
  rewrite Hfinal. exact Hmd2.
Qed.

(** ** Renaming a category *)

Lemma name_in_filter (name old : string) (l : list string) :
  In name l -> name <> old ->
  name_in name
    (List.filter (fun n => negb (String.eqb n old)) l) = true.
Proof.
  intros Hin Hne. unfold name_in. apply existsb_exists. exists name.
  split; [|apply String.eqb_refl].
  apply filter_In. split; [exact Hin|].
  apply negb_true_iff, String.eqb_neq. exact Hne.
Qed.



(** ** Updating an item *)

Lemma pop_match_none (old_label old_cmd : string) (l : list Item) :
  (forall i, In i l -> label i <> old_label \/ cmd i <> old_cmd) ->
  pop_match old_label old_cmd l = None.
Proof.
  induction l as [|x r IH]; intros H; simpl; [reflexivity|].
  destruct (H x (or_introl eq_refl)) as [Hl|Hc].
  - apply String.eqb_neq in Hl. rewrite Hl. simpl.
    rewrite IH; [reflexivity|]. intros i Hi. apply H. now right.
  - apply String.eqb_neq in Hc. rewrite Hc, andb_false_r.
    rewrite IH; [reflexivity|]. intros i Hi. apply H. now right.
Qed.

(** When no item of any category has the label and the command of the old
    item, [update_item] changes nothing at all. *)
Lemma update_item_not_found (old_item new_item : Item) (st : App) :
  (forall name cd i,
      In (name, cd) (menu_data st) -> In i (items cd) ->
      label i <> label old_item \/ cmd i <> cmd old_item) ->
  update_item old_item new_item st = st.
Proof.
  intros H. unfold update_item, update_item_data.
  assert (Hnone : remove_found (label old_item) (cmd old_item) (menu_data st)
                  = None).
  { induction (menu_data st) as [|[name cd] rest IH]; simpl; [reflexivity|].
    rewrite (pop_match_none _ _ (items cd)).
    - rewrite IH; [reflexivity|].
      intros n c i Hin. apply (H n c i). now right.
    - intros i Hi. apply (H name cd i); [now left|exact Hi]. }
  now rewrite Hnone.
Qed.

(** The search of [update_item] takes the first category, in the order of
    the tree, that has an item with the label and the command, whatever
    the category of the old item is. *)
Lemma remove_found_first_category (old_label old_cmd name : string)
    (cd : Category) (l : list Item) (rest : MenuTree) :
  pop_match old_label old_cmd (items cd) = Some l ->
  remove_found old_label old_cmd ((name, cd) :: rest)
  = Some ((name, set_items cd l) :: rest).
Proof. intros H. simpl. now rewrite H. Qed.

(** C1 on the sample tree, where "Work" and "Play" each hold an item with
    the label "Editor" and the command "vim".  Updating the one of "Play"
    removes the one of "Work", and with it the category "Work"; the old
    item of "Play" stays, next to the new one. *)
Theorem update_item_removes_from_first_match :
  category editor_play = "Play"
  /\ dict_get "Play" (menu_data sample_app)
     = Some (mkCategory true (Some 1) None [editor_play])
  /\ menu_data (update_item editor_play editor_new sample_app)
     = [("Play", mkCategory true (Some 1) None [editor_play; editor_new])]
  /\ dict_get "Work" (menu_data (update_item editor_play editor_new sample_app))
     = None.
Proof. repeat split. Qed.

(** ** Loading the menu file *)

Section LoadFacts.
Import Raw.

Lemma ensure_loop_raises (st : Self) (cats : list (string * json)) :
  existsb (fun kv => negb (is_obj (snd kv))) cats = true ->
  snd (ensure_loop st cats) = None.
Proof.
  induction cats as [|[name v] rest IH]; simpl; [discriminate|].
  destruct v; simpl; try reflexivity.
  intros H. destruct (ensure_loop st rest) as [rest' r]. simpl in *.
  now rewrite (IH H).
Qed.

Lemma ensure_loop_returns (st : Self) (cats : list (string * json)) :
  existsb (fun kv => negb (is_obj (snd kv))) cats = false ->
  exists changed,
    snd (ensure_loop st cats) = Some changed
    /\ existsb (fun kv => negb (is_obj (snd kv))) (fst (ensure_loop st cats))
       = false
    /\ List.map fst (fst (ensure_loop st cats)) = List.map fst cats.
Proof.
  induction cats as [|[name v] rest IH]; simpl.
  - exists false. auto.
  - destruct v; simpl; try discriminate.
    intros H. destruct (IH H) as (ch & Hr & Hok & Hkeys).
    destruct (ensure_loop st rest) as [rest' r]. simpl in *. subst r.
    eexists. repeat split; [exact Hok|now rewrite Hkeys].
Qed.

Lemma ensure_category_columns_raises (st : Self) :
  bad_tree (menu_data st) = true ->
  exists st', ensure_category_columns st = Raised st'.
Proof.
  intros H. unfold ensure_category_columns, bind, get, modify, raise.
  destruct (menu_data st) as [| | | | |cats] eqn:E; eauto.
  simpl in H. pose proof (ensure_loop_raises st cats H) as Hn.
  destruct (ensure_loop st cats) as [cats' r]. simpl in Hn. subst r. eauto.
Qed.

Lemma ensure_category_columns_returns (st : Self) :
  bad_tree (menu_data st) = false ->
  exists changed cats',
    ensure_category_columns st
    = Returned changed (with_menu_data st (JObj cats'))
    /\ bad_tree (JObj cats') = false.
Proof.
  intros H. unfold ensure_category_columns, bind, get, modify, ret.
  destruct (menu_data st) as [| | | | |cats] eqn:E; try discriminate.
  simpl in H. destruct (ensure_loop_returns st cats H) as (ch & Hr & Hok & _).
  destruct (ensure_loop st cats) as [cats' r]. simpl in *. subst r. eauto.
Qed.

Lemma set_column_count_raises (count : json) (st : Self) :
  bad_tree (menu_data st) = true ->
  exists st', set_column_count count st = Raised st'.
Proof.
  intros H. unfold set_column_count, bind, get, modify.
  destruct (ensure_category_columns_raises
              (with_column_count st (clamp_column_count st count)) H)
    as [st' Hr].
  rewrite Hr. eauto.
Qed.

Lemma set_column_count_returns (count : json) (st : Self) :
  bad_tree (menu_data st) = false ->
  exists changed st',
    set_column_count count st = Returned changed st'
    /\ bad_tree (menu_data st') = false
    /\ config_file st' = config_file st.
Proof.
  intros H. unfold set_column_count, bind, get, modify, ret.
  destruct (ensure_category_columns_returns
              (with_column_count st (clamp_column_count st count)) H)
    as (ch & cats' & Hr & Hok).
  rewrite Hr. eexists. eexists. split; [reflexivity|]. split; [exact Hok|].
  reflexivity.
Qed.

(** What the block that reads a parsed dictionary comes to: it raises, or
    it returns with the tree of the file in [menu_data], columns
    normalised or not. *)
Lemma load_parsed_outcome (top : list (string * json)) (st : Self) :
  (exists st', load_parsed (JObj top) st = Raised st'
               /\ unreadable (JObj top) = true)
  \/ (exists st', load_parsed (JObj top) st = Returned tt st'
                  /\ bad_tree (menu_data st') = unreadable (JObj top)).
Proof.
  unfold load_parsed, unreadable.
  cbv beta iota delta [bind modify ret raise get].
  destruct (iterate (get_or top "custom_colors" (JArr []))) as [entries|];
    [|left; eexists; split; reflexivity].
  destruct (dict_get "app_settings" top) as [settings|].
  2:{ right. destruct (load_colors entries 1);
        eexists; split; reflexivity. }
  destruct settings as [| | | | |settings];
    try (left; destruct (load_colors entries 1);
         eexists; split; reflexivity).
  destruct (bad_tree (get_or top "categories" (JObj []))) eqn:Hbad.
  - left.
    destruct (load_colors entries 1); destruct (dict_get "title" settings);
      match goal with
      | |- context [set_column_count ?c ?s] =>
          destruct (set_column_count_raises c s Hbad) as [s4 ->]
      end; eexists; split; reflexivity.
  - right.
    destruct (load_colors entries 1); destruct (dict_get "title" settings);
      match goal with
      | |- context [set_column_count ?c ?s] =>
          destruct (set_column_count_returns c s Hbad)
            as (ch & s4 & -> & Hok & _)
      end; destruct (dict_mem "theme" settings);
      eexists; (split; [reflexivity|exact Hok]).
Qed.

(** When the file is missing, or cannot be parsed, or is [unreadable], the
    [try] block ends in [create_default_menu], inside the block for a
    missing file and in the handler otherwise. *)
Lemma load_menu_data_fallback (st : Self) :
  config_file st = Absent \/ config_file st = Unparsable
  \/ (exists data, config_file st = Holds data /\ unreadable data = true) ->
  exists st1, load_menu_data st = create_default_menu st1.
Proof.
  intros [H|[H|(data & H & Hu)]]; unfold load_menu_data, load_body;
    unfold bind at 1; unfold get; unfold bind at 1; rewrite H.
  - exists st. reflexivity.
  - exists st. reflexivity.
  - destruct data as [| | | | |top]; try (eexists; reflexivity).
    destruct (load_parsed_outcome top st) as [(st' & -> & _)|(st' & -> & Hb)].
    + eexists. reflexivity.
    + rewrite Hu in Hb. unfold bind.
      destruct (ensure_category_columns_raises st' Hb) as [st2 ->].
      eexists. reflexivity.
Qed.

(** A file that is not [unreadable] is loaded: the [try] block returns. *)
Lemma load_menu_data_loads (st : Self) (data : json) :
  config_file st = Holds data -> unreadable data = false ->
  exists st1, load_body st = Returned tt st1
              /\ load_menu_data st = st1
              /\ bad_tree (menu_data st1) = false.
Proof.
  intros H Hu. unfold load_menu_data, load_body.
  unfold bind at 1; unfold get; unfold bind at 1; rewrite H.
  unfold bind at 2. unfold get. unfold bind at 2. rewrite H.
  destruct data as [| | | | |top]; try discriminate.
  destruct (load_parsed_outcome top st) as [(st' & _ & Hr)|(st' & -> & Hb)];
    [congruence|].
  rewrite Hu in Hb. unfold bind.
  destruct (ensure_category_columns_returns st' Hb) as (ch & cats' & -> & Hok).
  destruct ch; eexists; repeat split; exact Hok.
Qed.

End LoadFacts.

(** C2, as the code has it.  When the file is missing, cannot be parsed,
    or holds a value on which reading raises (see [unreadable]),
    [load_menu_data] leaves the default tree in [menu_data], that is the
    one category "System Tools" in column 1 with the one item "System
    Monitor", a column count of 1 and the built-in colours, and the file
    holds the record of that state. *)
Theorem load_falls_back_to_default (st : Raw.Self) :
  Raw.config_file st = Raw.Absent \/ Raw.config_file st = Raw.Unparsable
  \/ (exists data, Raw.config_file st = Raw.Holds data
                   /\ unreadable data = true) ->
  let st' := Raw.load_menu_data st in
  Raw.menu_data st' = Raw.encode_tree default_data
  /\ default_data
     = [("System Tools",
         mkCategory true (Some 1) None
           [mkItem "System Monitor" "htop" "Interactive process viewer"
              "System Tools" None])]
  /\ Raw.column_count st' = 1
  /\ Raw.custom_colors st' = List.map Raw.encode_entry DEFAULT_COLOR_PAIRS
  /\ Raw.config_file st' = Raw.Holds (Raw.file_of st').
Proof.
  intros H. destruct (load_menu_data_fallback st H) as [st1 ->].
  cbv zeta. repeat split.
Qed.

Lemma load_falls_back_to_default_witness :
  Raw.menu_data (Raw.load_menu_data (fresh Raw.Absent))
  = Raw.encode_tree default_data
  /\ Raw.menu_data (Raw.load_menu_data (fresh (Raw.Holds (Raw.JArr []))))
     = Raw.encode_tree default_data
  /\ Raw.config_file
       (Raw.load_menu_data
          (fresh (Raw.Holds
                    (Raw.JObj
                       [("categories",
                         Raw.JObj [("Tools", Raw.JNum 5)])]))))
     = Raw.Holds
         (Raw.JObj
            [("categories", Raw.encode_tree default_data);
             ("app_settings",
              Raw.JObj [("title", Raw.JStr "Menu Maker");
                        ("columns", Raw.JNum 1)]);
             ("custom_colors",
              Raw.JArr (List.map Raw.encode_entry DEFAULT_COLOR_PAIRS))]).
Proof.
  split; [|split].
  - apply (load_falls_back_to_default (fresh Raw.Absent)).
    left. reflexivity.
  - apply (load_falls_back_to_default (fresh (Raw.Holds (Raw.JArr [])))).
    right. right. exists (Raw.JArr []). split; reflexivity.
  - destruct (load_falls_back_to_default
                (fresh (Raw.Holds
                          (Raw.JObj
                             [("categories",
                               Raw.JObj [("Tools", Raw.JNum 5)])]))))
      as (_ & _ & _ & _ & Hfile).
    + right. right. eexists. split; reflexivity.
    + rewrite Hfile. reflexivity.
Defined.

(** C2 as the specification words it fails: a record that does not have
    the shape of the menu record, with a number in place of the items of
    a category, is loaded as it is. *)
Lemma load_keeps_odd_record :
  ~ (forall st data,
       Raw.config_file st = Raw.Holds data ->
       spec_record_shape data = false ->
       Raw.menu_data (Raw.load_menu_data st) = Raw.encode_tree default_data).
Proof.
  intros H.
  specialize (H (fresh (Raw.Holds odd_record)) odd_record eq_refl eq_refl).
  vm_compute in H. discriminate H.
Qed.

(** ** The typed tree and the tree of the file *)

Lemma ensure_loop_step (st : Raw.Self) (name : string)
    (fields : list (string * Raw.json)) (rest : list (string * Raw.json)) :
  Raw.ensure_loop st ((name, Raw.JObj fields) :: rest)
  = (let current_column := Raw.get_or fields "column" (Raw.JNum 1) in
     let normalized := Raw.normalize_column_value st current_column in
     let here := negb (Raw.eq_int current_column normalized) in
     ((name,
       Raw.JObj (if here
                 then dict_set "column" (Raw.JNum normalized) fields
                 else fields))
      :: fst (Raw.ensure_loop st rest),
      match snd (Raw.ensure_loop st rest) with
      | Some changed => Some (here || changed)
      | None => None
      end)).
Proof. simpl. destruct (Raw.ensure_loop st rest). reflexivity. Qed.

(** On the encoding of a typed tree, the loop of
    [ensure_category_columns] over JSON values does what its typed
    counterpart [ensure_columns] does, and it does not raise. *)
Lemma ensure_loop_encodes (st : Raw.Self) (md : MenuTree) :
  let encode :=
    List.map (fun kv => (fst kv, Raw.encode_category (snd kv))) in
  Raw.ensure_loop st (encode md)
  = (encode (fst (ensure_columns (Raw.column_count st) md)),
     Some (snd (ensure_columns (Raw.column_count st) md))).
Proof.
  cbv zeta. induction md as [|[name cd] rest IH]; [reflexivity|].
  simpl List.map. simpl ensure_columns.
  destruct (ensure_columns (Raw.column_count st) rest) as [rest' ch].
  simpl fst in *. simpl snd in *.
  unfold Raw.encode_category at 1. rewrite ensure_loop_step, IH.
  cbv zeta. simpl fst. simpl snd.
  destruct cd as [e [c|] cols its]; unfold column_or_1; simpl column;
    simpl expanded; simpl items; simpl colors.
  - unfold Raw.get_or. simpl dict_get.
    unfold Raw.normalize_column_value, normalize_column_value.
    simpl Raw.py_int. simpl Raw.eq_int.
    destruct (c =? Z.max 1 (Z.min (Raw.column_count st) c)); reflexivity.
  - pose proof (normalize_column_value_1 (Raw.column_count st)) as Hone.
    unfold Raw.get_or, Raw.normalize_column_value, normalize_column_value in *.
    destruct cols; simpl; rewrite Hone; reflexivity.
Qed.

(** * Further properties *)

(** ** More on dictionaries *)

Section DictMore.
Context {V : Type}.
Implicit Types (d : dict V) (k : string) (v : V).

Lemma dict_get_in k v d : dict_get k d = Some v -> In (k, v) d.
Proof.
  induction d as [|[k0 v0] r IH]; simpl; [discriminate|].
  destruct (String.eqb_spec k0 k) as [->|Hk].
  - intros H. inversion H. now left.
  - intros H. right. auto.
Qed.

Lemma in_dict_get k v d :
  NoDup (dict_keys d) -> In (k, v) d -> dict_get k d = Some v.
Proof.
  unfold dict_keys. induction d as [|[k0 v0] r IH]; simpl; [tauto|].
  intros Hnd [E|Hin]; inversion Hnd as [|? ? Hnot Hr]; subst.
  - inversion E. subst. now rewrite String.eqb_refl.
  - destruct (String.eqb_spec k0 k) as [->|Hk]; [|auto].
    exfalso. apply Hnot. apply in_map_iff. exists (k, v). auto.
Qed.

Lemma in_dict_set k v d k' v' :
  In (k', v') (dict_set k v d) -> (k' = k /\ v' = v) \/ In (k', v') d.
Proof.
  induction d as [|[k0 v0] r IH]; simpl.
  - intros [E|[]]. inversion E. auto.
  - destruct (String.eqb_spec k0 k) as [->|Hk]; simpl.
    + intros [E|H]; [inversion E; auto|auto].
    + intros [E|H]; [auto|]. destruct (IH H); auto.
Qed.

Lemma dict_keys_set k v d :
  dict_keys (dict_set k v d)
  = if dict_mem k d then dict_keys d else dict_keys d ++ [k].
Proof.
  unfold dict_mem, dict_keys. induction d as [|[k0 v0] r IH]; simpl;
    [reflexivity|].
  destruct (String.eqb_spec k0 k) as [->|Hk]; simpl; [reflexivity|].
  rewrite IH. destruct (dict_get k r); reflexivity.
Qed.

Lemma unique_dict_set k v d :
  NoDup (dict_keys d) -> NoDup (dict_keys (dict_set k v d)).
Proof.
  intros H. rewrite dict_keys_set. destruct (dict_mem k d) eqn:E; [exact H|].
  apply NoDup_app; [exact H|repeat constructor; simpl; tauto|].
  intros x Hx [<-|[]]. apply dict_mem_keys in Hx. congruence.
Qed.

Lemma in_dict_del k d k' v' :
  In (k', v') (dict_del k d) <-> In (k', v') d /\ k' <> k.
Proof.
  unfold dict_del. rewrite filter_In. simpl.
  rewrite negb_true_iff, String.eqb_neq. tauto.
Qed.

Lemma unique_dict_del k d :
  NoDup (dict_keys d) -> NoDup (dict_keys (dict_del k d)).
Proof. unfold dict_keys, dict_del. apply NoDup_map_filter. Qed.

Lemma dict_set_same k v d : dict_get k d = Some v -> dict_set k v d = d.
Proof.
  induction d as [|[k0 v0] r IH]; simpl; [discriminate|].
  destruct (String.eqb_spec k0 k) as [->|Hk].
  - intros H. inversion H. reflexivity.
  - intros H. now rewrite IH.
Qed.

Lemma dict_set_twice k v v' d :
  dict_set k v' (dict_set k v d) = dict_set k v' d.
Proof.
  induction d as [|[k0 v0] r IH]; simpl.
  - now rewrite String.eqb_refl.
  - destruct (String.eqb_spec k0 k) as [->|Hk]; simpl.
    + now rewrite String.eqb_refl.
    + destruct (String.eqb_spec k0 k); [contradiction|]. now rewrite IH.
Qed.

Lemma dict_del_absent k d : dict_mem k d = false -> dict_del k d = d.
Proof.
  unfold dict_mem, dict_del. induction d as [|[k0 v0] r IH]; simpl;
    [reflexivity|].
  destruct (String.eqb_spec k0 k) as [->|Hk]; [discriminate|].
  intros H. simpl. now rewrite IH.
Qed.

Lemma dict_del_app k d d' :
  dict_del k (d ++ d') = dict_del k d ++ dict_del k d'.
Proof. unfold dict_del. apply filter_app. Qed.

End DictMore.

(** ** Adding an item *)

Lemma append_item_get (name : string) (i : Item) (md : MenuTree)
    (cd : Category) :
  dict_get name md = Some cd ->
  append_item name i md = dict_set name (set_items cd (items cd ++ [i])) md.
Proof. intros H. unfold append_item. now rewrite H. Qed.

(** X25.  The item that [add_new_item] stores is afterwards the last item of
    the category it names, behind the items that were there; a category that
    was missing is created for it, last in the tree, expanded and in
    column 1; and no other category is touched. *)
Theorem add_new_item_data_lookup (st : App) (i : Item) :
  let md' := add_new_item_data st i in
  (forall k, k <> category i -> dict_get k md' = dict_get k (menu_data st))
  /\ match dict_get (category i) (menu_data st) with
     | Some cd =>
         dict_get (category i) md' = Some (set_items cd (items cd ++ [i]))
         /\ dict_keys md' = dict_keys (menu_data st)
     | None =>
         md' = menu_data st ++ [(category i, mkCategory true (Some 1) None [i])]
     end.
Proof.
  cbv zeta. destruct (dict_get (category i) (menu_data st)) as [cd|] eqn:E.
  - assert (Hm : dict_mem (category i) (menu_data st) = true)
      by (unfold dict_mem; now rewrite E).
    unfold add_new_item_data. rewrite Hm, (append_item_get _ _ _ _ E).
    repeat split.
    + intros k Hk. apply dict_get_set_other. congruence.
    + apply dict_get_set_same.
    + rewrite dict_keys_set. now rewrite Hm.
  - assert (Hm : dict_mem (category i) (menu_data st) = false)
      by (unfold dict_mem; now rewrite E).
    rewrite (add_new_item_data_fresh st i Hm). split; [|reflexivity].
    intros k Hk. clear - Hk.
    induction (menu_data st) as [|[k0 v0] r IH]; simpl.
    + destruct (String.eqb_spec (category i) k); congruence.
    + now rewrite IH.
Qed.

(** ** Deleting what was added *)

Lemma list_remove_app_last (i : Item) (l : list Item) :
  ~ In i l -> list_remove i (l ++ [i]) = l.
Proof.
  induction l as [|x r IH]; simpl; intros H.
  - destruct (Item_eq_dec i i); [reflexivity|congruence].
  - destruct (Item_eq_dec x i) as [->|Hne]; [tauto|].
    rewrite IH; [reflexivity|tauto].
Qed.

(** On the trees that the two methods store: deleting an item right
    after it was added gives the tree back, when the item was not already
    among the items of its category and that category, if it was there,
    was not empty. *)
Lemma delete_item_data_undoes_add (st : App) (i : Item) :
  match dict_get (category i) (menu_data st) with
  | Some cd => items cd <> [] /\ ~ In i (items cd)
  | None => True
  end ->
  delete_item_data (add_new_item_data st i) i = Some (menu_data st).
Proof.
  intros H. unfold delete_item_data.
  destruct (dict_get (category i) (menu_data st)) as [cd|] eqn:E.
  - destruct H as [Hne Hnot].
    assert (Hm : dict_mem (category i) (menu_data st) = true)
      by (unfold dict_mem; now rewrite E).
    unfold add_new_item_data. rewrite Hm, (append_item_get _ _ _ _ E).
    rewrite dict_get_set_same. simpl items.
    rewrite item_in_true by (apply in_or_app; right; now left).
    rewrite (list_remove_app_last i (items cd) Hnot).
    destruct (items cd) as [|x l] eqn:Ei; [congruence|].
    rewrite dict_set_twice. f_equal. apply dict_set_same.
    rewrite E. f_equal. destruct cd; simpl in *. now rewrite Ei.
  - assert (Hm : dict_mem (category i) (menu_data st) = false)
      by (unfold dict_mem; now rewrite E).
    rewrite (add_new_item_data_fresh st i Hm).
    assert (Hget : dict_get (category i)
                     (menu_data st
                      ++ [(category i, mkCategory true (Some 1) None [i])])
                   = Some (mkCategory true (Some 1) None [i])).
    { clear - E. induction (menu_data st) as [|[k0 v0] r IH]; simpl in *.
      - now rewrite String.eqb_refl.
      - destruct (String.eqb_spec k0 (category i)); [discriminate|auto]. }
    rewrite Hget. simpl items. unfold item_in.
    destruct (in_dec Item_eq_dec i [i]) as [_|Hn];
      [|exfalso; apply Hn; now left].
    simpl. destruct (Item_eq_dec i i); [|congruence].
    f_equal. rewrite dict_del_app, (dict_del_absent _ _ Hm).
    unfold dict_del. simpl. rewrite String.eqb_refl. simpl.
    apply app_nil_r.
Qed.

(** ** What the actions do to the tree *)

(** [update_menu_display] on the tree. *)
Lemma update_menu_display_tree (st : App) :
  menu_data (update_menu_display st)
  = (if menu_container st
     then display_tree (column_count st) (menu_data st)
     else menu_data st)
  /\ column_count (update_menu_display st) = column_count st
  /\ menu_container (update_menu_display st) = menu_container st
  /\ app_title (update_menu_display st) = app_title st
  /\ custom_colors (update_menu_display st) = custom_colors st
  /\ max_columns (update_menu_display st) = max_columns st.
Proof.
  unfold update_menu_display, display_tree, without_empty.
  destruct (menu_container st) eqn:Hm; simpl negb; cbv iota;
    [|rewrite Hm; repeat split].
  set (f := fun kv : string * Category =>
              match items (snd kv) with [] => false | _ => true end).
  set (s1 := cleanup_empty_categories (with_display_items st [])).
  assert (H1 : menu_data s1 = List.filter f (menu_data st)
               /\ column_count s1 = column_count st
               /\ menu_container s1 = true
               /\ app_title s1 = app_title st
               /\ custom_colors s1 = custom_colors st
               /\ max_columns s1 = max_columns st).
  { unfold s1, cleanup_empty_categories. simpl menu_data. fold f.
    destruct (MenuTree_eq_dec (List.filter f (menu_data st)) (menu_data st))
      as [E|E]; simpl; rewrite ?E; auto 10. }
  destruct H1 as (Hmd & Hcc & Hmc & Hti & Hcu & Hmx).
  rewrite Hmd, Hcc.
  destruct (assign_columns (column_count st) (List.filter f (menu_data st)))
    as [md ch].
  unfold update_highlighting. simpl fst.
  destruct ch; simpl display_items; rewrite ?Hcc;
    destruct (flatten (column_count st) md); simpl; auto 10.
Qed.

Lemma update_highlighting_tree (st : App) :
  menu_data (update_highlighting st) = menu_data st
  /\ column_count (update_highlighting st) = column_count st
  /\ menu_container (update_highlighting st) = menu_container st
  /\ config_file (update_highlighting st) = config_file st
  /\ app_title (update_highlighting st) = app_title st
  /\ custom_colors (update_highlighting st) = custom_colors st
  /\ display_items (update_highlighting st) = display_items st.
Proof.
  unfold update_highlighting. destruct (display_items st) eqn:E;
    simpl; rewrite ?E; auto 10.
Qed.

Lemma restore_position_tree (name : string) (st : App) :
  menu_data (restore_position_to_category name st) = menu_data st
  /\ column_count (restore_position_to_category name st) = column_count st
  /\ menu_container (restore_position_to_category name st) = menu_container st
  /\ config_file (restore_position_to_category name st) = config_file st
  /\ app_title (restore_position_to_category name st) = app_title st
  /\ custom_colors (restore_position_to_category name st) = custom_colors st
  /\ display_items (restore_position_to_category name st) = display_items st.
Proof.
  unfold restore_position_to_category.
  destruct (find_index _ (display_items st) 0); simpl; auto 10.
Qed.

Lemma navigate_tree (i : Item) (st : App) :
  menu_data (navigate_to_item i st) = menu_data st
  /\ column_count (navigate_to_item i st) = column_count st
  /\ menu_container (navigate_to_item i st) = menu_container st
  /\ config_file (navigate_to_item i st) = config_file st
  /\ app_title (navigate_to_item i st) = app_title st
  /\ custom_colors (navigate_to_item i st) = custom_colors st
  /\ display_items (navigate_to_item i st) = display_items st.
Proof.
  unfold navigate_to_item.
  destruct (find_index _ (display_items st) 0); [|auto 10].
  apply (update_highlighting_tree (with_current_index st z)).
Qed.

Lemma adjust_index_tree (st : App) :
  menu_data (adjust_index st) = menu_data st
  /\ column_count (adjust_index st) = column_count st
  /\ menu_container (adjust_index st) = menu_container st
  /\ config_file (adjust_index st) = config_file st
  /\ app_title (adjust_index st) = app_title st
  /\ custom_colors (adjust_index st) = custom_colors st
  /\ display_items (adjust_index st) = display_items st.
Proof.
  unfold adjust_index.
  destruct (display_len st - 1 <=? current_index st); simpl; auto 10.
Qed.

Lemma cursor_tree (st : App) :
  (menu_data (action_cursor_down st) = menu_data st
   /\ column_count (action_cursor_down st) = column_count st
   /\ config_file (action_cursor_down st) = config_file st
   /\ app_title (action_cursor_down st) = app_title st
   /\ custom_colors (action_cursor_down st) = custom_colors st
   /\ display_items (action_cursor_down st) = display_items st)
  /\ (menu_data (action_cursor_up st) = menu_data st
      /\ column_count (action_cursor_up st) = column_count st
      /\ config_file (action_cursor_up st) = config_file st
      /\ app_title (action_cursor_up st) = app_title st
      /\ custom_colors (action_cursor_up st) = custom_colors st
      /\ display_items (action_cursor_up st) = display_items st).
Proof.
  unfold action_cursor_down, action_cursor_up.
  destruct (display_items st) eqn:E; [rewrite ?E; auto 12|].
  split.
  - destruct (negb (_ =? current_index st)); [|rewrite ?E; auto 10].
    destruct (update_highlighting_tree
                (with_current_index st
                   ((current_index st + 1) mod display_len st)))
      as (H1 & H2 & _ & H4 & H5 & H6 & H7).
    rewrite H1, H2, H4, H5, H6, H7. simpl. rewrite ?E. auto 10.
  - destruct (negb (_ =? current_index st)); [|rewrite ?E; auto 10].
    destruct (update_highlighting_tree
                (with_current_index st
                   ((current_index st - 1) mod display_len st)))
      as (H1 & H2 & _ & H4 & H5 & H6 & H7).
    rewrite H1, H2, H4, H5, H6, H7. simpl. rewrite ?E. auto 10.
Qed.

(** A property of the column count and the tree that every step on the
    tree keeps is kept by every action. *)
Section Preservation.
Variable P : Z -> MenuTree -> Prop.
Hypothesis P_display : forall cc md, P cc md -> P cc (display_tree cc md).
Hypothesis P_add : forall st i,
  P (column_count st) (menu_data st) ->
  P (column_count st) (add_new_item_data st i).
Hypothesis P_update : forall st o n md',
  P (column_count st) (menu_data st) ->
  update_item_data st o n = Some md' -> P (column_count st) md'.
Hypothesis P_delete : forall cc md i md',
  P cc md -> delete_item_data md i = Some md' -> P cc md'.
Hypothesis P_details : forall st o n c col t md',
  P (column_count st) (menu_data st) ->
  update_category_details_data st o n c col = Some (t, md') ->
  P (column_count st) md'.
Hypothesis P_toggle : forall cc md k cd b,
  P cc md -> dict_get k md = Some cd ->
  P cc (dict_set k (set_expanded cd b) md).
Hypothesis P_columns : forall cc md x,
  P cc md -> P (Z.max 1 x) (fst (ensure_columns (Z.max 1 x) md)).

Lemma holds_display (st : App) : holds_on P st -> holds_on P (update_menu_display st).
Proof.
  unfold holds_on. intros H.
  destruct (update_menu_display_tree st) as (Hmd & Hcc & _).
  rewrite Hmd, Hcc. destruct (menu_container st); auto.
Qed.

Lemma holds_highlighting (st : App) : holds_on P st -> holds_on P (update_highlighting st).
Proof.
  unfold holds_on. destruct (update_highlighting_tree st) as (-> & -> & _). auto.
Qed.

Lemma holds_set_column_count (count : Z) (al pe sv : bool) (st : App) :
  holds_on P st -> holds_on P (snd (set_column_count count al pe sv st)).
Proof.
  intros H. unfold set_column_count, ensure_category_columns,
    clamp_column_count.
  simpl column_count. simpl menu_data.
  pose proof (P_columns _ _ (Z.min (max_columns st) count) H) as Hc.
  destruct (ensure_columns (Z.max 1 (Z.min (max_columns st) count))
              (menu_data st)) as [md ch].
  simpl in Hc. cbn [snd].
  match goal with
  | |- holds_on P (if ?c then update_menu_display ?s1 else ?s1) =>
      assert (Hs : holds_on P s1) by (destruct (pe || sv && _); exact Hc);
      destruct c; [apply holds_display|]; exact Hs
  end.
Qed.

Lemma holds_run (a : Action) (st : App) : holds_on P st -> holds_on P (run a st).
Proof.
  intros H. destruct a; simpl run.
  - unfold add_new_item. apply holds_display. apply (P_add st item_data H).
  - unfold update_item.
    destruct (update_item_data st old_item new_item) as [md'|] eqn:E;
      [|exact H].
    unfold holds_on. destruct (navigate_tree new_item
      (update_menu_display (save_menu_data (with_menu_data st md'))))
      as (-> & -> & _).
    apply holds_display. apply (P_update st _ _ _ H E).
  - unfold action_delete_item. destruct (display_items st); [exact H|].
    destruct (display_len st <=? current_index st); [exact H|].
    destruct (py_index _ _) as [[name|item_data]|]; try exact H.
    destruct (delete_item_data (menu_data st) item_data) as [md'|] eqn:E;
      [|exact H].
    unfold holds_on. destruct (adjust_index_tree
      (update_menu_display (save_menu_data (with_menu_data st md'))))
      as (-> & -> & _).
    apply holds_display. apply (P_delete _ _ _ _ H E).
  - unfold update_category_details.
    destruct (update_category_details_data st old_name new_name colors_arg
                column_arg) as [[t md']|] eqn:E; [|exact H].
    apply holds_highlighting. unfold holds_on.
    destruct (restore_position_tree t
      (update_menu_display (save_menu_data (with_menu_data st md'))))
      as (-> & -> & _).
    apply holds_display. apply (P_details st _ _ _ _ _ _ H E).
  - unfold action_toggle_category. destruct (display_items st); [exact H|].
    destruct (display_len st <=? current_index st); [exact H|].
    destruct (py_index _ _) as [[name|item_data]|]; try exact H.
    destruct (dict_get name (menu_data st)) as [cd|] eqn:E; [|exact H].
    unfold holds_on.
    match goal with
    | |- P (column_count (restore_position_to_category ?n ?s)) _ =>
        destruct (restore_position_tree n s) as (-> & -> & _)
    end.
    apply holds_display. apply (P_toggle _ _ _ _ _ H E).
  - apply holds_set_column_count. exact H.
  - unfold handle_settings_result.
    pose proof (holds_set_column_count columns (negb theme_changed) false
                  false st H) as Hs.
    destruct (set_column_count columns (negb theme_changed) false false st)
      as [ch s1]. cbn [snd] in Hs.
    assert (Ht : holds_on P (with_app_title s1
                          match Py.strip title with
                          | EmptyString => app_title st
                          | String a s => String a s
                          end)) by exact Hs.
    match goal with
    | |- holds_on P (save_menu_data ?s2) => assert (Hf : holds_on P s2)
    end.
    { destruct theme_changed.
      - unfold apply_theme. apply holds_highlighting, holds_display. exact Ht.
      - destruct ch; [apply holds_display|]; exact Ht. }
    exact Hf.
  - unfold holds_on. destruct (cursor_tree st) as [(-> & -> & _) _]. exact H.
  - unfold holds_on. destruct (cursor_tree st) as [_ (-> & -> & _)]. exact H.
Qed.

Lemma holds_run_all (l : list Action) (st : App) :
  holds_on P st -> holds_on P (run_all l st).
Proof.
  revert st. induction l as [|a l IH]; intros st H; [exact H|].
  simpl. apply IH. apply holds_run. exact H.
Qed.

End Preservation.

(** ** What each mutation stores *)

Lemma list_remove_incl (i : Item) (l : list Item) :
  incl (list_remove i l) l.
Proof.
  induction l as [|x r IH]; simpl; [intros y []|].
  destruct (Item_eq_dec x i).
  - intros y H. now right.
  - intros y [E|H]; [now left|right; auto].
Qed.

Lemma item_in_spec (i : Item) (l : list Item) :
  item_in i l = true <-> In i l.
Proof.
  unfold item_in. destruct (in_dec Item_eq_dec i l); split; auto.
  discriminate.
Qed.

Lemma delete_item_data_inv (md : MenuTree) (i : Item) (md' : MenuTree) :
  delete_item_data md i = Some md' ->
  exists cd,
    dict_get (category i) md = Some cd /\ In i (items cd)
    /\ ((list_remove i (items cd) = [] /\ md' = dict_del (category i) md)
        \/ (list_remove i (items cd) <> []
            /\ md' = dict_set (category i)
                       (set_items cd (list_remove i (items cd))) md)).
Proof.
  unfold delete_item_data.
  destruct (dict_get (category i) md) as [cd|]; [|discriminate].
  destruct (item_in i (items cd)) eqn:Hin; [|discriminate].
  apply item_in_spec in Hin. intros H. exists cd.
  split; [reflexivity|]. split; [exact Hin|].
  destruct (list_remove i (items cd)) eqn:E.
  - left. inversion H. auto.
  - right. inversion H. split; [discriminate|reflexivity].
Qed.

Lemma pop_match_inv (l c : string) (its its' : list Item) :
  pop_match l c its = Some its' ->
  exists a x b,
    its = a ++ x :: b /\ its' = a ++ b
    /\ label x = l /\ cmd x = c
    /\ forall y, In y a -> label y <> l \/ cmd y <> c.
Proof.
  revert its'. induction its as [|x r IH]; simpl; intros its'; [discriminate|].
  destruct (String.eqb (label x) l && String.eqb (cmd x) c) eqn:E.
  - intros H. inversion H. subst. apply andb_prop in E as [E1 E2].
    apply String.eqb_eq in E1, E2.
    exists [], x, its'. simpl. repeat split; auto; intros y [].
  - destruct (pop_match l c r) as [r'|]; [|discriminate].
    intros H. inversion H. subst.
    destruct (IH r' eq_refl) as (a & y & b & -> & -> & Hl & Hc & Hn).
    exists (x :: a), y, b. simpl. repeat split; auto.
    intros z [<-|Hz]; [|auto].
    apply andb_false_iff in E as [E|E]; apply String.eqb_neq in E; auto.
Qed.

Lemma remove_found_inv (l c : string) (md md1 : MenuTree) :
  remove_found l c md = Some md1 ->
  exists pre k cd post its',
    md = pre ++ (k, cd) :: post
    /\ md1 = pre ++ (k, set_items cd its') :: post
    /\ pop_match l c (items cd) = Some its'
    /\ forall kv, In kv pre -> pop_match l c (items (snd kv)) = None.
Proof.
  revert md1. induction md as [|[k cd] rest IH]; simpl; intros md1;
    [discriminate|].
  destruct (pop_match l c (items cd)) as [its'|] eqn:E.
  - intros H. inversion H. subst.
    exists [], k, cd, rest, its'. simpl. repeat split; auto; intros kv [].
  - destruct (remove_found l c rest) as [rest'|]; [|discriminate].
    intros H. inversion H. subst.
    destruct (IH rest' eq_refl) as (pre & k' & cd' & post & its' & -> & -> & Hp & Hn).
    exists ((k, cd) :: pre), k', cd', post, its'. simpl. repeat split; auto.
    intros kv [<-|Hk]; [exact E|auto].
Qed.

(** The sweep of [update_item] over the empty categories. *)
Lemma sweep_filter (ks : list string) (md : MenuTree) :
  List.fold_left (fun d name => dict_del name d) ks md
  = List.filter (fun kv => negb (name_in (fst kv) ks)) md.
Proof.
  revert md. induction ks as [|k ks IH]; intros md; simpl.
  - induction md as [|kv r IHr]; simpl; [reflexivity|]. now rewrite <- IHr.
  - rewrite IH. unfold dict_del. clear IH.
    induction md as [|kv r IHr]; simpl; [reflexivity|].
    rewrite String.eqb_sym.
    destruct (String.eqb k (fst kv)); simpl; [exact IHr|].
    destruct (name_in (fst kv) ks); simpl; [exact IHr|]. now rewrite IHr.
Qed.

Lemma name_in_spec (k : string) (ks : list string) :
  name_in k ks = true <-> In k ks.
Proof.
  unfold name_in. rewrite existsb_exists. split.
  - intros (x & Hx & E). apply String.eqb_eq in E. now subst.
  - intros H. exists k. split; [exact H|apply String.eqb_refl].
Qed.

Lemma in_sweep (md : MenuTree) (k : string) (cd : Category) :
  In (k, cd)
    (List.fold_left (fun d name => dict_del name d)
       (categories_to_remove md) md) ->
  In (k, cd) md /\ items cd <> [].
Proof.
  rewrite sweep_filter, filter_In. simpl. intros [Hin Hk].
  split; [exact Hin|]. intros He.
  apply negb_true_iff in Hk.
  assert (Ht : name_in k (categories_to_remove md) = true).
  { apply name_in_spec. unfold categories_to_remove, dict_keys.
    apply in_map_iff. exists (k, cd). split; [reflexivity|].
    apply filter_In. split; [exact Hin|]. simpl. now rewrite He. }
  congruence.
Qed.

Lemma update_item_data_inv (st : App) (o n : Item) (md' : MenuTree) :
  update_item_data st o n = Some md' ->
  exists md1,
    remove_found (label o) (cmd o) (menu_data st) = Some md1
    /\ md' = (let md2 := if dict_mem (category n) md1 then md1
                         else dict_set (category n) (new_category_data st) md1 in
              let md3 := append_item (category n) n md2 in
              List.fold_left (fun d name => dict_del name d)
                (categories_to_remove md3) md3).
Proof.
  unfold update_item_data.
  destruct (remove_found (label o) (cmd o) (menu_data st)) as [md1|];
    [|discriminate].
  intros H. inversion H. exists md1. split; reflexivity.
Qed.

Lemma update_category_details_data_inv (st : App) (o n : string)
    (c : option ColorPair) (col : option Z) (t : string) (md' : MenuTree) :
  update_category_details_data st o n c col = Some (t, md') ->
  exists cd cd2,
    dict_get o (menu_data st) = Some cd
    /\ cd2 = set_colors
               (set_column cd
                  (normalize_column_value (column_count st)
                     (match col with
                      | Some v => v
                      | None => column_or_1 cd
                      end)))
               (sanitize_color_pair c)
    /\ ((t = o /\ md' = dict_set o cd2 (menu_data st))
        \/ (t = n /\ n <> o /\ n <> EmptyString
            /\ dict_mem n (menu_data st) = false
            /\ md' = dict_del o
                       (dict_set n
                          (set_items cd2
                             (List.map (fun i => set_category i n)
                                (items cd2)))
                          (menu_data st)))).
Proof.
  unfold update_category_details_data.
  destruct (dict_get o (menu_data st)) as [cd|]; [|discriminate].
  cbv zeta. intros H. eexists. eexists. split; [reflexivity|].
  split; [reflexivity|].
  assert (Hn : n = EmptyString
               \/ (n <> EmptyString
                   /\ match n with EmptyString => o | String _ _ => n end = n)).
  { destruct n; [now left|right; split; [discriminate|reflexivity]]. }
  destruct Hn as [->|[Hne Hn]].
  - rewrite String.eqb_refl in H. simpl in H. rewrite String.eqb_refl in H.
    simpl in H. inversion H. left. auto.
  - rewrite Hn in H.
    destruct (String.eqb_spec n o) as [E0|E0].
    + simpl in H. rewrite E0, String.eqb_refl in H. simpl in H.
      inversion H. left. subst. auto.
    + simpl negb in H. simpl andb in H.
      destruct (dict_mem n (menu_data st)) eqn:Hm.
      * rewrite String.eqb_refl in H. simpl in H. inversion H. left. auto.
      * destruct (String.eqb_spec n o); [contradiction|]. simpl in H.
        inversion H. right. repeat split; auto; congruence.
Qed.

(** ** Where the categories of a new tree come from *)

Lemma assign_columns_keys (count : Z) (md : MenuTree) :
  dict_keys (fst (assign_columns count md)) = dict_keys md.
Proof.
  induction md as [|[k cd] r IH]; simpl; [reflexivity|].
  destruct (assign_columns count r) as [r' ch]. simpl in IH.
  destruct (column cd) as [c|]; [destruct (c =? _)|]; simpl; now rewrite IH.
Qed.

Lemma assign_columns_in (count : Z) (md : MenuTree) (k : string)
    (cd' : Category) :
  In (k, cd') (fst (assign_columns count md)) ->
  exists cd,
    In (k, cd) md /\ items cd' = items cd /\ expanded cd' = expanded cd
    /\ colors cd' = colors cd
    /\ column cd' = Some (normalize_column_value count (column_or_1 cd)).
Proof.
  induction md as [|[k0 cd0] r IH]; simpl; [intros []|].
  destruct (assign_columns count r) as [r' ch]. simpl in IH.
  assert (Hr : In (k, cd') r' ->
               exists cd,
                 ((k0, cd0) = (k, cd) \/ In (k, cd) r)
                 /\ items cd' = items cd /\ expanded cd' = expanded cd
                 /\ colors cd' = colors cd
                 /\ column cd' =
                    Some (normalize_column_value count (column_or_1 cd))).
  { intros H. destruct (IH H) as (cd & H1 & H2). exists cd. tauto. }
  destruct (column cd0) as [c|] eqn:Ec.
  - destruct (Z.eqb_spec c (normalize_column_value count (column_or_1 cd0)))
      as [E|E]; simpl; (intros [H|H]; [|auto]); inversion H; subst k cd'.
    + exists cd0. repeat split; auto. rewrite Ec. f_equal. exact E.
    + exists cd0. repeat split; auto.
  - simpl. intros [H|H]; [|auto]. inversion H; subst k cd'.
    exists cd0. repeat split; auto.
Qed.

Lemma ensure_columns_keys (count : Z) (md : MenuTree) :
  dict_keys (fst (ensure_columns count md)) = dict_keys md.
Proof.
  induction md as [|[k cd] r IH]; simpl; [reflexivity|].
  destruct (ensure_columns count r) as [r' ch]. simpl in IH.
  destruct (negb _); simpl; now rewrite IH.
Qed.

Lemma ensure_columns_in (count : Z) (md : MenuTree) (k : string)
    (cd' : Category) :
  In (k, cd') (fst (ensure_columns count md)) ->
  exists cd,
    In (k, cd) md /\ items cd' = items cd /\ expanded cd' = expanded cd
    /\ colors cd' = colors cd
    /\ column_or_1 cd' = normalize_column_value count (column_or_1 cd)
    /\ (column cd' = None -> column cd = None).
Proof.
  induction md as [|[k0 cd0] r IH]; simpl; [intros []|].
  destruct (ensure_columns count r) as [r' ch]. simpl in IH.
  assert (Hr : In (k, cd') r' ->
               exists cd,
                 ((k0, cd0) = (k, cd) \/ In (k, cd) r)
                 /\ items cd' = items cd /\ expanded cd' = expanded cd
                 /\ colors cd' = colors cd
                 /\ column_or_1 cd' =
                    normalize_column_value count (column_or_1 cd)
                 /\ (column cd' = None -> column cd = None)).
  { intros H. destruct (IH H) as (cd & H1 & H2). exists cd. tauto. }
  destruct (Z.eqb_spec (column_or_1 cd0)
              (normalize_column_value count (column_or_1 cd0))) as [E|E];
    simpl; (intros [H|H]; [|auto]); inversion H; subst k cd'.
  - exists cd0. repeat split; auto.
  - exists cd0. repeat split; auto. discriminate.
Qed.

Lemma display_tree_in (count : Z) (md : MenuTree) (k : string)
    (cd' : Category) :
  In (k, cd') (display_tree count md) ->
  exists cd,
    In (k, cd) md /\ items cd <> []
    /\ items cd' = items cd /\ expanded cd' = expanded cd
    /\ colors cd' = colors cd
    /\ column cd' = Some (normalize_column_value count (column_or_1 cd)).
Proof.
  unfold display_tree, without_empty. intros H.
  apply assign_columns_in in H as (cd & Hin & H).
  apply filter_In in Hin as [Hin Hne]. simpl in Hne.
  exists cd. split; [exact Hin|]. split; [|exact H].
  destruct (items cd); [discriminate|discriminate].
Qed.

Lemma display_tree_keys (count : Z) (md : MenuTree) :
  dict_keys (display_tree count md) = dict_keys (without_empty md).
Proof. apply assign_columns_keys. Qed.

(** The tree that [add_new_item] stores, in full. *)
Lemma add_new_item_data_eq (st : App) (i : Item) :
  add_new_item_data st i
  = match dict_get (category i) (menu_data st) with
    | Some cd =>
        dict_set (category i) (set_items cd (items cd ++ [i])) (menu_data st)
    | None =>
        menu_data st ++ [(category i, mkCategory true (Some 1) None [i])]
    end.
Proof.
  destruct (dict_get (category i) (menu_data st)) as [cd|] eqn:E.
  - unfold add_new_item_data, dict_mem. rewrite E.
    now apply append_item_get.
  - apply add_new_item_data_fresh. unfold dict_mem. now rewrite E.
Qed.

(** What [remove_found] leaves of the tree. *)
Lemma remove_found_keys (l c : string) (md md1 : MenuTree) :
  remove_found l c md = Some md1 -> dict_keys md1 = dict_keys md.
Proof.
  intros H. apply remove_found_inv in H
    as (pre & k & cd & post & its' & -> & -> & _).
  unfold dict_keys. now rewrite !map_app.
Qed.

Lemma pop_match_incl (l c : string) (its its' : list Item) :
  pop_match l c its = Some its' -> incl its' its.
Proof.
  intros H. apply pop_match_inv in H as (a & x & b & -> & -> & _).
  intros y Hy. apply in_app_iff in Hy as [Hy|Hy]; apply in_app_iff;
    [left|right; right]; exact Hy.
Qed.

Lemma remove_found_in (l c : string) (md md1 : MenuTree) (k : string)
    (cd1 : Category) :
  remove_found l c md = Some md1 -> In (k, cd1) md1 ->
  exists cd,
    In (k, cd) md /\ incl (items cd1) (items cd)
    /\ column cd1 = column cd /\ expanded cd1 = expanded cd
    /\ colors cd1 = colors cd.
Proof.
  intros H Hin. apply remove_found_inv in H
    as (pre & k0 & cd0 & post & its' & -> & -> & Hp & _).
  apply in_app_iff in Hin as [Hin|[E|Hin]].
  - exists cd1. split; [apply in_app_iff; now left|].
    repeat split; auto. apply incl_refl.
  - inversion E; subst k cd1. exists cd0.
    split; [apply in_app_iff; right; now left|].
    repeat split; auto. simpl. eapply pop_match_incl; eauto.
  - exists cd1. split; [apply in_app_iff; right; now right|].
    repeat split; auto. apply incl_refl.
Qed.

(** Every category of the tree that [update_item] stores is a category of
    the tree after the removal, or the one that was created, with the new
    item at its end if it is the new item's category. *)
Lemma update_item_data_in (st : App) (o n : Item) (md' : MenuTree)
    (k : string) (cd' : Category) :
  update_item_data st o n = Some md' -> In (k, cd') md' ->
  items cd' <> []
  /\ exists cd,
       (In (k, cd) (menu_data st)
        \/ (k = category n /\ cd = new_category_data st))
       /\ (incl (items cd') (items cd)
           \/ (k = category n /\ incl (items cd') (items cd ++ [n])))
       /\ column cd' = column cd /\ expanded cd' = expanded cd
       /\ colors cd' = colors cd.
Proof.
  intros H Hin. apply update_item_data_inv in H as (md1 & Hrf & ->).
  cbv zeta in Hin. apply in_sweep in Hin as [Hin Hne].
  split; [exact Hne|].
  set (md2 := if dict_mem (category n) md1 then md1
              else dict_set (category n) (new_category_data st) md1) in *.
  assert (H2 : forall k2 cd2, In (k2, cd2) md2 ->
                 exists cd,
                   (In (k2, cd) (menu_data st)
                    \/ (k2 = category n /\ cd = new_category_data st))
                   /\ incl (items cd2) (items cd)
                   /\ column cd2 = column cd /\ expanded cd2 = expanded cd
                   /\ colors cd2 = colors cd).
  { intros k2 cd2 H2.
    assert (H1 : In (k2, cd2) md1
                 \/ (k2 = category n /\ cd2 = new_category_data st)).
    { unfold md2 in H2. destruct (dict_mem (category n) md1); [now left|].
      apply in_dict_set in H2. tauto. }
    destruct H1 as [H1|[-> ->]].
    - destruct (remove_found_in _ _ _ _ _ _ Hrf H1) as (cd & Hc & Hrest).
      exists cd. split; [now left|exact Hrest].
    - exists (new_category_data st). split; [now right|].
      repeat split; auto. apply incl_refl. }
  unfold append_item in Hin.
  destruct (dict_get (category n) md2) as [cdn|] eqn:En.
  - apply in_dict_set in Hin as [[-> ->]|Hin].
    + apply dict_get_in in En. destruct (H2 _ _ En) as (cd & Hc & Hi & Hrest).
      exists cd. split; [exact Hc|]. split; [|exact Hrest].
      right. split; [reflexivity|]. simpl.
      intros y Hy. apply in_app_iff in Hy as [Hy|Hy]; apply in_app_iff;
        [left; auto|right; exact Hy].
    + destruct (H2 _ _ Hin) as (cd & Hc & Hi & Hrest).
      exists cd. split; [exact Hc|]. split; [now left|exact Hrest].
  - destruct (H2 _ _ Hin) as (cd & Hc & Hi & Hrest).
    exists cd. split; [exact Hc|]. split; [now left|exact Hrest].
Qed.

Lemma update_item_data_unique (st : App) (o n : Item) (md' : MenuTree) :
  unique_keys (menu_data st) -> update_item_data st o n = Some md' ->
  unique_keys md'.
Proof.
  unfold unique_keys. intros Hu H.
  apply update_item_data_inv in H as (md1 & Hrf & ->). cbv zeta.
  rewrite sweep_filter. apply NoDup_map_filter.
  assert (H1 : NoDup (dict_keys md1))
    by (now rewrite (remove_found_keys _ _ _ _ Hrf)).
  assert (H2 : NoDup (dict_keys
                        (if dict_mem (category n) md1 then md1
                         else dict_set (category n) (new_category_data st)
                                md1)))
    by (destruct (dict_mem (category n) md1);
        [exact H1|now apply unique_dict_set]).
  unfold append_item. destruct (dict_get (category n) _);
    [now apply unique_dict_set|exact H2].
Qed.

(** ** Invariants of the tree under every sequence of actions *)

(** *** No two categories with the same name *)

Lemma unique_display (cc : Z) (md : MenuTree) :
  unique_keys md -> unique_keys (display_tree cc md).
Proof.
  unfold unique_keys. rewrite display_tree_keys.
  apply NoDup_map_filter.
Qed.

Lemma unique_add (st : App) (i : Item) :
  unique_keys (menu_data st) -> unique_keys (add_new_item_data st i).
Proof.
  unfold unique_keys. intros H. rewrite add_new_item_data_eq.
  destruct (dict_get (category i) (menu_data st)) as [cd|] eqn:E.
  - now apply unique_dict_set.
  - rewrite <- (dict_set_new (category i)
                  (mkCategory true (Some 1) None [i]) (menu_data st)).
    + now apply unique_dict_set.
    + unfold dict_mem. now rewrite E.
Qed.

Lemma unique_delete (md : MenuTree) (i : Item) (md' : MenuTree) :
  unique_keys md -> delete_item_data md i = Some md' -> unique_keys md'.
Proof.
  unfold unique_keys. intros Hu H.
  apply delete_item_data_inv in H as (cd & _ & _ & [[_ ->]|[_ ->]]).
  - now apply unique_dict_del.
  - now apply unique_dict_set.
Qed.

Lemma unique_details (st : App) (o n : string) (c : option ColorPair)
    (col : option Z) (t : string) (md' : MenuTree) :
  unique_keys (menu_data st) ->
  update_category_details_data st o n c col = Some (t, md') ->
  unique_keys md'.
Proof.
  unfold unique_keys. intros Hu H.
  apply update_category_details_data_inv in H
    as (cd & cd2 & _ & _ & [[_ ->]|(_ & _ & _ & _ & ->)]).
  - now apply unique_dict_set.
  - now apply unique_dict_del, unique_dict_set.
Qed.

Lemma unique_columns (count : Z) (md : MenuTree) :
  unique_keys md -> unique_keys (fst (ensure_columns count md)).
Proof. unfold unique_keys. now rewrite ensure_columns_keys. Qed.

(** X1.  Category names stay unique: when no two categories of the tree
    have the same name, no sequence of actions (adding, editing and
    deleting items, editing and toggling categories, changing the
    number of columns, applying settings, moving the cursor) leaves a
    tree with two categories of the same name. *)
Theorem actions_keep_names_unique (l : list Action) (st : App) :
  unique_keys (menu_data st) -> unique_keys (menu_data (run_all l st)).
Proof.
  intros H.
  apply (holds_run_all (fun _ md => unique_keys md)); try exact H.
  - intros cc md. apply unique_display.
  - intros s i. apply unique_add.
  - intros s o n md'. apply update_item_data_unique.
  - intros cc md i md'. apply unique_delete.
  - intros s o n c col t md'. apply unique_details.
  - intros cc md k cd b Hu _. now apply unique_dict_set.
  - intros cc md x. apply unique_columns.
Qed.

Lemma actions_keep_names_unique_witness :
  unique_keys
    (menu_data
       (run_all [AddItem editor_new; UpdateItem editor_work editor_new;
                 CursorDown; DeleteItem;
                 UpdateCategoryDetails "Play" "Fun" None (Some 2)]
          sample_app)).
Proof.
  apply (actions_keep_names_unique _ sample_app).
  unfold unique_keys. simpl.
  repeat constructor; simpl; try tauto.
  intros [H|[]]. discriminate H.
Defined.

(** *** Every item names its category *)

Lemma owned_display (cc : Z) (md : MenuTree) :
  owned md -> owned (display_tree cc md).
Proof.
  intros H k cd' i Hin Hi.
  apply display_tree_in in Hin as (cd & Hin & _ & Hit & _).
  rewrite Hit in Hi. eauto.
Qed.

Lemma owned_add (st : App) (i : Item) :
  owned (menu_data st) -> owned (add_new_item_data st i).
Proof.
  intros H k cd' x Hin Hx. rewrite add_new_item_data_eq in Hin.
  destruct (dict_get (category i) (menu_data st)) as [cd|] eqn:E.
  - apply in_dict_set in Hin as [[-> ->]|Hin]; [|eauto].
    simpl in Hx. apply in_app_iff in Hx as [Hx|[<-|[]]]; [|reflexivity].
    apply dict_get_in in E. eauto.
  - apply in_app_iff in Hin as [Hin|[E1|[]]]; [eauto|].
    inversion E1; subst k cd'. simpl in Hx. destruct Hx as [<-|[]].
    reflexivity.
Qed.

Lemma owned_update (st : App) (o n : Item) (md' : MenuTree) :
  owned (menu_data st) -> update_item_data st o n = Some md' -> owned md'.
Proof.
  intros H Hu k cd' x Hin Hx.
  destruct (update_item_data_in _ _ _ _ _ _ Hu Hin)
    as (_ & cd & Hc & Hi & _).
  assert (Hold : forall y, In y (items cd) -> category y = k).
  { destruct Hc as [Hc|[-> ->]]; [eauto|]. simpl. tauto. }
  destruct Hi as [Hi|[Hk Hi]]; [auto|].
  apply Hi, in_app_iff in Hx. destruct Hx as [Hx|[Hx|[]]]; [auto|].
  now subst.
Qed.

Lemma owned_delete (md : MenuTree) (i : Item) (md' : MenuTree) :
  owned md -> delete_item_data md i = Some md' -> owned md'.
Proof.
  intros H Hd k cd' x Hin Hx.
  apply delete_item_data_inv in Hd as (cd & Hg & _ & [[_ ->]|[_ ->]]).
  - apply in_dict_del in Hin as [Hin _]. eauto.
  - apply in_dict_set in Hin as [[-> ->]|Hin]; [|eauto].
    simpl in Hx. apply list_remove_incl in Hx.
    apply dict_get_in in Hg. eauto.
Qed.

Lemma owned_details (st : App) (o n : string) (c : option ColorPair)
    (col : option Z) (t : string) (md' : MenuTree) :
  owned (menu_data st) ->
  update_category_details_data st o n c col = Some (t, md') ->
  owned md'.
Proof.
  intros H Hd k cd' x Hin Hx.
  apply update_category_details_data_inv in Hd
    as (cd & cd2 & Hg & -> & [[_ ->]|(_ & _ & _ & _ & ->)]).
  - apply in_dict_set in Hin as [[-> ->]|Hin]; [|eauto].
    simpl in Hx. apply dict_get_in in Hg. eauto.
  - apply in_dict_del in Hin as [Hin _].
    apply in_dict_set in Hin as [[-> ->]|Hin]; [|eauto].
    simpl in Hx. apply in_map_iff in Hx as (y & <- & _). reflexivity.
Qed.

Lemma owned_toggle (md : MenuTree) (k : string) (cd : Category) (b : bool) :
  owned md -> dict_get k md = Some cd ->
  owned (dict_set k (set_expanded cd b) md).
Proof.
  intros H Hg k' cd' x Hin Hx.
  apply in_dict_set in Hin as [[-> ->]|Hin]; [|eauto].
  simpl in Hx. apply dict_get_in in Hg. eauto.
Qed.

Lemma owned_columns (count : Z) (md : MenuTree) :
  owned md -> owned (fst (ensure_columns count md)).
Proof.
  intros H k cd' x Hin Hx.
  apply ensure_columns_in in Hin as (cd & Hin & Hit & _).
  rewrite Hit in Hx. eauto.
Qed.

(** X2.  Items stay filed under their own name: when the [category] field
    of every item is the name of the category that holds it, this is so
    after every sequence of actions; in particular renaming a category
    rewrites the field in all its items, and an edited item moves to the
    category it names. *)
Theorem actions_keep_items_owned (l : list Action) (st : App) :
  owned (menu_data st) -> owned (menu_data (run_all l st)).
Proof.
  intros H.
  apply (holds_run_all (fun _ md => owned md)); try exact H.
  - intros cc md. apply owned_display.
  - intros s i. apply owned_add.
  - intros s o n md'. apply owned_update.
  - intros cc md i md'. apply owned_delete.
  - intros s o n c col t md'. apply owned_details.
  - intros cc md k cd b. apply owned_toggle.
  - intros cc md x. apply owned_columns.
Qed.

Lemma sample_tree_owned : owned sample_tree.
Proof.
  intros k cd i [E|[E|[]]] Hi; inversion E; subst; simpl in Hi;
    destruct Hi as [<-|[]]; reflexivity.
Qed.

Lemma actions_keep_items_owned_witness :
  owned
    (menu_data
       (run_all [UpdateCategoryDetails "Play" "Fun" None (Some 2);
                 AddItem editor_new; UpdateItem editor_work editor_new]
          sample_app)).
Proof.
  apply (actions_keep_items_owned _ sample_app).
  exact sample_tree_owned.
Defined.

(** *** No category without items *)

Lemma no_empty_display (cc : Z) (md : MenuTree) :
  no_empty (display_tree cc md).
Proof.
  intros k cd' Hin.
  apply display_tree_in in Hin as (cd & _ & Hne & Hit & _).
  now rewrite Hit.
Qed.

Lemma no_empty_add (st : App) (i : Item) :
  no_empty (menu_data st) -> no_empty (add_new_item_data st i).
Proof.
  intros H k cd' Hin. rewrite add_new_item_data_eq in Hin.
  destruct (dict_get (category i) (menu_data st)) as [cd|] eqn:E.
  - apply in_dict_set in Hin as [[-> ->]|Hin]; [|eauto].
    simpl. intros He. apply app_eq_nil in He as [_ He]. discriminate.
  - apply in_app_iff in Hin as [Hin|[E1|[]]]; [eauto|].
    inversion E1; subst k cd'. simpl. discriminate.
Qed.

Lemma no_empty_delete (md : MenuTree) (i : Item) (md' : MenuTree) :
  no_empty md -> delete_item_data md i = Some md' -> no_empty md'.
Proof.
  intros H Hd k cd' Hin.
  apply delete_item_data_inv in Hd as (cd & Hg & _ & [[_ ->]|[Hne ->]]).
  - apply in_dict_del in Hin as [Hin _]. eauto.
  - apply in_dict_set in Hin as [[-> ->]|Hin]; [exact Hne|eauto].
Qed.

Lemma no_empty_details (st : App) (o n : string) (c : option ColorPair)
    (col : option Z) (t : string) (md' : MenuTree) :
  no_empty (menu_data st) ->
  update_category_details_data st o n c col = Some (t, md') ->
  no_empty md'.
Proof.
  intros H Hd k cd' Hin.
  apply update_category_details_data_inv in Hd
    as (cd & cd2 & Hg & -> & [[_ ->]|(_ & _ & _ & _ & ->)]);
    apply dict_get_in in Hg; apply H in Hg.
  - apply in_dict_set in Hin as [[-> ->]|Hin]; [exact Hg|eauto].
  - apply in_dict_del in Hin as [Hin _].
    apply in_dict_set in Hin as [[-> ->]|Hin]; [|eauto].
    simpl. destruct (items cd); [congruence|discriminate].
Qed.

(** X3.  No action leaves a category without items behind: when every
    category of the tree has an item, so has every category after any
    sequence of actions; the category whose last item is deleted or moved
    away goes with it. *)
Theorem actions_leave_no_empty_category (l : list Action) (st : App) :
  no_empty (menu_data st) -> no_empty (menu_data (run_all l st)).
Proof.
  intros H.
  apply (holds_run_all (fun _ md => no_empty md)); try exact H.
  - intros cc md _. apply no_empty_display.
  - intros s i. apply no_empty_add.
  - intros s o n md' _ Hu k cd' Hin.
    now destruct (update_item_data_in _ _ _ _ _ _ Hu Hin).
  - intros cc md i md'. apply no_empty_delete.
  - intros s o n c col t md'. apply no_empty_details.
  - intros cc md k cd b Hn Hg k' cd' Hin.
    apply in_dict_set in Hin as [[-> ->]|Hin]; [|eauto].
    apply dict_get_in in Hg. simpl. eauto.
  - intros cc md x Hn k cd' Hin.
    apply ensure_columns_in in Hin as (cd & Hin & Hit & _).
    rewrite Hit. eauto.
Qed.

Lemma sample_tree_no_empty : no_empty sample_tree.
Proof.
  intros k cd [E|[E|[]]]; inversion E; subst; simpl; discriminate.
Qed.

Lemma actions_leave_no_empty_category_witness :
  no_empty
    (menu_data
       (run_all [DeleteItem; UpdateItem editor_work editor_new;
                 SetColumnCount 3 true]
          sample_app)).
Proof.
  apply (actions_leave_no_empty_category _ sample_app).
  exact sample_tree_no_empty.
Defined.

(** *** Every category in a column that exists *)

Lemma within_display (cc : Z) (md : MenuTree) :
  1 <= cc -> columns_within cc (display_tree cc md).
Proof.
  intros Hcc k cd' Hin.
  apply display_tree_in in Hin as (cd & _ & _ & _ & _ & _ & Hc).
  eexists. split; [exact Hc|]. now apply normalize_column_value_range.
Qed.

Lemma within_add (st : App) (i : Item) :
  1 <= column_count st ->
  columns_within (column_count st) (menu_data st) ->
  columns_within (column_count st) (add_new_item_data st i).
Proof.
  intros Hcc H k cd' Hin. rewrite add_new_item_data_eq in Hin.
  destruct (dict_get (category i) (menu_data st)) as [cd|] eqn:E.
  - apply in_dict_set in Hin as [[-> ->]|Hin]; [|eauto].
    apply dict_get_in in E. simpl. eauto.
  - apply in_app_iff in Hin as [Hin|[E1|[]]]; [eauto|].
    inversion E1; subst k cd'. simpl. exists 1. split; [reflexivity|lia].
Qed.

Lemma within_update (st : App) (o n : Item) (md' : MenuTree) :
  1 <= column_count st ->
  columns_within (column_count st) (menu_data st) ->
  update_item_data st o n = Some md' ->
  columns_within (column_count st) md'.
Proof.
  intros Hcc H Hu k cd' Hin.
  destruct (update_item_data_in _ _ _ _ _ _ Hu Hin)
    as (_ & cd & Hc & _ & Hcol & _).
  rewrite Hcol. destruct Hc as [Hc|[-> ->]]; [eauto|].
  simpl. eexists. split; [reflexivity|].
  now apply normalize_column_value_range.
Qed.

Lemma within_delete (cc : Z) (md : MenuTree) (i : Item) (md' : MenuTree) :
  columns_within cc md -> delete_item_data md i = Some md' ->
  columns_within cc md'.
Proof.
  intros H Hd k cd' Hin.
  apply delete_item_data_inv in Hd as (cd & Hg & _ & [[_ ->]|[_ ->]]).
  - apply in_dict_del in Hin as [Hin _]. eauto.
  - apply in_dict_set in Hin as [[-> ->]|Hin]; [|eauto].
    apply dict_get_in in Hg. simpl. eauto.
Qed.

Lemma within_details (st : App) (o n : string) (c : option ColorPair)
    (col : option Z) (t : string) (md' : MenuTree) :
  1 <= column_count st ->
  columns_within (column_count st) (menu_data st) ->
  update_category_details_data st o n c col = Some (t, md') ->
  columns_within (column_count st) md'.
Proof.
  intros Hcc H Hd k cd' Hin.
  apply update_category_details_data_inv in Hd
    as (cd & cd2 & Hg & -> & [[_ ->]|(_ & _ & _ & _ & ->)]).
  - apply in_dict_set in Hin as [[-> ->]|Hin]; [|eauto].
    simpl. eexists. split; [reflexivity|].
    now apply normalize_column_value_range.
  - apply in_dict_del in Hin as [Hin _].
    apply in_dict_set in Hin as [[-> ->]|Hin]; [|eauto].
    simpl. eexists. split; [reflexivity|].
    now apply normalize_column_value_range.
Qed.

Lemma within_columns (cc : Z) (md : MenuTree) (x : Z) :
  columns_within cc md ->
  columns_within (Z.max 1 x) (fst (ensure_columns (Z.max 1 x) md)).
Proof.
  intros H k cd' Hin.
  apply ensure_columns_in in Hin as (cd & Hin & _ & _ & _ & Hc & Hnone).
  destruct (H _ _ Hin) as (c0 & Hc0 & _).
  destruct (column cd') as [c'|] eqn:Ec'.
  - exists c'. split; [reflexivity|].
    unfold column_or_1 in Hc at 1. rewrite Ec' in Hc. rewrite Hc.
    apply normalize_column_value_range. lia.
  - rewrite (Hnone eq_refl) in Hc0. discriminate.
Qed.

(** X4.  Columns stay in range: when the number of columns is at least 1
    and every category has a column between 1 and that number, this is so
    after every sequence of actions, whatever number of columns is asked
    for on the way. *)
Theorem actions_keep_columns_in_range (l : list Action) (st : App) :
  1 <= column_count st ->
  columns_within (column_count st) (menu_data st) ->
  1 <= column_count (run_all l st)
  /\ columns_within (column_count (run_all l st)) (menu_data (run_all l st)).
Proof.
  intros Hcc H.
  apply (holds_run_all (fun cc md => 1 <= cc /\ columns_within cc md));
    try (split; assumption).
  - intros cc md [H1 _]. split; [exact H1|now apply within_display].
  - intros s i [H1 H2]. split; [exact H1|now apply within_add].
  - intros s o n md' [H1 H2] Hu. split; [exact H1|].
    eapply within_update; eauto.
  - intros cc md i md' [H1 H2] Hd. split; [exact H1|].
    eapply within_delete; eauto.
  - intros s o n c col t md' [H1 H2] Hd. split; [exact H1|].
    eapply within_details; eauto.
  - intros cc md k cd b [H1 H2] Hg. split; [exact H1|].
    intros k' cd' Hin.
    apply in_dict_set in Hin as [[-> ->]|Hin]; [|eauto].
    apply dict_get_in in Hg. simpl. eauto.
  - intros cc md x [_ H2]. split; [lia|]. eapply within_columns; eauto.
Qed.

Lemma sample_tree_within : columns_within 1 sample_tree.
Proof.
  intros k cd [E|[E|[]]]; inversion E; subst; simpl;
    (exists 1; split; [reflexivity|lia]).
Qed.

Lemma actions_keep_columns_in_range_witness :
  let st := run_all [SetColumnCount 9 true;
                     UpdateCategoryDetails "Play" "" None (Some 4);
                     Settings "Tools" false 2] sample_app in
  1 <= column_count st /\ columns_within (column_count st) (menu_data st).
Proof.
  apply (actions_keep_columns_in_range _ sample_app).
  - simpl. lia.
  - exact sample_tree_within.
Defined.

(** ** The file follows the state *)

Lemma in_sync_save (st : App) : in_sync (save_menu_data st).
Proof. exists (config_file st). reflexivity. Qed.

Lemma in_sync_same (st st' : App) :
  menu_data st' = menu_data st -> column_count st' = column_count st ->
  app_title st' = app_title st -> custom_colors st' = custom_colors st ->
  config_file st' = config_file st ->
  in_sync st -> in_sync st'.
Proof.
  unfold in_sync, record_of. intros -> -> -> -> ->. auto.
Qed.

Lemma assign_columns_unchanged (count : Z) (md : MenuTree) :
  snd (assign_columns count md) = false -> fst (assign_columns count md) = md.
Proof.
  induction md as [|[k cd] r IH]; simpl; [reflexivity|].
  destruct (assign_columns count r) as [r' ch]. simpl in IH.
  destruct (column cd) as [c|]; [destruct (c =? _)|]; simpl;
    try discriminate.
  intros H. now rewrite IH.
Qed.

Lemma in_sync_highlighting (st : App) :
  in_sync st -> in_sync (update_highlighting st).
Proof.
  destruct (update_highlighting_tree st) as (H1 & H2 & _ & H4 & H5 & H6 & _).
  now apply in_sync_same.
Qed.

Lemma in_sync_display (st : App) :
  in_sync st -> in_sync (update_menu_display st).
Proof.
  intros H. unfold update_menu_display.
  destruct (negb (menu_container st)); [exact H|].
  set (s1 := cleanup_empty_categories (with_display_items st [])).
  assert (H1 : in_sync s1).
  { unfold s1, cleanup_empty_categories.
    destruct (MenuTree_eq_dec _ _); [exact H|apply in_sync_save]. }
  pose proof (assign_columns_unchanged (column_count s1) (menu_data s1)) as Hu.
  destruct (assign_columns (column_count s1) (menu_data s1)) as [md ch].
  apply in_sync_highlighting. simpl in Hu.
  destruct ch.
  - destruct (in_sync_save (with_menu_data s1 md)) as [e He].
    exists e. exact He.
  - rewrite (Hu eq_refl). destruct H1 as [e He]. exists e. exact He.
Qed.

Lemma in_sync_set_column_count (count : Z) (al : bool) (st : App) :
  in_sync st -> in_sync (snd (set_column_count count al false true st)).
Proof.
  intros H. unfold set_column_count, ensure_category_columns,
    clamp_column_count.
  simpl column_count. simpl menu_data.
  pose proof (ensure_columns_changed
                (Z.max 1 (Z.min (max_columns st) count)) (menu_data st))
    as [Hu _].
  destruct (ensure_columns (Z.max 1 (Z.min (max_columns st) count))
              (menu_data st)) as [md ch].
  simpl in Hu. cbn [snd orb andb].
  match goal with
  | |- in_sync (if ?c then update_menu_display ?s1 else ?s1) =>
      assert (Hs : in_sync s1);
      [|destruct c; [apply in_sync_display|]; exact Hs]
  end.
  destruct (Z.eqb_spec (Z.max 1 (Z.min (max_columns st) count))
              (column_count st)) as [E|E]; simpl negb; cbn [orb].
  - destruct ch; [apply in_sync_save|].
    rewrite (Hu eq_refl), E. destruct H as [e He]. exists e. exact He.
  - apply in_sync_save.
Qed.

(** X5.  The file follows the state: when the menu file holds the tree,
    the title, the number of columns and the palette of the running
    application, it still does after every sequence of actions; no
    action changes one of them without writing the file, and the last
    record written is the current one. *)
Theorem actions_keep_file_in_sync (l : list Action) (st : App) :
  in_sync st -> in_sync (run_all l st).
Proof.
  revert st. induction l as [|a l IH]; intros st H; [exact H|].
  simpl. apply IH. clear IH l. destruct a; simpl run.
  - apply in_sync_display, in_sync_save.
  - unfold update_item.
    destruct (update_item_data st old_item new_item) as [md'|]; [|exact H].
    match goal with
    | |- in_sync (navigate_to_item ?i ?s) =>
        destruct (navigate_tree i s) as (H1 & H2 & _ & H4 & H5 & H6 & _);
        apply (in_sync_same s); auto
    end.
    apply in_sync_display, in_sync_save.
  - unfold action_delete_item. destruct (display_items st); [exact H|].
    destruct (display_len st <=? current_index st); [exact H|].
    destruct (py_index _ _) as [[name|item_data]|]; try exact H.
    destruct (delete_item_data (menu_data st) item_data) as [md'|];
      [|exact H].
    match goal with
    | |- in_sync (adjust_index ?s) =>
        destruct (adjust_index_tree s) as (H1 & H2 & _ & H4 & H5 & H6 & _);
        apply (in_sync_same s); auto
    end.
    apply in_sync_display, in_sync_save.
  - unfold update_category_details.
    destruct (update_category_details_data st old_name new_name colors_arg
                column_arg) as [[t md']|]; [|exact H].
    apply in_sync_highlighting.
    match goal with
    | |- in_sync (restore_position_to_category ?n ?s) =>
        destruct (restore_position_tree n s)
          as (H1 & H2 & _ & H4 & H5 & H6 & _);
        apply (in_sync_same s); auto
    end.
    apply in_sync_display, in_sync_save.
  - unfold action_toggle_category. destruct (display_items st); [exact H|].
    destruct (display_len st <=? current_index st); [exact H|].
    destruct (py_index _ _) as [[name|item_data]|]; try exact H.
    destruct (dict_get name (menu_data st)) as [cd|]; [|exact H].
    match goal with
    | |- in_sync (restore_position_to_category ?n ?s) =>
        destruct (restore_position_tree n s)
          as (H1 & H2 & _ & H4 & H5 & H6 & _);
        apply (in_sync_same s); auto
    end.
    apply in_sync_display, in_sync_save.
  - apply in_sync_set_column_count. exact H.
  - unfold handle_settings_result.
    destruct (set_column_count columns (negb theme_changed) false false st)
      as [ch s1].
    apply in_sync_save.
  - destruct (cursor_tree st) as [(H1 & H2 & H3 & H4 & H5 & _) _].
    now apply (in_sync_same st).
  - destruct (cursor_tree st) as [_ (H1 & H2 & H3 & H4 & H5 & _)].
    now apply (in_sync_same st).
Qed.

Lemma actions_keep_file_in_sync_witness :
  in_sync
    (run_all [AddItem editor_new; SetColumnCount 3 true; ToggleCategory;
              CursorUp; Settings " Tools " true 2]
       (save_menu_data sample_app)).
Proof.
  apply (actions_keep_file_in_sync _ (save_menu_data sample_app)).
  exists []. reflexivity.
Defined.

(** ** What the display shows *)

Lemma update_menu_display_items (st : App) :
  menu_container st = true ->
  display_items (update_menu_display st)
  = flatten (column_count st) (display_tree (column_count st) (menu_data st)).
Proof.
  intros Hm. unfold update_menu_display, display_tree, without_empty.
  rewrite Hm. simpl negb. cbv iota.
  set (f := fun kv : string * Category =>
              match items (snd kv) with [] => false | _ => true end).
  set (s1 := cleanup_empty_categories (with_display_items st [])).
  assert (H1 : menu_data s1 = List.filter f (menu_data st)
               /\ column_count s1 = column_count st).
  { unfold s1, cleanup_empty_categories. simpl menu_data. fold f.
    destruct (MenuTree_eq_dec (List.filter f (menu_data st)) (menu_data st))
      as [E|E]; simpl; rewrite ?E; auto. }
  destruct H1 as (Hmd & Hcc). rewrite Hmd, Hcc.
  destruct (assign_columns (column_count st) (List.filter f (menu_data st)))
    as [md ch].
  unfold update_highlighting. simpl fst.
  destruct ch; simpl display_items; rewrite ?Hcc;
    destruct (flatten (column_count st) md); reflexivity.
Qed.

Lemma range1_spec (n z : Z) : In z (range1 n) <-> 1 <= z <= n.
Proof.
  unfold range1. rewrite in_map_iff. split.
  - intros (k & <- & Hk). apply in_seq in Hk. lia.
  - intros H. exists (Z.to_nat z). split; [lia|]. apply in_seq. lia.
Qed.

Lemma range1_NoDup (n : Z) : NoDup (range1 n).
Proof.
  unfold range1. apply Finite.Injective_map_NoDup; [|apply seq_NoDup].
  intros a b. lia.
Qed.

(** Of the columns, only its own takes a category. *)
Lemma flat_map_single {A : Type} (x : Z) (e : list A) (cols : list Z) :
  NoDup cols -> In x cols ->
  List.flat_map (fun c => if x =? c then e else []) cols = e.
Proof.
  induction cols as [|c r IH]; simpl; intros Hnd Hin; [tauto|].
  inversion Hnd as [|? ? Hnot Hr]; subst.
  destruct (Z.eqb_spec x c) as [->|Hne].
  - assert (Hz : List.flat_map (fun c0 => if c =? c0 then e else []) r = []).
    { clear IH Hnd Hin Hr. induction r as [|d r IH]; simpl; [reflexivity|].
      destruct (Z.eqb_spec c d) as [->|_]; [simpl in Hnot; tauto|].
      apply IH. simpl in Hnot. tauto. }
    rewrite Hz. apply app_nil_r.
  - destruct Hin as [->|Hin]; [congruence|]. simpl. auto.
Qed.

Lemma flat_map_none {A : Type} (x : Z) (e : list A) (cols : list Z) :
  ~ In x cols ->
  List.flat_map (fun c => if x =? c then e else []) cols = [].
Proof.
  induction cols as [|c r IH]; simpl; intros Hnot; [reflexivity|].
  destruct (Z.eqb_spec x c) as [->|_]; [tauto|]. simpl. apply IH. tauto.
Qed.

Lemma flat_map_split {A B : Type} (f g : A -> list B) (l : list A) :
  Permutation (List.flat_map (fun a => f a ++ g a) l)
    (List.flat_map f l ++ List.flat_map g l).
Proof.
  induction l as [|a r IH]; simpl; [constructor|].
  rewrite <- !app_assoc. apply Permutation_app_head.
  rewrite IH. rewrite !app_assoc. apply Permutation_app_tail.
  apply Permutation_app_comm.
Qed.

(** The columns together hold the entries of every category whose column
    exists, once. *)
Lemma flatten_permutation (count : Z) (md : MenuTree) :
  Permutation (flatten count md)
    (List.flat_map
       (fun kv => if (1 <=? column_or_1 (snd kv))
                     && (column_or_1 (snd kv) <=? count)
                  then category_entries (fst kv) (snd kv) else [])
       md).
Proof.
  unfold flatten. induction md as [|[k cd] r IH]; simpl.
  - induction (range1 count); simpl; [constructor|assumption].
  - unfold column_entries at 1. simpl List.flat_map.
    rewrite flat_map_split. apply Permutation_app; [|exact IH].
    destruct (Z.leb_spec 1 (column_or_1 cd));
      destruct (Z.leb_spec (column_or_1 cd) count); simpl andb; cbv iota.
    + rewrite flat_map_single; [reflexivity|apply range1_NoDup|].
      apply range1_spec. lia.
    + rewrite flat_map_none; [reflexivity|]. rewrite range1_spec. lia.
    + rewrite flat_map_none; [reflexivity|]. rewrite range1_spec. lia.
    + rewrite flat_map_none; [reflexivity|]. rewrite range1_spec. lia.
Qed.

Lemma flatten_within (count : Z) (md : MenuTree) :
  columns_within count md ->
  Permutation (flatten count md)
    (List.flat_map (fun kv => category_entries (fst kv) (snd kv)) md).
Proof.
  intros H. rewrite flatten_permutation.
  assert (E : forall l : MenuTree, (forall kv, In kv l -> In kv md) ->
            List.flat_map
              (fun kv => if (1 <=? column_or_1 (snd kv))
                            && (column_or_1 (snd kv) <=? count)
                         then category_entries (fst kv) (snd kv) else []) l
            = List.flat_map (fun kv => category_entries (fst kv) (snd kv)) l).
  { induction l as [|[k cd] r IH]; simpl; intros Hl; [reflexivity|].
    rewrite IH by auto.
    destruct (H k cd (Hl _ (or_introl eq_refl))) as (c & Hc & Hr).
    unfold column_or_1. rewrite Hc.
    destruct (Z.leb_spec 1 c); [|lia].
    destruct (Z.leb_spec c count); [|lia]. reflexivity. }
  rewrite E by auto. reflexivity.
Qed.




(** ** Moving the cursor *)

(** One press of the up key on a display that is not empty. *)
Lemma action_cursor_up_step (st : App) :
  display_items st <> [] ->
  action_cursor_up st =
  with_current_index st ((current_index st - 1) mod display_len st).
Proof.
  intros Hne. pose proof (display_len_pos st Hne) as Hpos.
  unfold action_cursor_up. destruct (display_items st) eqn:E; [congruence|].
  pose proof (Z.mod_pos_bound (current_index st - 1) (display_len st) Hpos) as Hm.
  destruct (Z.eqb_spec ((current_index st - 1) mod display_len st)
              (current_index st)) as [Heq|Hneq]; simpl negb; cbv iota.
  - rewrite Heq. symmetry. apply with_current_index_same.
  - now apply update_highlighting_in_range.
Qed.

(** X7.  The up key undoes the down key and the other way round, from
    every index of the display; and on a display that is not empty either
    key leaves the index on an entry of the display, wherever it was. *)
Theorem cursor_up_undoes_down (st : App) :
  (display_items st <> [] ->
   0 <= current_index (action_cursor_down st) < display_len st
   /\ 0 <= current_index (action_cursor_up st) < display_len st)
  /\ (0 <= current_index st < display_len st ->
      action_cursor_up (action_cursor_down st) = st
      /\ action_cursor_down (action_cursor_up st) = st).
Proof.
  split.
  - intros Hne. pose proof (display_len_pos st Hne) as Hpos.
    rewrite (action_cursor_down_step st Hne), (action_cursor_up_step st Hne).
    simpl current_index.
    split; apply Z.mod_pos_bound; exact Hpos.
  - intros Hi.
    assert (Hne : display_items st <> []).
    { intros E. unfold display_len in Hi. rewrite E in Hi. simpl in Hi. lia. }
    rewrite (action_cursor_down_step st Hne), (action_cursor_up_step st Hne).
    rewrite action_cursor_up_step, action_cursor_down_step by exact Hne.
    rewrite !with_current_index_twice. simpl current_index.
    change (display_len (with_current_index st _)) with (display_len st).
    rewrite Zminus_mod_idemp_l, Zplus_mod_idemp_l.
    replace (current_index st + 1 - 1) with (current_index st) by lia.
    replace (current_index st - 1 + 1) with (current_index st) by lia.
    rewrite Z.mod_small by exact Hi.
    split; apply with_current_index_same.
Qed.

Lemma cursor_up_undoes_down_witness :
  (display_items sample_app <> [] ->
   0 <= current_index (action_cursor_down sample_app) < display_len sample_app
   /\ 0 <= current_index (action_cursor_up sample_app)
      < display_len sample_app)
  /\ (action_cursor_up (action_cursor_down sample_app) = sample_app
      /\ action_cursor_down (action_cursor_up sample_app) = sample_app).
Proof.
  destruct (cursor_up_undoes_down sample_app) as [H1 H2].
  split; [exact H1|]. apply H2. vm_compute. split; [discriminate|reflexivity].
Defined.

(** ** Finding an entry *)

Lemma find_index_some {A : Type} (p : A -> bool) (l : list A) (i0 j : Z) :
  find_index p l i0 = Some j ->
  i0 <= j < i0 + Z.of_nat (List.length l)
  /\ (exists x, nth_error l (Z.to_nat (j - i0)) = Some x /\ p x = true)
  /\ forall k x, i0 <= k < j ->
       nth_error l (Z.to_nat (k - i0)) = Some x -> p x = false.
Proof.
  revert i0. induction l as [|a r IH]; intros i0; simpl find_index;
    [discriminate|].
  destruct (p a) eqn:Ea.
  - intros H. inversion H. subst j. split; [simpl List.length; lia|]. split.
    + exists a. rewrite Z.sub_diag. simpl. auto.
    + intros k x Hk. lia.
  - intros H. destruct (IH _ H) as (Hr & (x & Hx & Hp) & Hbefore).
    split; [simpl List.length; lia|]. split.
    + exists x. split; [|exact Hp].
      replace (Z.to_nat (j - i0)) with (S (Z.to_nat (j - (i0 + 1)))) by lia.
      exact Hx.
    + intros k x' Hk Hn.
      destruct (Z.eq_dec k i0) as [->|Hne].
      * rewrite Z.sub_diag in Hn. simpl in Hn. inversion Hn. now subst.
      * apply (Hbefore k x'); [lia|].
        replace (Z.to_nat (k - i0)) with (S (Z.to_nat (k - (i0 + 1)))) in Hn
          by lia.
        exact Hn.
Qed.

Lemma find_index_none {A : Type} (p : A -> bool) (l : list A) (i0 : Z) :
  find_index p l i0 = None <-> forall x, In x l -> p x = false.
Proof.
  revert i0. induction l as [|a r IH]; intros i0; simpl.
  - split; [intros _ x []|reflexivity].
  - destruct (p a) eqn:Ea.
    + split; [discriminate|]. intros H. rewrite (H a) in Ea; [discriminate|].
      now left.
    + rewrite IH. split.
      * intros H x [<-|Hx]; auto.
      * intros H x Hx. apply H. now right.
Qed.

Lemma py_index_nonneg {A : Type} (l : list A) (i : Z) :
  0 <= i -> py_index l i = nth_error l (Z.to_nat i).
Proof.
  intros H. unfold py_index. destruct (Z.leb_spec 0 i); [reflexivity|lia].
Qed.

(** X8.  [navigate_to_item] puts the cursor on the first entry of the
    display that is an item with the label and the command of the target,
    and leaves the state alone when there is none. *)
Theorem navigate_to_item_first_match (target : Item) (st : App) :
  let hit := fun e => match e with
                      | DItem data =>
                          String.eqb (label data) (label target)
                          && String.eqb (cmd data) (cmd target)
                      | DCategory _ => false
                      end in
  let st' := navigate_to_item target st in
  ((forall e, In e (display_items st) -> hit e = false) -> st' = st)
  /\ ((exists e, In e (display_items st) /\ hit e = true) ->
      st' = with_current_index st (current_index st')
      /\ 0 <= current_index st' < display_len st
      /\ (exists data,
            py_index (display_items st) (current_index st')
            = Some (DItem data)
            /\ label data = label target /\ cmd data = cmd target)
      /\ forall k e, 0 <= k < current_index st' ->
           py_index (display_items st) k = Some e -> hit e = false).
Proof.
  cbv zeta. unfold navigate_to_item.
  set (hit := fun e => match e with
                       | DItem data =>
                           String.eqb (label data) (label target)
                           && String.eqb (cmd data) (cmd target)
                       | DCategory _ => false
                       end).
  destruct (find_index hit (display_items st) 0) as [j|] eqn:E.
  - apply find_index_some in E as (Hr & (x & Hx & Hp) & Hbefore).
    rewrite Z.sub_0_r in Hx. fold (display_len st) in Hr.
    rewrite update_highlighting_in_range by lia. simpl current_index.
    split.
    + intros Hnone. apply nth_error_In in Hx. specialize (Hnone x Hx).
      change (hit x = false) in Hnone. congruence.
    + intros _. split; [reflexivity|]. split; [lia|]. split.
      * destruct x as [name|data]; [discriminate|]. exists data.
        rewrite py_index_nonneg by lia. split; [exact Hx|].
        apply andb_prop in Hp as [H1 H2].
        apply String.eqb_eq in H1, H2. auto.
      * intros k e Hk He. rewrite py_index_nonneg in He by lia.
        apply (Hbefore k e); [lia|]. now rewrite Z.sub_0_r.
  - split; [reflexivity|].
    intros (e & He & Hp). rewrite find_index_none in E.
    change (hit e = true) in Hp. rewrite (E e He) in Hp. discriminate.
Qed.

(** X9.  [restore_position_to_category] puts the cursor on the first
    header of the display with the name of the category, and leaves the
    state alone when no header has it. *)
Theorem restore_position_first_header (name : string) (st : App) :
  let st' := restore_position_to_category name st in
  (~ In (DCategory name) (display_items st) -> st' = st)
  /\ (In (DCategory name) (display_items st) ->
      st' = with_current_index st (current_index st')
      /\ 0 <= current_index st' < display_len st
      /\ py_index (display_items st) (current_index st')
         = Some (DCategory name)
      /\ forall k, 0 <= k < current_index st' ->
           py_index (display_items st) k <> Some (DCategory name)).
Proof.
  cbv zeta. unfold restore_position_to_category.
  set (hit := fun e => match e with
                       | DCategory n => String.eqb n name
                       | DItem _ => false
                       end).
  assert (Hhit : forall e, hit e = true <-> e = DCategory name).
  { intros [n|d]; simpl; [|split; discriminate].
    rewrite String.eqb_eq. split; [now intros ->|congruence]. }
  destruct (find_index hit (display_items st) 0) as [j|] eqn:E.
  - apply find_index_some in E as (Hr & (x & Hx & Hp) & Hbefore).
    rewrite Z.sub_0_r in Hx. fold (display_len st) in Hr.
    apply Hhit in Hp. subst x. simpl current_index. split.
    + intros Hnot. apply nth_error_In in Hx. contradiction.
    + intros _. split; [reflexivity|]. split; [lia|]. split.
      * now rewrite py_index_nonneg by lia.
      * intros k Hk He. rewrite py_index_nonneg in He by lia.
        rewrite <- (Z.sub_0_r k) in He.
        apply Hbefore in He; [|lia]. simpl in He.
        rewrite String.eqb_refl in He. discriminate.
  - split; [reflexivity|].
    intros Hin. rewrite find_index_none in E. apply E in Hin. simpl in Hin.
    rewrite String.eqb_refl in Hin. discriminate.
Qed.

Lemma navigate_to_item_first_match_witness :
  navigate_to_item editor_play sample_app = with_current_index sample_app 1.
Proof.
  destruct (navigate_to_item_first_match editor_play sample_app) as [_ H].
  destruct H as (H & _).
  - exists (DItem editor_work). split; [simpl; tauto|reflexivity].
  - exact H.
Defined.

Lemma restore_position_first_header_witness :
  py_index (display_items sample_app)
    (current_index (restore_position_to_category "Play" sample_app))
  = Some (DCategory "Play").
Proof.
  destruct (restore_position_first_header "Play" sample_app) as [_ H].
  destruct H as (_ & _ & H & _).
  - simpl. tauto.
  - exact H.
Defined.

(** ** Colours *)

(** A colour that has been normalised is left alone. *)
Lemma normalize_again (s v : string) :
  normalize_hex_color (Some s) = Some v ->
  normalize_hex_color (Some v) = Some v
  /\ String.length v = 7%nat /\ Py.startswith_hash v = true.
Proof.
  intros H.
  pose proof (normalize_some_inv s v H) as (Hv & Hl & z & Hz).
  set (t := Py.strip s) in *. set (b0 := after_marker t) in *.
  assert (Hb0 : b0 <> EmptyString).
  { intros E. rewrite E in Hl. discriminate. }
  assert (Hr : Py.rstrip (Py.lower b0) = Py.lower b0).
  { rewrite rstrip_lower. f_equal. apply rstrip_after_marker; [|exact Hb0].
    apply rstrip_strip. }
  assert (Hne : Py.lower b0 <> EmptyString).
  { intros E. rewrite E in Hl. discriminate. }
  split; [|split].
  - rewrite normalize_eq', Hv, (strip_hash _ Hne Hr).
    cbv zeta. unfold after_marker. simpl Py.startswith_hash. simpl Py.tail.
    cbv iota. rewrite lower_idem, Hl, Hz. reflexivity.
  - rewrite Hv. simpl. now rewrite Hl.
  - rewrite Hv. reflexivity.
Qed.

(** X10.  [sanitize_color_pair] gives a pair that it accepts unchanged:
    both colours of the result are a marker and six more characters, and
    sanitising the result again returns it. *)
Theorem sanitize_color_pair_settles (color_pair : option ColorPair) :
  sanitize_color_pair (sanitize_color_pair color_pair)
  = sanitize_color_pair color_pair
  /\ forall cp, sanitize_color_pair color_pair = Some cp ->
       String.length (background cp) = 7%nat
       /\ String.length (text cp) = 7%nat
       /\ Py.startswith_hash (background cp) = true
       /\ Py.startswith_hash (text cp) = true.
Proof.
  assert (Hs : forall b t,
             sanitize_color_pair (Some (mkColorPair b t))
             = match normalize_hex_color (Some b),
                     normalize_hex_color (Some t) with
               | Some bg, Some tx => Some (mkColorPair bg tx)
               | _, _ => None
               end) by reflexivity.
  destruct color_pair as [[b t]|]; [|split; [reflexivity|discriminate]].
  rewrite Hs.
  destruct (normalize_hex_color (Some b)) as [b'|] eqn:Eb;
    [|split; [reflexivity|discriminate]].
  destruct (normalize_hex_color (Some t)) as [t'|] eqn:Et;
    [|split; [reflexivity|discriminate]].
  destruct (normalize_again _ _ Eb) as (Hb1 & Hb2 & Hb3).
  destruct (normalize_again _ _ Et) as (Ht1 & Ht2 & Ht3).
  split.
  - now rewrite Hs, Hb1, Ht1.
  - intros cp H. inversion H. simpl. auto.
Qed.

(** ** The category editor *)

Lemma name_in_false (name : string) (l : list string) :
  name_in name l = false <-> ~ In name l.
Proof.
  rewrite <- name_in_spec. destruct (name_in name l); split; auto;
    try discriminate. intros H. now contradiction H.
Qed.

(** What [action_save] has checked when it dismisses the screen. *)
Lemma action_save_dismissed (scr : EditCategoryScreen) (inp : CategoryInputs)
    (result : CategoryResult) :
  action_save scr inp = Dismiss result ->
  r_old_name result = old_category_name scr
  /\ r_new_name result = Py.strip (category_input inp)
  /\ r_new_name result <> EmptyString
  /\ (r_new_name result = old_category_name scr
      \/ ~ In (r_new_name result) (existing_categories scr))
  /\ 1 <= r_column result
  /\ (1 <= scr_max_columns scr -> r_column result <= scr_max_columns scr)
  /\ sanitize_color_pair (r_colors result) = r_colors result.
Proof.
  unfold action_save.
  destruct (Py.strip (category_input inp)) as [|c r] eqn:En; [discriminate|].
  set (new_name := String c r) in *.
  destruct (normalize_hex_color (Some (background_input inp))) as [bg|] eqn:Eb;
    destruct (normalize_hex_color (Some (text_input inp))) as [tx|] eqn:Et;
    try discriminate;
    (destruct (negb (String.eqb new_name (old_category_name scr))
               && name_in new_name _) eqn:Ec; [discriminate|]);
    intros H; inversion H; subst result; clear H;
    cbn [r_old_name r_new_name r_colors r_column r_custom_colors];
    (assert (Hfree : new_name = old_category_name scr
                     \/ ~ In new_name (existing_categories scr));
     [ apply andb_false_iff in Ec as [Ec|Ec];
       [ left; apply negb_false_iff, String.eqb_eq in Ec; exact Ec
       | destruct (String.eqb_spec new_name (old_category_name scr)) as [E|E];
         [ now left
         | right; intros Hin;
           rewrite (name_in_filter _ _ _ Hin E) in Ec; discriminate ] ]
     | ]).
  - destruct (normalize_again _ _ Eb) as (Hb & _).
    destruct (normalize_again _ _ Et) as (Ht & _).
    unfold sanitize_color_pair. cbn [background text]. rewrite Hb, Ht.
    repeat split; auto; try discriminate; try lia.
  - repeat split; auto; try discriminate; try lia.
Qed.

(** X11.  What the category editor is dismissed with: the old name as it
    was; a new name that is trimmed, not empty, and either the old name or
    the name of no other category; a column from 1 to the number of
    columns; and colours that are both absent or both normalised. *)
Theorem action_save_result (scr : EditCategoryScreen) (inp : CategoryInputs)
    (result : CategoryResult) :
  action_save scr inp = Dismiss result ->
  r_old_name result = old_category_name scr
  /\ r_new_name result = Py.strip (category_input inp)
  /\ r_new_name result <> EmptyString
  /\ (r_new_name result = old_category_name scr
      \/ ~ In (r_new_name result) (existing_categories scr))
  /\ 1 <= r_column result
  /\ (1 <= scr_max_columns scr -> r_column result <= scr_max_columns scr)
  /\ sanitize_color_pair (r_colors result) = r_colors result
  /\ (r_colors result = None <->
      normalize_hex_color (Some (background_input inp)) = None
      /\ normalize_hex_color (Some (text_input inp)) = None)
  /\ r_custom_colors result = available_colors scr.
Proof.
  unfold action_save.
  destruct (Py.strip (category_input inp)) as [|c r] eqn:En; [discriminate|].
  set (new_name := String c r) in *.
  destruct (normalize_hex_color (Some (background_input inp))) as [bg|] eqn:Eb;
    destruct (normalize_hex_color (Some (text_input inp))) as [tx|] eqn:Et;
    try discriminate;
    (destruct (negb (String.eqb new_name (old_category_name scr))
               && name_in new_name _) eqn:Ec; [discriminate|]);
    intros H; inversion H; subst result; clear H;
    cbn [r_old_name r_new_name r_colors r_column r_custom_colors];
    (assert (Hfree : new_name = old_category_name scr
                     \/ ~ In new_name (existing_categories scr));
     [ apply andb_false_iff in Ec as [Ec|Ec];
       [ left; apply negb_false_iff, String.eqb_eq in Ec; exact Ec
       | destruct (String.eqb_spec new_name (old_category_name scr)) as [E|E];
         [ now left
         | right; intros Hin;
           rewrite (name_in_filter _ _ _ Hin E) in Ec; discriminate ] ]
     | ]).
  - destruct (normalize_again _ _ Eb) as (Hb & _).
    destruct (normalize_again _ _ Et) as (Ht & _).
    unfold sanitize_color_pair. cbn [background text]. rewrite Hb, Ht.
    repeat split; auto; try discriminate; try lia.
    intros [H _]. discriminate.
  - repeat split; auto; try discriminate; try lia.
Qed.

Lemma action_save_result_witness :
  let result :=
    mkCategoryResult "Work" "Office" (Some (mkColorPair "#1a2b3c" "#ffffff"))
      1 DEFAULT_COLOR_PAIRS in
  r_new_name result <> EmptyString /\ r_column result <= 1.
Proof.
  destruct (action_save_result (open_category_editor sample_app "Work")
              (mkCategoryInputs " Office " "1A2B3C" "#FFFFFF " "7")
              (mkCategoryResult "Work" "Office"
                 (Some (mkColorPair "#1a2b3c" "#ffffff")) 1
                 DEFAULT_COLOR_PAIRS))
    as (_ & _ & H3 & _ & _ & H6 & _).
  - reflexivity.
  - split; [exact H3|]. apply H6. simpl. lia.
Defined.

(** The tree that [update_category_details] stores for a result of the
    category editor: the category is under the name that was typed, in
    the column and with the colours of the result. *)
Lemma edited_category_data (st : App) (name : string)
    (inp : CategoryInputs) (result : CategoryResult) (cd : Category) :
  1 <= column_count st ->
  dict_get name (menu_data st) = Some cd ->
  action_save (open_category_editor st name) inp = Dismiss result ->
  exists md' cd',
    update_category_details_data
      (with_custom_colors st (r_custom_colors result))
      (r_old_name result) (r_new_name result) (r_colors result)
      (Some (r_column result))
    = Some (Py.strip (category_input inp), md')
    /\ r_old_name result = name
    /\ dict_get (Py.strip (category_input inp)) md' = Some cd'
    /\ column cd' = Some (r_column result)
    /\ 1 <= r_column result <= column_count st
    /\ colors cd' = r_colors result
    /\ expanded cd' = expanded cd
    /\ List.map label (items cd') = List.map label (items cd)
    /\ (Py.strip (category_input inp) <> name -> dict_get name md' = None).
Proof.
  intros Hcc Hget Hsave.
  destruct (action_save_dismissed _ _ _ Hsave)
    as (Hold & Hnew & Hne & Hfree & Hc1 & Hc2 & Hsan).
  simpl in Hold, Hfree, Hc2.
  assert (Hrange : 1 <= r_column result <= column_count st)
    by (specialize (Hc2 ltac:(lia)); lia).
  assert (Hcol : normalize_column_value (column_count st) (r_column result)
                 = r_column result)
    by (unfold normalize_column_value; lia).
  rewrite <- Hnew. unfold update_category_details_data.
  simpl menu_data. simpl column_count. rewrite Hold, Hget. cbv zeta.
  rewrite Hcol, Hsan.
  assert (Ht : match r_new_name result with
               | EmptyString => name
               | String _ _ => r_new_name result
               end = r_new_name result)
    by (destruct (r_new_name result); congruence).
  rewrite Ht.
  destruct (String.eqb_spec (r_new_name result) name) as [E|E].
  - simpl negb. simpl andb. cbv iota. rewrite E, String.eqb_refl.
    simpl negb. cbv iota.
    eexists. eexists. split; [reflexivity|]. split; [reflexivity|].
    split; [apply dict_get_set_same|]. simpl. repeat split; auto; try lia.
    intros Hn. congruence.
  - destruct Hfree as [Hfree|Hfree]; [contradiction|].
    assert (Hm : dict_mem (r_new_name result) (menu_data st) = false).
    { destruct (dict_mem (r_new_name result) (menu_data st)) eqn:Em;
        [|reflexivity].
      apply dict_mem_keys in Em. contradiction. }
    simpl negb. rewrite Hm. simpl andb. cbv iota.
    destruct (String.eqb_spec (r_new_name result) name); [contradiction|].
    simpl negb. cbv iota.
    eexists. eexists. split; [reflexivity|]. split; [reflexivity|].
    split; [rewrite dict_get_del_other by congruence;
            apply dict_get_set_same|].
    simpl. repeat split; auto; try lia.
    + rewrite map_map. reflexivity.
    + intros _. apply dict_get_del_same.
Qed.

(** ** The colour form *)





(** ** Filing a new item *)

Lemma dict_get_without_empty (k : string) (md : MenuTree) (cd : Category) :
  dict_get k md = Some cd -> items cd <> [] ->
  dict_get k (without_empty md) = Some cd.
Proof.
  intros H Hne. unfold without_empty.
  induction md as [|[k0 cd0] r IH]; simpl in *; [discriminate|].
  destruct (String.eqb_spec k0 k) as [->|Hk].
  - inversion H. subst cd0. destruct (items cd); [congruence|].
    simpl. now rewrite String.eqb_refl.
  - destruct (items cd0); [auto|]. simpl.
    destruct (String.eqb_spec k0 k); [contradiction|auto].
Qed.

Lemma dict_get_assign (count : Z) (k : string) (md : MenuTree)
    (cd : Category) :
  dict_get k md = Some cd ->
  exists cd',
    dict_get k (fst (assign_columns count md)) = Some cd'
    /\ items cd' = items cd /\ expanded cd' = expanded cd
    /\ colors cd' = colors cd
    /\ column cd' = Some (normalize_column_value count (column_or_1 cd)).
Proof.
  induction md as [|[k0 cd0] r IH]; simpl; [discriminate|].
  destruct (assign_columns count r) as [r' ch]. simpl in IH.
  destruct (String.eqb_spec k0 k) as [->|Hk].
  - intros H. inversion H. subst cd0.
    destruct (column cd) as [c|] eqn:Ec.
    + destruct (Z.eqb_spec c (normalize_column_value count (column_or_1 cd)))
        as [E|E]; simpl; rewrite String.eqb_refl; eexists;
        (split; [reflexivity|]); repeat split; auto.
      rewrite Ec. now f_equal.
    + simpl. rewrite String.eqb_refl. eexists. split; [reflexivity|].
      repeat split; auto.
  - intros H. destruct (IH H) as (cd' & Hg & Hrest). exists cd'.
    split; [|exact Hrest].
    destruct (column cd0) as [c|]; [destruct (c =? _)|]; simpl;
      (destruct (String.eqb_spec k0 k); [contradiction|exact Hg]).
Qed.

Lemma dict_get_display_tree (count : Z) (k : string) (md : MenuTree)
    (cd : Category) :
  dict_get k md = Some cd -> items cd <> [] ->
  exists cd',
    dict_get k (display_tree count md) = Some cd'
    /\ items cd' = items cd /\ expanded cd' = expanded cd
    /\ colors cd' = colors cd
    /\ column cd' = Some (normalize_column_value count (column_or_1 cd)).
Proof.
  intros H Hne. unfold display_tree. apply dict_get_assign.
  now apply dict_get_without_empty.
Qed.

Lemma add_new_item_lookup (item_data : Item) (st : App) :
  exists cd,
    dict_get (category item_data) (menu_data (add_new_item item_data st))
    = Some cd
    /\ items cd
       = match dict_get (category item_data) (menu_data st) with
         | Some old => items old
         | None => []
         end ++ [item_data].
Proof.
  unfold add_new_item.
  destruct (update_menu_display_tree
              (save_menu_data
                 (with_menu_data st (add_new_item_data st item_data))))
    as (-> & _).
  simpl menu_container. simpl menu_data. simpl column_count.
  assert (H : exists cd0,
            dict_get (category item_data) (add_new_item_data st item_data)
            = Some cd0
            /\ items cd0
               = match dict_get (category item_data) (menu_data st) with
                 | Some old => items old
                 | None => []
                 end ++ [item_data]).
  { rewrite add_new_item_data_eq.
    destruct (dict_get (category item_data) (menu_data st)) as [old|] eqn:E.
    - eexists. split; [apply dict_get_set_same|reflexivity].
    - rewrite <- (dict_set_new (category item_data)
                    (mkCategory true (Some 1) None [item_data])
                    (menu_data st)) by (unfold dict_mem; now rewrite E).
      eexists. split; [apply dict_get_set_same|reflexivity]. }
  destruct H as (cd0 & Hg & Hi).
  destruct (menu_container st); [|eauto].
  destruct (dict_get_display_tree (column_count st) _ _ _ Hg)
    as (cd' & Hg' & Hi' & _).
  - rewrite Hi. intros He. apply app_eq_nil in He as [_ He]. discriminate.
  - exists cd'. split; [exact Hg'|]. now rewrite Hi'.
Qed.

(** X14.  [add_new_item] files the item: in the tree of the state it is
    the last item of the category it names, behind the items that
    category had, whether the display is mounted or not. *)
Theorem add_new_item_files_item (item_data : Item) (st : App) :
  exists cd,
    dict_get (category item_data) (menu_data (add_new_item item_data st))
    = Some cd
    /\ items cd
       = match dict_get (category item_data) (menu_data st) with
         | Some old => items old
         | None => []
         end ++ [item_data].
Proof. apply add_new_item_lookup. Qed.

(** X15.  What the item editor is dismissed with is an item with trimmed
    fields and a category that is not empty, [General] when none was
    typed; saved as a new item it is found in that category. *)
Theorem dialog_item_is_filed (inp : EditItemScreen.Inputs) (st : App) :
  let item_data := EditItemScreen.action_save inp in
  Py.strip (label item_data) = label item_data
  /\ Py.strip (cmd item_data) = cmd item_data
  /\ Py.strip (info item_data) = info item_data
  /\ Py.strip (category item_data) = category item_data
  /\ category item_data <> EmptyString
  /\ (Py.strip (EditItemScreen.category_input inp) = EmptyString <->
      category item_data = "General"
      /\ Py.strip (EditItemScreen.category_input inp) <> "General")
  /\ exists cd,
       dict_get (category item_data) (menu_data (handle_new_result inp st))
       = Some cd
       /\ In item_data (items cd).
Proof.
  cbv zeta. unfold handle_new_result.
  destruct (add_new_item_lookup (EditItemScreen.action_save inp) st)
    as (cd & Hg & Hi).
  unfold EditItemScreen.action_save in *. cbn [label cmd info category] in *.
  rewrite !strip_idem.
  repeat split.
  - destruct (Py.strip (EditItemScreen.category_input inp)) eqn:E;
      [reflexivity|]. rewrite <- E. apply strip_idem.
  - destruct (Py.strip (EditItemScreen.category_input inp)); discriminate.
  - destruct (Py.strip (EditItemScreen.category_input inp)); congruence.
  - destruct (Py.strip (EditItemScreen.category_input inp)); congruence.
  - intros [H1 H2].
    destruct (Py.strip (EditItemScreen.category_input inp)); congruence.
  - exists cd. split; [exact Hg|]. rewrite Hi. apply in_app_iff. right.
    now left.
Qed.

(** ** Counting the items *)

Lemma total_items_app (a b : MenuTree) :
  total_items (a ++ b) = (total_items a + total_items b)%nat.
Proof.
  unfold total_items. now rewrite map_app, list_sum_app.
Qed.

Lemma total_items_cons (k : string) (cd : Category) (r : MenuTree) :
  total_items ((k, cd) :: r) = (List.length (items cd) + total_items r)%nat.
Proof. reflexivity. Qed.

Lemma total_items_set (k : string) (cd v : Category) (md : MenuTree) :
  dict_get k md = Some cd ->
  (total_items (dict_set k v md) + List.length (items cd)
   = total_items md + List.length (items v))%nat.
Proof.
  induction md as [|[k0 cd0] r IH]; simpl; [discriminate|].
  destruct (String.eqb_spec k0 k) as [->|Hk].
  - intros H. inversion H. subst cd0. rewrite !total_items_cons. lia.
  - intros H. rewrite !total_items_cons. specialize (IH H). lia.
Qed.

Lemma total_items_del (k : string) (cd : Category) (md : MenuTree) :
  unique_keys md -> dict_get k md = Some cd ->
  (total_items (dict_del k md) + List.length (items cd) = total_items md)%nat.
Proof.
  unfold unique_keys, dict_keys.
  induction md as [|[k0 cd0] r IH]; simpl; [discriminate|].
  intros Hu. inversion Hu as [|? ? Hnot Hr]; subst.
  unfold dict_del. simpl. fold (dict_del k r).
  destruct (String.eqb_spec k0 k) as [->|Hk]; simpl.
  - intros H. inversion H. subst cd0. rewrite total_items_cons.
    rewrite dict_del_absent; [lia|].
    destruct (dict_mem k r) eqn:E; [|reflexivity].
    apply dict_mem_keys in E. contradiction.
  - intros H. rewrite !total_items_cons. specialize (IH Hr H). lia.
Qed.

Lemma total_items_assign (count : Z) (md : MenuTree) :
  total_items (fst (assign_columns count md)) = total_items md.
Proof.
  induction md as [|[k cd] r IH]; simpl; [reflexivity|].
  destruct (assign_columns count r) as [r' ch]. simpl in IH.
  destruct (column cd) as [c|]; [destruct (c =? _)|]; simpl;
    rewrite !total_items_cons; simpl; now rewrite IH.
Qed.

Lemma total_items_display (count : Z) (md : MenuTree) :
  total_items (display_tree count md) = total_items md.
Proof.
  unfold display_tree. rewrite total_items_assign. unfold without_empty.
  induction md as [|[k cd] r IH]; simpl; [reflexivity|].
  destruct (items cd) eqn:E; simpl; rewrite !total_items_cons, ?E; simpl;
    now rewrite IH.
Qed.

Lemma total_items_shown (st : App) :
  total_items (menu_data (update_menu_display st)) = total_items (menu_data st).
Proof.
  destruct (update_menu_display_tree st) as (-> & _).
  destruct (menu_container st); [apply total_items_display|reflexivity].
Qed.

Lemma total_items_ensure (count : Z) (md : MenuTree) :
  total_items (fst (ensure_columns count md)) = total_items md.
Proof.
  induction md as [|[k cd] r IH]; simpl; [reflexivity|].
  destruct (ensure_columns count r) as [r' ch]. simpl in IH.
  destruct (negb _); simpl; rewrite !total_items_cons; simpl; now rewrite IH.
Qed.

Lemma total_items_remove_found (l c : string) (md md1 : MenuTree) :
  remove_found l c md = Some md1 -> total_items md = S (total_items md1).
Proof.
  intros H. apply remove_found_inv in H
    as (pre & k & cd & post & its' & -> & -> & Hp & _).
  apply pop_match_inv in Hp as (a & x & b & Hi & -> & _).
  rewrite !total_items_app, !total_items_cons. simpl items. rewrite Hi.
  rewrite !length_app. simpl. lia.
Qed.

Lemma unique_binding (md : MenuTree) (k : string) (a b : Category) :
  unique_keys md -> In (k, a) md -> In (k, b) md -> a = b.
Proof.
  intros Hu Ha Hb. apply (in_dict_get _ _ _ Hu) in Ha, Hb. congruence.
Qed.

Lemma total_items_sweep (md : MenuTree) :
  unique_keys md ->
  total_items
    (List.fold_left (fun d name => dict_del name d)
       (categories_to_remove md) md)
  = total_items md.
Proof.
  intros Hu. rewrite sweep_filter.
  assert (H : forall l : MenuTree, (forall kv, In kv l -> In kv md) ->
            total_items
              (List.filter
                 (fun kv => negb (name_in (fst kv) (categories_to_remove md)))
                 l)
            = total_items l).
  { induction l as [|[k cd] r IH]; intros Hl; simpl; [reflexivity|].
    destruct (name_in k (categories_to_remove md)) eqn:E; simpl;
      rewrite !total_items_cons, IH by (intros kv Hkv; apply Hl; now right);
      [|reflexivity].
    apply name_in_spec in E. unfold categories_to_remove, dict_keys in E.
    apply in_map_iff in E as ([k0 cd0] & Hk & Hin). simpl in Hk. subst k0.
    apply filter_In in Hin as [Hin He]. simpl in He.
    assert (Eq : cd = cd0)
      by (apply (unique_binding md k); auto; apply Hl; now left).
    subst cd0. destruct (items cd); [reflexivity|discriminate]. }
  apply H. auto.
Qed.

(** X16.  [add_new_item] adds one item to the tree, whatever the tree and
    the item. *)
Theorem add_new_item_adds_one (item_data : Item) (st : App) :
  total_items (menu_data (add_new_item item_data st))
  = S (total_items (menu_data st)).
Proof.
  unfold add_new_item. rewrite total_items_shown. simpl menu_data.
  rewrite add_new_item_data_eq.
  destruct (dict_get (category item_data) (menu_data st)) as [cd|] eqn:E.
  - pose proof (total_items_set _ _
                  (set_items cd (items cd ++ [item_data])) _ E) as H.
    simpl items in H. rewrite length_app in H. simpl in H. lia.
  - rewrite total_items_app. unfold total_items at 2. simpl. lia.
Qed.

Lemma update_item_data_count (st : App) (o n : Item) (md' : MenuTree) :
  unique_keys (menu_data st) -> update_item_data st o n = Some md' ->
  total_items md' = total_items (menu_data st).
Proof.
  intros Hu H. pose proof H as H0.
  apply update_item_data_inv in H as (md1 & Hrf & ->). cbv zeta.
  assert (H1 : unique_keys md1)
    by (unfold unique_keys; now rewrite (remove_found_keys _ _ _ _ Hrf)).
  rewrite (total_items_remove_found _ _ _ _ Hrf).
  set (md2 := if dict_mem (category n) md1 then md1
              else dict_set (category n) (new_category_data st) md1).
  assert (H2 : unique_keys md2 /\ total_items md2 = total_items md1
               /\ exists cd, dict_get (category n) md2 = Some cd).
  { unfold md2, dict_mem.
    destruct (dict_get (category n) md1) as [cd|] eqn:E.
    - split; [exact H1|]. split; [reflexivity|eauto].
    - split; [now apply unique_dict_set|].
      rewrite dict_set_new by (unfold dict_mem; now rewrite E).
      split.
      + rewrite total_items_app. unfold total_items at 2. simpl. lia.
      + rewrite <- (dict_set_new (category n) (new_category_data st) md1)
          by (unfold dict_mem; now rewrite E).
        eexists. apply dict_get_set_same. }
  destruct H2 as (Hu2 & Ht2 & cd & Hg).
  rewrite (append_item_get _ _ _ _ Hg).
  rewrite total_items_sweep by (now apply unique_dict_set).
  pose proof (total_items_set _ _ (set_items cd (items cd ++ [n])) _ Hg) as H.
  simpl items in H. rewrite length_app in H. simpl in H. lia.
Qed.

(** X17.  [update_item] neither loses nor duplicates an item: in a tree
    whose category names are unique the number of items is the same
    before and after, also when the edited item changes category and
    when its old category goes away. *)
Theorem update_item_keeps_count (old_item new_item : Item) (st : App) :
  unique_keys (menu_data st) ->
  total_items (menu_data (update_item old_item new_item st))
  = total_items (menu_data st).
Proof.
  intros Hu. unfold update_item.
  destruct (update_item_data st old_item new_item) as [md'|] eqn:E;
    [|reflexivity].
  destruct (navigate_tree new_item
              (update_menu_display (save_menu_data (with_menu_data st md'))))
    as (-> & _).
  rewrite total_items_shown. simpl menu_data.
  eapply update_item_data_count; eauto.
Qed.

Lemma update_item_keeps_count_witness :
  total_items (menu_data (update_item editor_work editor_new sample_app))
  = total_items (menu_data sample_app).
Proof.
  apply (update_item_keeps_count editor_work editor_new sample_app).
  unfold unique_keys. simpl.
  repeat constructor; simpl; try tauto.
  intros [H|[]]. discriminate H.
Defined.

Lemma list_remove_length (i : Item) (l : list Item) :
  In i l -> List.length l = S (List.length (list_remove i l)).
Proof.
  induction l as [|x r IH]; simpl; [tauto|].
  destruct (Item_eq_dec x i) as [->|Hne]; [reflexivity|].
  intros [E|Hin]; [contradiction|]. simpl. now rewrite <- IH.
Qed.

Lemma delete_item_data_count (md : MenuTree) (i : Item) (md' : MenuTree) :
  unique_keys md -> delete_item_data md i = Some md' ->
  total_items md = S (total_items md').
Proof.
  intros Hu H.
  apply delete_item_data_inv in H as (cd & Hg & Hin & [[He ->]|[_ ->]]);
    pose proof (list_remove_length i (items cd) Hin) as Hl.
  - pose proof (total_items_del _ _ _ Hu Hg) as H. rewrite He in Hl.
    simpl in Hl. lia.
  - pose proof (total_items_set _ _
                  (set_items cd (list_remove i (items cd))) _ Hg) as H.
    simpl items in H. lia.
Qed.

(** X18.  [action_delete_item] removes one item or nothing: with the
    cursor on an item that its category holds, in a tree whose category
    names are unique, the tree has one item less afterwards; on an empty
    display, with the index past the end, with the cursor on a header, or
    on an item that its category does not hold, the state stays as it
    is. *)
Theorem action_delete_item_removes_one (st : App) :
  (forall i md',
      unique_keys (menu_data st) ->
      0 <= current_index st < display_len st ->
      py_index (display_items st) (current_index st) = Some (DItem i) ->
      delete_item_data (menu_data st) i = Some md' ->
      S (total_items (menu_data (action_delete_item st)))
      = total_items (menu_data st))
  /\ (display_items st = []
      \/ display_len st <= current_index st
      \/ (exists name,
            py_index (display_items st) (current_index st)
            = Some (DCategory name))
      \/ (exists i,
            py_index (display_items st) (current_index st) = Some (DItem i)
            /\ delete_item_data (menu_data st) i = None) ->
      action_delete_item st = st).
Proof.
  split.
  - intros i md' Hu Hi Hsel Hdel.
    rewrite (action_delete_item_on_item st i md' Hi Hsel Hdel).
    destruct (adjust_index_tree
                (update_menu_display
                   (save_menu_data (with_menu_data st md')))) as (-> & _).
    rewrite total_items_shown. simpl menu_data. symmetry.
    now apply (delete_item_data_count _ i).
  - unfold action_delete_item.
    intros [H|[H|[(name & H)|(i & H1 & H2)]]].
    + now rewrite H.
    + destruct (display_items st); [reflexivity|].
      destruct (Z.leb_spec (display_len st) (current_index st));
        [reflexivity|lia].
    + rewrite H. destruct (display_items st); [reflexivity|].
      now destruct (display_len st <=? current_index st).
    + rewrite H1, H2. destruct (display_items st); [reflexivity|].
      now destruct (display_len st <=? current_index st).
Qed.

Lemma action_delete_item_removes_one_witness :
  S (total_items (menu_data (action_delete_item sample_app)))
  = total_items (menu_data sample_app)
  /\ action_delete_item (with_current_index sample_app 2)
     = with_current_index sample_app 2.
Proof.
  split.
  - destruct (action_delete_item_removes_one sample_app) as [H _].
    apply (H editor_play [("Work", mkCategory true (Some 1) None [editor_work])]).
    + unfold unique_keys. simpl. repeat constructor; simpl; try tauto.
      intros [E|[]]. discriminate E.
    + vm_compute. split; [discriminate|reflexivity].
    + reflexivity.
    + reflexivity.
  - destruct (action_delete_item_removes_one
                (with_current_index sample_app 2)) as [_ H].
    apply H. right. right. left. exists "Play". reflexivity.
Defined.

(** ** Loading what was saved *)

Lemma ensure_columns_again (count : Z) (md : MenuTree) :
  ensure_columns count (fst (ensure_columns count md))
  = (fst (ensure_columns count md), false).
Proof.
  induction md as [|[k cd] r IH]; simpl; [reflexivity|].
  destruct (ensure_columns count r) as [r' ch]. simpl in IH.
  destruct (Z.eqb_spec (column_or_1 cd)
              (normalize_column_value count (column_or_1 cd))) as [E|E];
    simpl; rewrite IH.
  - rewrite <- E, Z.eqb_refl. reflexivity.
  - change (column_or_1
              (set_column cd (normalize_column_value count (column_or_1 cd))))
      with (normalize_column_value count (column_or_1 cd)).
    rewrite normalize_column_value_idem, Z.eqb_refl. reflexivity.
Qed.

Section LoadSaved.
Import Raw.

Lemma ensure_category_columns_encodes (st : Self) (md : MenuTree) :
  menu_data st = encode_tree md ->
  ensure_category_columns st
  = Returned (snd (ensure_columns (column_count st) md))
      (with_menu_data st
         (encode_tree (fst (ensure_columns (column_count st) md)))).
Proof.
  intros H. unfold ensure_category_columns, bind, get, modify, ret.
  rewrite H. unfold encode_tree at 1.
  pose proof (ensure_loop_encodes st md) as He. cbv zeta in He. rewrite He.
  reflexivity.
Qed.

Lemma load_colors_step (n b t : string) (rest : list json) (idx : Z) :
  load_colors (encode_entry (entry n b t) :: rest) idx
  = match normalize_hex_color (Some b), normalize_hex_color (Some t) with
    | Some bg, Some tx =>
        JObj [("name",
               if negb (String.eqb n "") then JStr n
               else JStr ("Color " ++ Py.str_of_Z idx)%string);
              ("background", JStr bg); ("text", JStr tx)]
        :: load_colors rest (idx + 1)
    | _, _ => load_colors rest (idx + 1)
    end.
Proof.
  change (load_colors (encode_entry (entry n b t) :: rest) idx)
    with (match sanitize_color_pair (encode_entry (entry n b t)) with
          | Some (bg, tx) =>
              JObj [("name",
                     if negb (String.eqb n "") then JStr n
                     else JStr ("Color " ++ Py.str_of_Z idx)%string);
                    ("background", JStr bg); ("text", JStr tx)]
              :: load_colors rest (idx + 1)
          | None => load_colors rest (idx + 1)
          end).
  change (sanitize_color_pair (encode_entry (entry n b t)))
    with (match normalize_hex_color (Some b),
                normalize_hex_color (Some t) with
          | Some bg, Some tx => Some (bg, tx)
          | _, _ => None
          end).
  destruct (normalize_hex_color (Some b));
    destruct (normalize_hex_color (Some t)); reflexivity.
Qed.

Lemma load_colors_saved (l : list PaletteEntry) (idx : Z) :
  Forall palette_ok l ->
  load_colors (List.map encode_entry l) idx = List.map encode_entry l.
Proof.
  intros H. revert idx. induction H as [|e r He _ IH]; intros idx;
    [reflexivity|].
  destruct He as (n & b & t & -> & Hn & Hb & Ht).
  simpl List.map. rewrite load_colors_step, Hb, Ht, IH.
  destruct (String.eqb_spec n EmptyString) as [E|_]; [contradiction|].
  reflexivity.
Qed.

Lemma set_column_count_encodes (z : Z) (st : Self) (md : MenuTree) :
  menu_data st = encode_tree md ->
  let cc := Z.max 1 (Z.min (max_columns st) z) in
  set_column_count (JNum z) st
  = Returned (negb (cc =? column_count st) || snd (ensure_columns cc md))
      (mkSelf (encode_tree (fst (ensure_columns cc md))) (custom_colors st)
         (app_title st) cc (max_columns st) (config_file st)).
Proof.
  intros H. cbv zeta. unfold set_column_count.
  cbv beta iota delta [bind get modify]. unfold clamp_column_count.
  simpl py_int.
  rewrite (ensure_category_columns_encodes _ md) by exact H.
  reflexivity.
Qed.

Lemma load_body_saved (f : MenuFile) (st : Self) :
  config_file st = Holds (encode_file f) ->
  Forall palette_ok (f_custom_colors f) ->
  let cc := Z.max 1 (Z.min (max_columns st) (f_columns f)) in
  load_body st
  = Returned tt
      (mkSelf (encode_tree (fst (ensure_columns cc (f_categories f))))
         (match f_custom_colors f with
          | [] => custom_colors st
          | l => List.map encode_entry l
          end)
         (JStr (f_title f)) cc (max_columns st) (config_file st)).
Proof.
  intros Hf Hp. cbv zeta.
  destruct st as [md0 cols0 t0 cc0 mx0 cf0]. simpl in Hf. subst cf0.
  simpl max_columns. simpl custom_colors. simpl config_file.
  unfold load_body.
  cbv beta iota delta [bind get config_file].
  unfold encode_file at 1. unfold load_parsed.
  cbv beta iota delta [bind modify].
  change (get_or _ "categories" (JObj [])) with (encode_tree (f_categories f)).
  change (iterate (get_or _ "custom_colors" (JArr [])))
    with (Some (List.map encode_entry (f_custom_colors f))).
  cbv iota. rewrite (load_colors_saved _ 1 Hp).
  change (dict_get "app_settings" _) with
    (Some (JObj [("title", JStr (f_title f));
                 ("columns", JNum (f_columns f))])).
  cbv iota.
  change (dict_get "title" _) with (Some (JStr (f_title f))).
  cbv iota.
  change (dict_mem "theme" _) with false.
  cbv iota.
  change (get_or _ "columns" (JNum 1)) with (JNum (f_columns f)).
  destruct (f_custom_colors f) as [|p l]; cbn [List.map];
    cbv beta iota delta [ret];
    rewrite (set_column_count_encodes _ _ (f_categories f)) by reflexivity;
    cbv zeta; cbv beta iota;
    rewrite (ensure_category_columns_encodes _
               (fst (ensure_columns (Z.max 1 (Z.min mx0 (f_columns f)))
                       (f_categories f)))) by reflexivity;
    simpl column_count; rewrite ensure_columns_again; simpl;
    rewrite ?ensure_columns_again; reflexivity.
Qed.

End LoadSaved.

(** X19.  Loading what was saved: when the file holds a record that
    [save_menu_data] wrote, with a palette of named, normalised pairs,
    [load_menu_data] does not fall back to the default menu; it takes the
    title of the record, its number of columns clamped to the columns
    there can be, its palette unless that is empty, and its tree with
    every column normalised to that number; and it leaves the file as it
    is, also when a column was normalised. *)
Theorem load_after_save (f : MenuFile) (st : Raw.Self) :
  Raw.config_file st = Raw.Holds (encode_file f) ->
  Forall palette_ok (f_custom_colors f) ->
  let st' := Raw.load_menu_data st in
  let cc := Z.max 1 (Z.min (Raw.max_columns st) (f_columns f)) in
  Raw.menu_data st'
  = Raw.encode_tree (fst (ensure_columns cc (f_categories f)))
  /\ Raw.column_count st' = cc
  /\ Raw.app_title st' = Raw.JStr (f_title f)
  /\ Raw.custom_colors st'
     = match f_custom_colors f with
       | [] => Raw.custom_colors st
       | l => List.map Raw.encode_entry l
       end
  /\ Raw.config_file st' = Raw.config_file st.
Proof.
  intros Hf Hp. cbv zeta. unfold Raw.load_menu_data.
  rewrite (load_body_saved f st Hf Hp). cbv zeta. simpl. auto.
Qed.

Lemma default_palette_ok : Forall palette_ok DEFAULT_COLOR_PAIRS.
Proof.
  repeat constructor;
    (eexists; eexists; eexists; split; [reflexivity|];
     split; [discriminate|split; reflexivity]).
Qed.

Lemma load_after_save_witness :
  let st' :=
    Raw.load_menu_data
      (fresh (Raw.Holds (encode_file (record_of sample_app)))) in
  Raw.menu_data st' = Raw.encode_tree sample_tree
  /\ Raw.column_count st' = 1.
Proof.
  destruct (load_after_save (record_of sample_app)
              (fresh (Raw.Holds (encode_file (record_of sample_app)))))
    as (H1 & H2 & _).
  - reflexivity.
  - exact default_palette_ok.
  - split; [exact H1|exact H2].
Defined.

(** ** Settings *)

Lemma set_column_count_fields (count : Z) (al pe sv : bool) (st : App) :
  let st' := snd (set_column_count count al pe sv st) in
  column_count st' = Z.max 1 (Z.min (max_columns st) count)
  /\ app_title st' = app_title st
  /\ max_columns st' = max_columns st
  /\ menu_container st' = menu_container st
  /\ custom_colors st' = custom_colors st.
Proof.
  cbv zeta. unfold set_column_count, ensure_category_columns,
    clamp_column_count.
  simpl column_count. simpl menu_data.
  destruct (ensure_columns (Z.max 1 (Z.min (max_columns st) count))
              (menu_data st)) as [md ch].
  cbn [snd].
  match goal with
  | |- context [if ?c then update_menu_display ?s1 else ?s1] =>
      assert (Hs : column_count s1 = Z.max 1 (Z.min (max_columns st) count)
                   /\ app_title s1 = app_title st
                   /\ max_columns s1 = max_columns st
                   /\ menu_container s1 = menu_container st
                   /\ custom_colors s1 = custom_colors st)
        by (destruct (pe || sv && _); simpl; auto);
      destruct c; [|exact Hs];
      destruct (update_menu_display_tree s1) as (_ & H2 & H3 & H4 & H5 & H6);
      rewrite H2, H3, H4, H5, H6; exact Hs
  end.
Qed.

Lemma update_highlighting_max (st : App) :
  max_columns (update_highlighting st) = max_columns st.
Proof.
  unfold update_highlighting. destruct (display_items st); reflexivity.
Qed.

Lemma handle_settings_result_fields (title : string) (theme_changed : bool)
    (columns : Z) (st : App) :
  let st' := handle_settings_result title theme_changed columns st in
  column_count st' = Z.max 1 (Z.min (max_columns st) columns)
  /\ app_title st' = match Py.strip title with
                     | EmptyString => app_title st
                     | t => t
                     end
  /\ max_columns st' = max_columns st
  /\ in_sync st'.
Proof.
  cbv zeta. unfold handle_settings_result.
  pose proof (set_column_count_fields columns (negb theme_changed) false
                false st) as Hf.
  destruct (set_column_count columns (negb theme_changed) false false st)
    as [ch s1].
  cbv zeta in Hf. cbn [snd] in Hf. destruct Hf as (H1 & _ & H3 & _).
  set (t := match Py.strip title with
            | EmptyString => app_title st
            | String a s => String a s
            end).
  set (s2 := with_app_title s1 t).
  assert (Hs2 : column_count s2 = Z.max 1 (Z.min (max_columns st) columns)
                /\ app_title s2 = t /\ max_columns s2 = max_columns st)
    by (unfold s2; simpl; auto).
  match goal with
  | |- context [save_menu_data ?s] =>
      assert (Hs3 : column_count s = Z.max 1 (Z.min (max_columns st) columns)
                    /\ app_title s = t /\ max_columns s = max_columns st)
  end.
  { destruct theme_changed.
    - unfold apply_theme. rewrite update_highlighting_max.
      destruct (update_highlighting_tree (update_menu_display s2))
        as (_ & Hc & _ & _ & Ht & _).
      rewrite Hc, Ht.
      destruct (update_menu_display_tree s2)
        as (_ & Hc2 & _ & Ht2 & _ & Hm2).
      rewrite Hc2, Ht2, Hm2. exact Hs2.
    - destruct ch; [|exact Hs2].
      destruct (update_menu_display_tree s2)
        as (_ & Hc2 & _ & Ht2 & _ & Hm2).
      rewrite Hc2, Ht2, Hm2. exact Hs2. }
  destruct Hs3 as (Ha & Hb & Hc). simpl. repeat split; auto.
  apply in_sync_save.
Qed.

(** X20.  Applying the settings: the title of the application is the
    title that was typed, trimmed, or the old title, trimmed unless it is
    blank, when nothing was typed; the number of columns is the number
    that was typed, brought between 1 and 6, or stays when that is no
    number; and the file holds the new state, whether or not anything
    changed. *)
Theorem settings_are_applied (title_input columns_input : string)
    (theme_changed : bool) (st : App) :
  max_columns st = MAX_COLUMNS -> 1 <= column_count st <= MAX_COLUMNS ->
  let st' := apply_settings title_input columns_input theme_changed st in
  (Py.strip title_input = EmptyString ->
   app_title st' = match Py.strip (app_title st) with
                   | EmptyString => app_title st
                   | t => t
                   end)
  /\ (Py.strip title_input <> EmptyString ->
      app_title st' = Py.strip title_input)
  /\ 1 <= column_count st' <= 6
  /\ (forall n, Py.int_of 10 (Py.strip columns_input) = Some n ->
        column_count st' = Z.max 1 (Z.min 6 n))
  /\ (Py.int_of 10 (Py.strip columns_input) = None ->
      column_count st' = column_count st)
  /\ in_sync st'.
Proof.
  intros Hmax Hcc. cbv zeta. unfold apply_settings,
    SettingsScreen.action_apply, SettingsScreen.get_selected_columns,
    SettingsScreen.open.
  cbn [SettingsScreen.current_title SettingsScreen.column_count].
  match goal with
  | |- context [handle_settings_result ?t ?th ?c st] =>
      destruct (handle_settings_result_fields t th c st)
        as (H1 & H2 & _ & H4);
      set (st' := handle_settings_result t th c st) in *
  end.
  rewrite Hmax in H1. unfold MAX_COLUMNS in *.
  split; [|split; [|split; [|split; [|split]]]].
  - intros E. rewrite H2, E. reflexivity.
  - intros Hne. rewrite H2.
    destruct (Py.strip title_input) eqn:E; [congruence|].
    rewrite <- E, strip_idem, E. reflexivity.
  - lia.
  - intros n Hn. rewrite H1, Hn. lia.
  - intros Hn. rewrite H1, Hn. lia.
  - exact H4.
Qed.

Lemma settings_are_applied_witness :
  let st' := apply_settings "  Tools " "4" false sample_app in
  app_title st' = "Tools" /\ column_count st' = 4.
Proof.
  destruct (settings_are_applied "  Tools " "4" false sample_app)
    as (_ & H2 & _ & H4 & _).
  - reflexivity.
  - vm_compute. split; discriminate.
  - split.
    + apply H2. discriminate.
    + apply (H4 4). reflexivity.
Defined.

(** ** Folding a category *)

Lemma stable_within (count : Z) (md : MenuTree) :
  1 <= count -> stable count md -> columns_within count md.
Proof.
  unfold stable. intros Hc H k cd Hin.
  rewrite Forall_forall in H. destruct (H _ Hin) as (_ & c & Hcol & Hn).
  simpl in Hcol. exists c. split; [exact Hcol|].
  unfold normalize_column_value in Hn. lia.
Qed.

Lemma stable_set_expanded (count : Z) (md : MenuTree) (k : string)
    (cd : Category) (b : bool) :
  stable count md -> dict_get k md = Some cd ->
  stable count (dict_set k (set_expanded cd b) md).
Proof.
  unfold stable. intros H Hg. apply Forall_forall. intros [k' v'] Hin.
  rewrite Forall_forall in H.
  apply in_dict_set in Hin as [[-> ->]|Hin]; [|now apply H].
  apply dict_get_in in Hg. apply (H _ Hg).
Qed.

Lemma display_tree_stable (count : Z) (md : MenuTree) :
  stable count md -> display_tree count md = md.
Proof.
  intros H. unfold display_tree, without_empty.
  rewrite (stable_filter _ _ H), (stable_assign _ _ H). reflexivity.
Qed.

Lemma header_in_flatten (count : Z) (md : MenuTree) (k : string)
    (cd : Category) :
  columns_within count md -> In (k, cd) md ->
  In (DCategory k) (flatten count md).
Proof.
  intros Hw Hin.
  apply (Permutation_in _ (Permutation_sym (flatten_within _ _ Hw))).
  apply in_flat_map. exists (k, cd). split; [exact Hin|]. now left.
Qed.

Lemma restore_position_lands (name : string) (st : App) :
  In (DCategory name) (display_items st) ->
  let st' := restore_position_to_category name st in
  st' = with_current_index st (current_index st')
  /\ 0 <= current_index st' < display_len st
  /\ py_index (display_items st) (current_index st') = Some (DCategory name).
Proof.
  intros Hin. cbv zeta. unfold restore_position_to_category.
  set (hit := fun e => match e with
                       | DCategory n => String.eqb n name
                       | DItem _ => false
                       end).
  destruct (find_index hit (display_items st) 0) as [j|] eqn:E.
  - apply find_index_some in E as (Hr & (x & Hx & Hp) & _).
    rewrite Z.sub_0_r in Hx. fold (display_len st) in Hr.
    simpl current_index. split; [reflexivity|]. split; [lia|].
    rewrite py_index_nonneg by lia. rewrite Hx.
    destruct x as [n|d]; [|discriminate]. simpl in Hp.
    apply String.eqb_eq in Hp. now subst.
  - rewrite find_index_none in E. apply E in Hin. simpl in Hin.
    rewrite String.eqb_refl in Hin. discriminate.
Qed.

(** One toggle with the cursor on the header of a category. *)
Lemma toggle_on_header (st : App) (name : string) (cd : Category) :
  menu_container st = true -> 1 <= column_count st ->
  stable (column_count st) (menu_data st) ->
  0 <= current_index st < display_len st ->
  py_index (display_items st) (current_index st) = Some (DCategory name) ->
  dict_get name (menu_data st) = Some cd ->
  let st' := action_toggle_category st in
  menu_data st'
  = dict_set name (set_expanded cd (negb (expanded cd))) (menu_data st)
  /\ menu_container st' = true
  /\ column_count st' = column_count st
  /\ display_items st' = flatten (column_count st) (menu_data st')
  /\ 0 <= current_index st' < display_len st'
  /\ py_index (display_items st') (current_index st') = Some (DCategory name).
Proof.
  intros Hm Hcc Hst Hi Hsel Hg. cbv zeta. unfold action_toggle_category.
  destruct (display_items st) eqn:Ed.
  { unfold display_len in Hi. rewrite Ed in Hi. simpl in Hi. lia. }
  rewrite <- Ed in *. clear Ed.
  destruct (Z.leb_spec (display_len st) (current_index st)); [lia|].
  rewrite Hsel, Hg. cbv zeta.
  set (md' := dict_set name (set_expanded cd (negb (expanded cd)))
                (menu_data st)).
  set (s := update_menu_display (save_menu_data (with_menu_data st md'))).
  assert (Hst' : stable (column_count st) md')
    by (now apply stable_set_expanded).
  assert (Hs : menu_data s = md' /\ column_count s = column_count st
               /\ menu_container s = true
               /\ display_items s = flatten (column_count st) md').
  { unfold s.
    destruct (update_menu_display_tree
                (save_menu_data (with_menu_data st md')))
      as (H1 & H2 & H3 & _).
    rewrite H1, H2, H3. simpl menu_container. simpl menu_data.
    simpl column_count. rewrite Hm, (display_tree_stable _ _ Hst').
    repeat split.
    rewrite update_menu_display_items by exact Hm.
    simpl menu_data. simpl column_count.
    now rewrite (display_tree_stable _ _ Hst'). }
  destruct Hs as (Hs1 & Hs2 & Hs3 & Hs4).
  assert (Hin : In (DCategory name) (display_items s)).
  { rewrite Hs4. apply (header_in_flatten _ _ _
                          (set_expanded cd (negb (expanded cd)))).
    - now apply stable_within.
    - apply dict_get_in. apply dict_get_set_same. }
  destruct (restore_position_lands name s Hin) as (He & Hr & Hp).
  cbv zeta in He, Hr, Hp.
  set (s' := restore_position_to_category name s) in *.
  rewrite He. unfold display_len in *.
  cbn [menu_data menu_container column_count display_items current_index
       with_current_index].
  rewrite Hs1, Hs2, Hs3. rewrite <- Hs4.
  repeat split; try lia. exact Hp.
Qed.

Lemma set_expanded_back (cd : Category) (b : bool) :
  set_expanded (set_expanded cd b) (expanded cd) = cd.
Proof. now destruct cd. Qed.

(** X21.  Folding and unfolding: with the cursor on the header of a
    category, on a display that shows the tree, [action_toggle_category]
    flips the [expanded] flag of that category and nothing else in the
    tree, and leaves the cursor on the same header; a second toggle gives
    back the tree and the display that there were. *)
Theorem toggle_twice_restores (st : App) (name : string) (cd : Category) :
  menu_container st = true -> 1 <= column_count st ->
  stable (column_count st) (menu_data st) ->
  display_items st = flatten (column_count st) (menu_data st) ->
  0 <= current_index st < display_len st ->
  py_index (display_items st) (current_index st) = Some (DCategory name) ->
  dict_get name (menu_data st) = Some cd ->
  let once := action_toggle_category st in
  let twice := action_toggle_category once in
  menu_data once
  = dict_set name (set_expanded cd (negb (expanded cd))) (menu_data st)
  /\ py_index (display_items once) (current_index once)
     = Some (DCategory name)
  /\ menu_data twice = menu_data st
  /\ display_items twice = display_items st.
Proof.
  intros Hm Hcc Hst Hd Hi Hsel Hg. cbv zeta.
  destruct (toggle_on_header st name cd Hm Hcc Hst Hi Hsel Hg)
    as (H1 & H2 & H3 & H4 & H5 & H6).
  cbv zeta in H1, H2, H3, H4, H5, H6.
  set (once := action_toggle_category st) in *.
  assert (Hg1 : dict_get name (menu_data once)
                = Some (set_expanded cd (negb (expanded cd))))
    by (rewrite H1; apply dict_get_set_same).
  assert (Hst1 : stable (column_count once) (menu_data once))
    by (rewrite H1, H3; now apply stable_set_expanded).
  assert (Hcc1 : 1 <= column_count once) by (now rewrite H3).
  destruct (toggle_on_header once name _ H2 Hcc1 Hst1 H5 H6 Hg1)
    as (K1 & _ & K3 & K4 & _).
  cbv zeta in K1, K3, K4.
  assert (Hback : menu_data (action_toggle_category once) = menu_data st).
  { rewrite K1, H1. simpl expanded. rewrite negb_involutive.
    rewrite dict_set_twice, set_expanded_back.
    now apply dict_set_same. }
  repeat split; auto.
  rewrite K4, Hback, H3. now symmetry.
Qed.

Lemma toggle_twice_restores_witness :
  let st := with_current_index sample_app 2 in
  menu_data (action_toggle_category (action_toggle_category st))
  = menu_data st
  /\ display_items (action_toggle_category (action_toggle_category st))
     = display_items st.
Proof.
  destruct (toggle_twice_restores (with_current_index sample_app 2) "Play"
              (mkCategory true (Some 1) None [editor_play]))
    as (_ & _ & H3 & H4).
  - reflexivity.
  - simpl. lia.
  - repeat constructor; simpl; try discriminate;
      (exists 1; split; reflexivity).
  - reflexivity.
  - vm_compute. split; [discriminate|reflexivity].
  - reflexivity.
  - reflexivity.
  - split; [exact H3|exact H4].
Defined.

(** ** The tree that loading leaves *)

Section Loaded.
Import Raw.

Lemma ensure_loop_count (st st2 : Self) (cats : list (string * json)) :
  column_count st2 = column_count st ->
  ensure_loop st2 cats = ensure_loop st cats.
Proof.
  intros H. induction cats as [|[name v] rest IH]; [reflexivity|].
  destruct v; try reflexivity.
  rewrite !ensure_loop_step, IH. unfold normalize_column_value.
  now rewrite H.
Qed.

Lemma ensure_loop_again (st : Self) (cats : list (string * json))
    (changed : bool) :
  snd (ensure_loop st cats) = Some changed ->
  ensure_loop st (fst (ensure_loop st cats))
  = (fst (ensure_loop st cats), Some false).
Proof.
  revert changed. induction cats as [|[name v] rest IH]; intros changed;
    [reflexivity|].
  destruct v; try (simpl; discriminate).
  rewrite ensure_loop_step. cbv zeta. simpl fst. simpl snd.
  destruct (snd (ensure_loop st rest)) as [ch|] eqn:Er; [|discriminate].
  intros _. rewrite ensure_loop_step. cbv zeta.
  rewrite (IH ch eq_refl). simpl fst. simpl snd.
  set (cur := get_or fields "column" (JNum 1)).
  set (n := normalize_column_value st cur).
  destruct (eq_int cur n) eqn:E; simpl negb; cbv iota.
  - fold cur. fold n. rewrite E. reflexivity.
  - unfold get_or. rewrite dict_get_set_same.
    assert (Hn : normalize_column_value st (JNum n) = n).
    { subst n. unfold normalize_column_value. simpl py_int.
      destruct (py_int cur); lia. }
    rewrite Hn. simpl eq_int. rewrite Z.eqb_refl. reflexivity.
Qed.

Lemma ensure_category_columns_inv (st : Self) (changed : bool) (st1 : Self) :
  ensure_category_columns st = Returned changed st1 ->
  exists cats,
    menu_data st = JObj cats
    /\ snd (ensure_loop st cats) = Some changed
    /\ st1 = with_menu_data st (JObj (fst (ensure_loop st cats))).
Proof.
  unfold ensure_category_columns, bind, get, modify, ret, raise.
  destruct (menu_data st) as [| | | | |cats]; try discriminate.
  destruct (ensure_loop st cats) as [cats' [ch|]] eqn:El; [|discriminate].
  intros H. inversion H. subst. exists cats. rewrite El. repeat split.
Qed.

Lemma ensure_category_columns_fixed (s0 st1 : Self)
    (cats : list (string * json)) (changed : bool) :
  snd (ensure_loop s0 cats) = Some changed ->
  menu_data st1 = JObj (fst (ensure_loop s0 cats)) ->
  column_count st1 = column_count s0 ->
  ensure_category_columns st1
  = Returned false (with_menu_data st1 (menu_data st1)).
Proof.
  intros Hs Hm Hc. unfold ensure_category_columns, bind, get, modify, ret.
  rewrite Hm, (ensure_loop_count s0 st1 _ Hc), (ensure_loop_again _ _ _ Hs).
  reflexivity.
Qed.

Lemma default_menu_fixed (st : Self) :
  ensure_category_columns (create_default_menu st)
  = Returned false (create_default_menu st)
  /\ bad_tree (menu_data (create_default_menu st)) = false.
Proof. split; reflexivity. Qed.

Lemma load_menu_data_fixed (st : Self) :
  let st' := load_menu_data st in
  ensure_category_columns st' = Returned false st'
  /\ bad_tree (menu_data st') = false.
Proof.
  cbv zeta. unfold load_menu_data.
  destruct (load_body st) as [[] st1|st1] eqn:E; [|apply default_menu_fixed].
  unfold load_body in E. unfold bind at 1 in E. unfold get in E.
  unfold bind at 1 in E.
  match type of E with
  | match ?first st with _ => _ end = _ =>
      destruct (first st) as [[] s1|s1]; [|discriminate]
  end.
  unfold bind in E.
  destruct (ensure_category_columns s1) as [ch s2|s2] eqn:E2; [|discriminate].
  apply ensure_category_columns_inv in E2 as (cats & Hm & Hs & ->).
  assert (Hok : bad_tree (JObj (fst (ensure_loop s1 cats))) = false).
  { simpl. destruct (existsb (fun kv => negb (is_obj (snd kv))) cats) eqn:Eb.
    - rewrite (ensure_loop_raises s1 cats Eb) in Hs. discriminate.
    - now destruct (ensure_loop_returns s1 cats Eb) as (_ & _ & H & _). }
  destruct ch; unfold modify, ret in E; inversion E; subst st1; clear E.
  - split; [|exact Hok].
    rewrite (ensure_category_columns_fixed s1 _ cats true Hs);
      [destruct s1| |]; reflexivity.
  - split; [|exact Hok].
    rewrite (ensure_category_columns_fixed s1 _ cats false Hs);
      [destruct s1| |]; reflexivity.
Qed.

End Loaded.

(** X22.  Whatever the file holds, [load_menu_data] leaves a tree that
    is a dictionary of dictionaries in which every column is normalised: a
    further [ensure_category_columns] returns [False] and changes
    nothing. *)
Theorem load_leaves_normalised_tree (st : Raw.Self) :
  let st' := Raw.load_menu_data st in
  bad_tree (Raw.menu_data st') = false
  /\ Raw.ensure_category_columns st' = Raw.Returned false st'.
Proof.
  cbv zeta. destruct (load_menu_data_fixed st) as [H1 H2]. auto.
Qed.

(** ** Editing *)

(** The tree that [update_category_details] stores when the new name is
    the name of another category: the old name is kept. *)
Lemma details_collision_data (st : App) (A B : string)
    (cd : Category) (colors_arg : option ColorPair) (column_arg : option Z) :
  dict_get A (menu_data st) = Some cd ->
  B <> A -> dict_mem B (menu_data st) = true ->
  update_category_details_data st A B colors_arg column_arg
  = Some (A,
          dict_set A
            (set_colors
               (set_column cd
                  (normalize_column_value (column_count st)
                     (match column_arg with
                      | Some c => c
                      | None => column_or_1 cd
                      end)))
               (sanitize_color_pair colors_arg))
            (menu_data st)).
Proof.
  intros Hg Hne Hm. unfold update_category_details_data. rewrite Hg.
  cbv zeta.
  assert (Hres : forall t, t = A \/ (t <> A /\ dict_mem t (menu_data st) = true) ->
            (if negb (String.eqb t A) && dict_mem t (menu_data st)
             then A else t) = A).
  { intros t [->|[Hn Hmem]].
    - now rewrite String.eqb_refl.
    - destruct (String.eqb_spec t A); [contradiction|]. now rewrite Hmem. }
  rewrite Hres by (destruct B; [now left|right; auto]).
  rewrite String.eqb_refl. simpl negb. cbv iota. reflexivity.
Qed.

Lemma dict_get_filter {V : Type} (p : string * V -> bool) (k : string)
    (v : V) (d : dict V) :
  dict_get k d = Some v -> p (k, v) = true ->
  dict_get k (List.filter p d) = Some v.
Proof.
  induction d as [|[k0 v0] r IH]; simpl; [discriminate|].
  destruct (String.eqb_spec k0 k) as [->|Hk].
  - intros H Hp. inversion H. subst v0. rewrite Hp. simpl.
    now rewrite String.eqb_refl.
  - intros H Hp. destruct (p (k0, v0)); [|auto]. simpl.
    destruct (String.eqb_spec k0 k); [contradiction|auto].
Qed.

Lemma update_item_data_lookup (st : App) (o n : Item) (md' : MenuTree) :
  unique_keys (menu_data st) -> update_item_data st o n = Some md' ->
  exists cd before,
    dict_get (category n) md' = Some cd /\ items cd = before ++ [n].
Proof.
  intros Hu H.
  apply update_item_data_inv in H as (md1 & Hrf & ->). cbv zeta.
  assert (H1 : unique_keys md1)
    by (unfold unique_keys; now rewrite (remove_found_keys _ _ _ _ Hrf)).
  set (md2 := if dict_mem (category n) md1 then md1
              else dict_set (category n) (new_category_data st) md1).
  assert (H2 : unique_keys md2
               /\ exists cd, dict_get (category n) md2 = Some cd).
  { unfold md2, dict_mem.
    destruct (dict_get (category n) md1) as [cd|] eqn:E.
    - split; [exact H1|eauto].
    - split; [now apply unique_dict_set|].
      eexists. apply dict_get_set_same. }
  destruct H2 as (Hu2 & cd & Hg).
  rewrite (append_item_get _ _ _ _ Hg).
  set (v := set_items cd (items cd ++ [n])).
  set (md3 := dict_set (category n) v md2).
  assert (Hu3 : unique_keys md3) by (now apply unique_dict_set).
  assert (Hg3 : dict_get (category n) md3 = Some v)
    by apply dict_get_set_same.
  exists v, (items cd). split; [|reflexivity].
  rewrite sweep_filter. apply dict_get_filter; [exact Hg3|].
  simpl. apply negb_true_iff.
  destruct (name_in (category n) (categories_to_remove md3)) eqn:E;
    [|reflexivity].
  apply name_in_spec in E. unfold categories_to_remove, dict_keys in E.
  apply in_map_iff in E as ([k0 cd0] & Hk & Hin). simpl in Hk. subst k0.
  apply filter_In in Hin as [Hin He]. simpl in He.
  assert (Eq : cd0 = v).
  { apply (unique_binding md3 (category n)); auto.
    now apply dict_get_in. }
  subst cd0. unfold v in He. simpl in He.
  destruct (items cd); discriminate.
Qed.

(** X24.  [update_item] files the edited item: when the old item is found
    and the category names are unique, the new item is afterwards the
    last item of the category it names, in the tree of the state. *)
Theorem update_item_files_new_item (old_item new_item : Item) (st : App) :
  unique_keys (menu_data st) ->
  update_item_data st old_item new_item <> None ->
  exists cd before,
    dict_get (category new_item)
      (menu_data (update_item old_item new_item st)) = Some cd
    /\ items cd = before ++ [new_item].
Proof.
  intros Hu Hfound. unfold update_item.
  destruct (update_item_data st old_item new_item) as [md'|] eqn:E;
    [|congruence].
  destruct (update_item_data_lookup _ _ _ _ Hu E) as (cd & before & Hg & Hi).
  destruct (navigate_tree new_item
              (update_menu_display (save_menu_data (with_menu_data st md'))))
    as (-> & _).
  destruct (update_menu_display_tree
              (save_menu_data (with_menu_data st md'))) as (-> & _).
  simpl menu_container. simpl menu_data. simpl column_count.
  destruct (menu_container st); [|eauto].
  destruct (dict_get_display_tree (column_count st) _ _ _ Hg)
    as (cd' & Hg' & Hi' & _).
  - rewrite Hi. intros He. apply app_eq_nil in He as [_ He]. discriminate.
  - exists cd', before. split; [exact Hg'|]. now rewrite Hi'.
Qed.

Lemma update_item_files_new_item_witness :
  exists cd before,
    dict_get "Play"
      (menu_data (update_item editor_work editor_new sample_app)) = Some cd
    /\ items cd = before ++ [editor_new].
Proof.
  apply (update_item_files_new_item editor_work editor_new sample_app).
  - unfold unique_keys. simpl. repeat constructor; simpl; try tauto.
    intros [E|[]]. discriminate E.
  - discriminate.
Defined.

(** ** The methods on a tree as the display leaves it *)

Lemma stable_get (count : Z) (md : MenuTree) (k : string) (cd : Category) :
  stable count md -> dict_get k md = Some cd ->
  items cd <> []
  /\ exists c, column cd = Some c /\ normalize_column_value count c = c.
Proof.
  unfold stable. intros H Hg. rewrite Forall_forall in H.
  apply dict_get_in in Hg. apply (H _ Hg).
Qed.

Lemma stable_dict_set (count : Z) (md : MenuTree) (k : string)
    (v : Category) :
  stable count md -> items v <> [] ->
  (exists c, column v = Some c /\ normalize_column_value count c = c) ->
  stable count (dict_set k v md).
Proof.
  unfold stable. intros H Hi Hc. apply Forall_forall. intros [k' v'] Hin.
  rewrite Forall_forall in H.
  apply in_dict_set in Hin as [[-> ->]|Hin]; [|now apply H].
  simpl. auto.
Qed.

Lemma stable_app (count : Z) (a b : MenuTree) :
  stable count a -> stable count b -> stable count (a ++ b).
Proof. unfold stable. intros Ha Hb. apply Forall_app. auto. Qed.

(** A tree that is stored and shown stays as it is when it is stable. *)
Lemma stored_stable_tree (st : App) (md' : MenuTree) :
  stable (column_count st) md' ->
  menu_data (update_menu_display (save_menu_data (with_menu_data st md')))
  = md'.
Proof.
  intros H.
  destruct (update_menu_display_stable
              (save_menu_data (with_menu_data st md')) H) as (-> & _).
  reflexivity.
Qed.

Lemma update_category_details_menu (st : App) (o n : string)
    (c : option ColorPair) (col : option Z) (t : string) (md' : MenuTree) :
  update_category_details_data st o n c col = Some (t, md') ->
  menu_data (update_category_details o n c col st)
  = menu_data (update_menu_display (save_menu_data (with_menu_data st md')))
  /\ custom_colors (update_category_details o n c col st) = custom_colors st.
Proof.
  intros H. unfold update_category_details. rewrite H.
  set (s := update_menu_display (save_menu_data (with_menu_data st md'))).
  destruct (update_highlighting_tree (restore_position_to_category t s))
    as (-> & _ & _ & _ & _ & -> & _).
  destruct (restore_position_tree t s) as (-> & _ & _ & _ & _ & -> & _).
  split; [reflexivity|]. unfold s.
  destruct (update_menu_display_tree
              (save_menu_data (with_menu_data st md')))
    as (_ & _ & _ & _ & -> & _).
  reflexivity.
Qed.

Lemma dict_get_display_tree_none (count : Z) (k : string) (md : MenuTree) :
  dict_get k md = None -> dict_get k (display_tree count md) = None.
Proof.
  intros H.
  destruct (dict_get k (display_tree count md)) as [cd|] eqn:E;
    [|reflexivity].
  apply dict_get_in, display_tree_in in E as (cd0 & Hin & _).
  assert (Hm : dict_mem k md = true).
  { apply dict_mem_keys. unfold dict_keys. apply in_map_iff.
    exists (k, cd0). auto. }
  unfold dict_mem in Hm. rewrite H in Hm. discriminate.
Qed.

Lemma stored_tree (st : App) (md' : MenuTree) :
  menu_data (update_menu_display (save_menu_data (with_menu_data st md')))
  = if menu_container st then display_tree (column_count st) md' else md'.
Proof.
  destruct (update_menu_display_tree
              (save_menu_data (with_menu_data st md'))) as (-> & _).
  reflexivity.
Qed.

Lemma dict_get_shown (mounted : bool) (count : Z) (k : string)
    (md : MenuTree) (cd : Category) :
  dict_get k md = Some cd -> items cd <> [] ->
  exists cd',
    dict_get k (if mounted then display_tree count md else md) = Some cd'
    /\ items cd' = items cd /\ expanded cd' = expanded cd
    /\ colors cd' = colors cd.
Proof.
  intros Hg Hne. destruct mounted; [|exists cd; auto].
  destruct (dict_get_display_tree count _ _ _ Hg Hne)
    as (cd' & H1 & H2 & H3 & H4 & _).
  exists cd'. auto.
Qed.

Lemma dict_get_shown_none (mounted : bool) (count : Z) (k : string)
    (md : MenuTree) :
  dict_get k md = None ->
  dict_get k (if mounted then display_tree count md else md) = None.
Proof.
  intros H. destruct mounted; [|exact H].
  now apply dict_get_display_tree_none.
Qed.

(** *** Deleting an item *)

(** C3.  With the cursor on an item that its category holds, whatever
    the tree: after [action_delete_item] the first item equal to it is
    gone from the items of its category, and every other category that had
    items has them still.  When no item is left, the category is gone
    too, and [add_new_item] with an item of that name then creates the
    category again with that one item.  On a tree as the display leaves
    it nothing else changes: every other category is as before, and the
    category that is created again is the last in the tree, expanded and
    in column 1. *)
Theorem delete_item_then_reuse_name (st : App) (i : Item) (cd : Category) :
  0 <= current_index st < display_len st ->
  py_index (display_items st) (current_index st) = Some (DItem i) ->
  dict_get (category i) (menu_data st) = Some cd ->
  In i (items cd) ->
  let st' := action_delete_item st in
  exists l1 l2,
    items cd = l1 ++ i :: l2 /\ ~ In i l1
    /\ (l1 ++ l2 <> [] ->
        exists cd',
          dict_get (category i) (menu_data st') = Some cd'
          /\ items cd' = l1 ++ l2
          /\ expanded cd' = expanded cd /\ colors cd' = colors cd)
    /\ (l1 ++ l2 = [] ->
        dict_get (category i) (menu_data st') = None
        /\ forall new, category new = category i ->
             exists cd',
               dict_get (category i) (menu_data (add_new_item new st'))
               = Some cd'
               /\ items cd' = [new])
    /\ (forall k cdk, k <> category i ->
          dict_get k (menu_data st) = Some cdk -> items cdk <> [] ->
          exists cd',
            dict_get k (menu_data st') = Some cd'
            /\ items cd' = items cdk)
    /\ (stable (column_count st) (menu_data st) ->
        (forall k, k <> category i ->
           dict_get k (menu_data st') = dict_get k (menu_data st))
        /\ (l1 ++ l2 <> [] ->
            dict_get (category i) (menu_data st')
            = Some (set_items cd (l1 ++ l2)))
        /\ (l1 ++ l2 = [] ->
            forall new, category new = category i ->
              menu_data (add_new_item new st')
              = menu_data st'
                ++ [(category i, mkCategory true (Some 1) None [new])])).
Proof.
  intros Hidx Hsel Hget Hin. cbv zeta.
  destruct (delete_item_data_first st i cd Hget Hin)
    as (l1 & l2 & md' & Hsplit & Hnot & Hdel & Hother & Hsome & Hnone).
  exists l1, l2. split; [exact Hsplit|]. split; [exact Hnot|].
  assert (Hmd : menu_data (action_delete_item st)
                = if menu_container st
                  then display_tree (column_count st) md' else md').
  { rewrite (action_delete_item_on_item st i md' Hidx Hsel Hdel).
    destruct (adjust_index_keeps_tree
                (update_menu_display
                   (save_menu_data (with_menu_data st md')))) as [-> _].
    apply stored_tree. }
  split; [|split; [|split]].
  - intros Hne. rewrite Hmd.
    destruct (dict_get_shown (menu_container st) (column_count st) _ _ _
                (Hsome Hne)) as (cd' & H1 & H2 & H3 & H4); [exact Hne|].
    exists cd'. auto.
  - intros He. destruct (Hnone He) as [Hgone _].
    assert (Hno : dict_get (category i) (menu_data (action_delete_item st))
                  = None)
      by (rewrite Hmd; now apply dict_get_shown_none).
    split; [exact Hno|]. intros new Hnew.
    destruct (add_new_item_lookup new (action_delete_item st))
      as (cd' & Hg' & Hi').
    rewrite Hnew in Hg', Hi'. rewrite Hno in Hi'.
    exists cd'. auto.
  - intros k cdk Hk Hgk Hfull. rewrite Hmd.
    rewrite <- (Hother k Hk) in Hgk.
    destruct (dict_get_shown (menu_container st) (column_count st) _ _ _
                Hgk Hfull) as (cd' & H1 & H2 & _).
    exists cd'. auto.
  - intros Hst.
    assert (Hst' : stable (column_count st) md').
    { pose proof Hdel as Hd.
      apply delete_item_data_inv in Hd
        as (cd0 & Hg0 & _ & [[_ ->]|[Hne ->]]).
      - now apply stable_dict_del.
      - rewrite Hget in Hg0. inversion Hg0. subst cd0.
        apply stable_dict_set; [exact Hst|exact Hne|].
        destruct (stable_get _ _ _ _ Hst Hget) as (_ & Hc). exact Hc. }
    assert (Hmd' : menu_data (action_delete_item st) = md').
    { rewrite Hmd. destruct (menu_container st); [|reflexivity].
      now apply display_tree_stable. }
    rewrite Hmd'. split; [exact Hother|]. split; [exact Hsome|].
    intros He new Hnew.
    assert (Hone : items cd = [i]).
    { rewrite Hsplit. destruct l1; [|discriminate]. simpl in He.
      now rewrite He. }
    destruct (delete_last_item_then_add st i new cd Hst Hidx Hsel Hget Hone
                Hnew) as [Hd Ha].
    rewrite Ha. rewrite Hmd' in Hd. now rewrite Hd.
Qed.

Lemma sample_tree_stable : stable 1 sample_tree.
Proof.
  repeat constructor; simpl; try discriminate;
    (exists 1; split; reflexivity).
Qed.

Lemma delete_item_then_reuse_name_witness :
  dict_get "Play" (menu_data (action_delete_item sample_app)) = None
  /\ menu_data (add_new_item editor_new (action_delete_item sample_app))
     = [("Work", mkCategory true (Some 1) None [editor_work]);
        ("Play", mkCategory true (Some 1) None [editor_new])].
Proof.
  assert (Hrange : 0 <= current_index sample_app < display_len sample_app)
    by (vm_compute; split; [discriminate|reflexivity]).
  destruct (delete_item_then_reuse_name sample_app editor_play
              (mkCategory true (Some 1) None [editor_play])
              Hrange eq_refl eq_refl (or_introl eq_refl))
    as (l1 & l2 & Hsplit & _ & _ & Hgone & _ & Hexact).
  assert (Hempty : l1 ++ l2 = []).
  { simpl in Hsplit. destruct l1 as [|x l1]; simpl in Hsplit.
    - now inversion Hsplit.
    - inversion Hsplit as [[Hx Hrest]]. destruct l1; discriminate Hrest. }
  destruct (Hgone Hempty) as [Hno _].
  destruct (Hexact sample_tree_stable) as (_ & _ & Hadd).
  split; [exact Hno|].
  rewrite (Hadd Hempty editor_new eq_refl). reflexivity.
Defined.

(** *** Adding and deleting *)

Lemma add_new_item_data_stable (st : App) (i : Item) :
  stable (column_count st) (menu_data st) ->
  stable (column_count st) (add_new_item_data st i).
Proof.
  intros Hst. rewrite add_new_item_data_eq.
  destruct (dict_get (category i) (menu_data st)) as [cd|] eqn:E.
  - apply stable_dict_set; [exact Hst| |].
    + simpl. intros He. apply app_eq_nil in He as [_ He]. discriminate.
    + destruct (stable_get _ _ _ _ Hst E) as (_ & Hc). exact Hc.
  - apply stable_app; [exact Hst|].
    constructor; [|constructor]. simpl. split; [discriminate|].
    exists 1. split; [reflexivity|apply normalize_column_value_1].
Qed.

(** X26.  Adding an item and deleting it again gives the tree back: on a
    tree as the display leaves it, after [add_new_item] with an item that
    its category does not hold yet, and with the cursor moved onto that
    item, [action_delete_item] leaves the tree that there was before the
    item was added. *)
Theorem delete_undoes_add (st : App) (i : Item) (j : Z) :
  stable (column_count st) (menu_data st) ->
  match dict_get (category i) (menu_data st) with
  | Some cd => ~ In i (items cd)
  | None => True
  end ->
  let added := add_new_item i st in
  0 <= j < display_len added ->
  py_index (display_items added) j = Some (DItem i) ->
  menu_data added = add_new_item_data st i
  /\ menu_data (action_delete_item (with_current_index added j))
     = menu_data st.
Proof.
  intros Hst Hnew. cbv zeta. intros Hj Hsel.
  assert (Hmd1 : menu_data (add_new_item i st) = add_new_item_data st i).
  { unfold add_new_item. apply stored_stable_tree.
    now apply add_new_item_data_stable. }
  split; [exact Hmd1|].
  set (s := with_current_index (add_new_item i st) j).
  assert (Hcc : column_count s = column_count st).
  { unfold s, add_new_item. simpl column_count.
    destruct (update_menu_display_tree
                (save_menu_data
                   (with_menu_data st (add_new_item_data st i))))
      as (_ & -> & _). reflexivity. }
  assert (Hdel : delete_item_data (menu_data s) i = Some (menu_data st)).
  { unfold s. simpl menu_data. rewrite Hmd1.
    apply delete_item_data_undoes_add.
    destruct (dict_get (category i) (menu_data st)) as [cd|] eqn:E;
      [|exact I].
    split; [|exact Hnew].
    destruct (stable_get _ _ _ _ Hst E) as (Hne & _). exact Hne. }
  rewrite (action_delete_item_on_item s i (menu_data st) Hj Hsel Hdel).
  destruct (adjust_index_keeps_tree
              (update_menu_display
                 (save_menu_data (with_menu_data s (menu_data st)))))
    as [-> _].
  apply stored_stable_tree. rewrite Hcc. exact Hst.
Qed.

Lemma delete_undoes_add_witness :
  menu_data
    (action_delete_item
       (with_current_index (add_new_item editor_new sample_app) 4))
  = sample_tree.
Proof.
  destruct (delete_undoes_add sample_app editor_new 4) as [_ H].
  - exact sample_tree_stable.
  - simpl. intros [E|[]]. discriminate E.
  - vm_compute. split; [discriminate|reflexivity].
  - reflexivity.
  - exact H.
Defined.

(** *** Renaming a category *)



(** X23.  The guard of [update_category_details]: on a tree as the
    display leaves it, asked to rename a category to the name of another
    one, it keeps the old name, stores the column and the sanitised
    colours under it, with the items and the [expanded] flag as they were,
    keeps the order of the categories, and leaves the other category and
    every other one as they are. *)
Theorem details_collision_keeps_name (st : App) (A B : string)
    (cd : Category) (colors_arg : option ColorPair) (column_arg : option Z) :
  stable (column_count st) (menu_data st) ->
  dict_get A (menu_data st) = Some cd ->
  B <> A -> dict_mem B (menu_data st) = true ->
  let st' := update_category_details A B colors_arg column_arg st in
  dict_keys (menu_data st') = dict_keys (menu_data st)
  /\ (exists cd',
        dict_get A (menu_data st') = Some cd'
        /\ items cd' = items cd
        /\ expanded cd' = expanded cd
        /\ colors cd' = sanitize_color_pair colors_arg
        /\ column cd'
           = Some (normalize_column_value (column_count st)
                     (match column_arg with
                      | Some c => c
                      | None => column_or_1 cd
                      end)))
  /\ (forall k, k <> A ->
        dict_get k (menu_data st') = dict_get k (menu_data st)).
Proof.
  intros Hst Hg Hne Hm. cbv zeta.
  pose proof (details_collision_data st A B cd colors_arg column_arg
                Hg Hne Hm) as Hdata.
  destruct (update_category_details_menu _ _ _ _ _ _ _ Hdata) as [-> _].
  destruct (stable_get _ _ _ _ Hst Hg) as (Hfull & _).
  rewrite stored_stable_tree.
  - split.
    { rewrite dict_keys_set. unfold dict_mem. now rewrite Hg. }
    split.
    + eexists. split; [apply dict_get_set_same|]. simpl. auto.
    + intros k Hk. apply dict_get_set_other. congruence.
  - apply stable_dict_set; [exact Hst|exact Hfull|].
    eexists. split; [reflexivity|apply normalize_column_value_idem].
Qed.

Lemma details_collision_keeps_name_witness :
  dict_keys
    (menu_data
       (update_category_details "Work" "Play" None (Some 1) sample_app))
  = ["Work"; "Play"]
  /\ exists cd',
       dict_get "Work"
         (menu_data
            (update_category_details "Work" "Play" None (Some 1) sample_app))
       = Some cd'
       /\ items cd' = [editor_work] /\ column cd' = Some 1.
Proof.
  destruct (details_collision_keeps_name sample_app "Work" "Play"
              (mkCategory true (Some 1) None [editor_work]) None (Some 1))
    as (H1 & (cd' & H2 & H3 & _ & _ & H6) & _).
  - exact sample_tree_stable.
  - reflexivity.
  - discriminate.
  - reflexivity.
  - split; [exact H1|]. exists cd'. auto.
Defined.

(** *** Editing a category in the dialog *)

(** X12.  What the category editor is dismissed with is stored as typed:
    for a category of the tree that has an item, and at least one column,
    after [handle_category_edit_result] the category is in the tree of
    the state under the name that was typed, in the column and with the
    colours of the result, expanded or not as it was and with the labels
    of its items as they were; nothing is left under the old name when
    the name changed; and the palette of the state is that of the
    result.  The guard of [update_category_details] against a name that
    is taken never meets a result of the editor. *)
Theorem edited_category_is_stored (st : App) (name : string)
    (inp : CategoryInputs) (result : CategoryResult) (cd : Category) :
  1 <= column_count st ->
  dict_get name (menu_data st) = Some cd ->
  items cd <> [] ->
  action_save (open_category_editor st name) inp = Dismiss result ->
  let st' := handle_category_edit_result result st in
  let typed := Py.strip (category_input inp) in
  edit_category name inp st = (None, st')
  /\ (exists cd',
        dict_get typed (menu_data st') = Some cd'
        /\ column cd' = Some (r_column result)
        /\ colors cd' = r_colors result
        /\ expanded cd' = expanded cd
        /\ List.map label (items cd') = List.map label (items cd))
  /\ (typed <> name -> dict_get name (menu_data st') = None)
  /\ custom_colors st' = r_custom_colors result.
Proof.
  intros Hcc Hget Hfull Hsave. cbv zeta.
  split; [unfold edit_category; now rewrite Hsave|].
  destruct (edited_category_data st name inp result cd Hcc Hget Hsave)
    as (md' & cd0 & Hdata & Hold & Hg0 & Hcol & Hrange & Hco & Hex & Hlab
        & Hgone).
  unfold handle_category_edit_result.
  destruct (update_category_details_menu _ _ _ _ _ _ _ Hdata) as [-> ->].
  destruct (update_menu_display_tree
              (save_menu_data
                 (with_menu_data
                    (with_custom_colors st (r_custom_colors result)) md')))
    as (-> & _).
  simpl menu_container. simpl menu_data. simpl column_count.
  simpl custom_colors.
  assert (Hne0 : items cd0 <> []).
  { intros E. rewrite E in Hlab. destruct (items cd); [congruence|].
    discriminate. }
  destruct (menu_container st).
  - destruct (dict_get_display_tree (column_count st) _ _ _ Hg0 Hne0)
      as (cd' & Hg' & Hi' & He' & Hc' & Hcol').
    split; [|split; [|reflexivity]].
    + exists cd'. split; [exact Hg'|].
      split.
      { rewrite Hcol'. unfold column_or_1. rewrite Hcol.
        unfold normalize_column_value. f_equal. lia. }
      split; [congruence|]. split; [congruence|]. now rewrite Hi'.
    + intros Hn. apply dict_get_display_tree_none. auto.
  - split; [|split; [exact Hgone|reflexivity]].
    exists cd0. auto.
Qed.

Lemma edited_category_is_stored_witness :
  exists cd',
    dict_get "Office"
      (menu_data
         (handle_category_edit_result
            (mkCategoryResult "Work" "Office"
               (Some (mkColorPair "#1a2b3c" "#ffffff")) 1
               DEFAULT_COLOR_PAIRS)
            sample_app))
    = Some cd'
    /\ column cd' = Some 1
    /\ colors cd' = Some (mkColorPair "#1a2b3c" "#ffffff")
    /\ expanded cd' = true
    /\ List.map label (items cd') = ["Editor"].
Proof.
  destruct (edited_category_is_stored sample_app "Work"
              (mkCategoryInputs " Office " "1A2B3C" "#FFFFFF " "7")
              (mkCategoryResult "Work" "Office"
                 (Some (mkColorPair "#1a2b3c" "#ffffff")) 1
                 DEFAULT_COLOR_PAIRS)
              (mkCategory true (Some 1) None [editor_work]))
    as (_ & H & _).
  - simpl. lia.
  - reflexivity.
  - discriminate.
  - reflexivity.
  - exact H.
Defined.
